(** * TMDB trending / historical export scripts: model and verification

    A shallow embedding of [src/tmdb_weekly_trend.py] and
    [src/tmdb_historical.py].

    - Python [str] values are [string]s, one [ascii] per code point (code
      points below 256).
    - JSON numbers that pandas stores in a float column ([popularity],
      [vote_average]) are rationals [Q]: every finite float is a rational and
      float comparison agrees with [Q] comparison.  A missing value ([None],
      pandas [NaN]) is [None].
    - A raw result (a JSON object read with [.get]) is a record of optional
      fields: [None] is an absent key.
    - [Dict[int, str]] is [gmap Z string]; request parameters are
      [gmap string pval].
    - A [DataFrame] is the list of its rows, in index order.
    - The network and the clock are explicit: every program runs in a world
      that logs what it asked for and how long it slept.
    - The files under [DATA_DIR] are a map from names to what was written; a
      CSV table is the list of its rows, and reading one back goes through
      the default missing-value handling of [pd.read_csv]. *)

From Stdlib Require Import ZArith QArith String Ascii List Sorted Permutation Lia.
From stdpp Require Import base option list strings gmap pretty sorting.

Local Open Scope string_scope.
Local Open Scope list_scope.

(** ** Python built-ins used by the scripts *)

Module Py.

(** [str.isspace] on one code point below 256. *)
Definition isspace (c : ascii) : bool :=
  let n := nat_of_ascii c in
  ((9 <=? n)%nat && (n <=? 13)%nat) || ((28 <=? n)%nat && (n <=? 32)%nat)
  || (n =? 133)%nat || (n =? 160)%nat.

Fixpoint lstrip (s : string) : string :=
  match s with
  | EmptyString => EmptyString
  | String c s' => if isspace c then lstrip s' else s
  end.

Fixpoint rstrip (s : string) : string :=
  match s with
  | EmptyString => EmptyString
  | String c s' =>
      match rstrip s' with
      | EmptyString => if isspace c then EmptyString else String c EmptyString
      | t => String c t
      end
  end.

(** [s.strip()] *)
Definition strip (s : string) : string := rstrip (lstrip s).

(** [s.split(sep)] for a one-character separator: never returns [[]]. *)
Fixpoint split (sep : ascii) (s : string) : list string :=
  match s with
  | EmptyString => [EmptyString]
  | String c s' =>
      if Ascii.eqb c sep then EmptyString :: split sep s'
      else match split sep s' with
           | [] => [String c EmptyString]
           | t :: ts => String c t :: ts
           end
  end.

(** [sep.join(l)] *)
Fixpoint join (sep : string) (l : list string) : string :=
  match l with
  | [] => ""
  | [x] => x
  | x :: l' => x +:+ sep +:+ join sep l'
  end.

(** Truth value of a [str]. *)
Definition truthy (s : string) : bool :=
  match s with EmptyString => false | _ => true end.

(** [a or b] on two optional strings: [a] when it is truthy, else [b]. *)
Definition or_str (a b : option string) : option string :=
  match a with
  | Some s => if truthy s then a else b
  | None => b
  end.

(** [s[:n]] *)
Definition prefix (n : nat) (s : string) : string := String.substring 0 n s.

(** [str(i)] for an [int]. *)
Definition str_int (i : Z) : string := pretty i.

(** What an f-string prints for [r.get('id')]. *)
Definition fmt_opt_int (i : option Z) : string :=
  match i with Some z => str_int z | None => "None" end.

(** [range(a, b)] *)
Definition range (a b : Z) : list Z :=
  (fun k => (a + Z.of_nat k)%Z) <$> seq 0 (Z.to_nat (b - a)).

(** [l[:n]] on a list ([DataFrame.head(n)]); a negative [n] counts from
    the end. *)
Definition head {A} (n : Z) (l : list A) : list A :=
  if (0 <=? n)%Z then take (Z.to_nat n) l
  else take (length l - Z.to_nat (- n)) l.

End Py.

(** ** Sorting, as pandas does it

    [DataFrame.sort_values(by=[col], ascending=False, kind=k)] computes an
    indexer from the column alone ([nargsort]) and then takes the rows in
    that order:
    - the missing values are set apart and go last, in their order;
    - for a descending sort, the values and their positions are reversed, the
      values are arg-sorted ascending by [kind], and the resulting indexer is
      reversed again. *)

Section StableSort.
Context {A : Type} (leb : A -> A -> bool).

(** [x] goes in front of the first element it does not exceed. *)
Fixpoint insert_sorted (x : A) (l : list A) : list A :=
  match l with
  | [] => [x]
  | y :: l' => if leb x y then x :: l else y :: insert_sorted x l'
  end.

(** The stable ascending sort.  [kind="mergesort"] asks for a stable sort;
    how it is carried out does not matter, since only one list is sorted and
    keeps equal elements in their input order ([stable_sort_unique] below):
    insertion stands for it here. *)
Definition stable_sort (l : list A) : list A := foldr insert_sorted [] l.
End StableSort.

Section Nargsort.
Context {K : Type} (leb : K -> K -> bool).

(** [rows.take(indexer)] *)
Definition take_rows {A} (rows : list A) (indexer : list nat) : list A :=
  omap (fun i => rows !! i) indexer.

(** [values.argsort(kind="mergesort")]: positions of the values, sorted
    ascending and stably by value. *)
Definition argsort_mergesort (vals : list K) : list nat :=
  snd <$> stable_sort (fun a b => leb a.1 b.1) (zip vals (seq 0 (length vals))).

(** What any [argsort] promises: a rearrangement of the positions along
    which the values ascend. *)
Definition argsort_ok (argsort : list K -> list nat) : Prop :=
  forall vals,
    Permutation (argsort vals) (seq 0 (length vals)) /\
    StronglySorted (fun i j => forall a b, vals !! i = Some a -> vals !! j = Some b -> leb a b = true)
      (argsort vals).

(** [nargsort(items, kind, ascending=False, na_position="last")] *)
Definition nargsort_desc (argsort : list K -> list nat) (items : list (option K)) : list nat :=
  let idx := seq 0 (length items) in
  let non_nans := omap (fun k => k) items in
  let non_nan_idx := snd <$> filter (fun p => is_Some p.1) (zip items idx) in
  let nan_idx := snd <$> filter (fun p => p.1 = None) (zip items idx) in
  let non_nans := rev non_nans in
  let non_nan_idx := rev non_nan_idx in
  let indexer := take_rows non_nan_idx (argsort non_nans) in
  rev indexer ++ nan_idx.

(** [df.sort_values(by=[col], ascending=False, kind=...).reset_index(drop=True)] *)
Definition sort_values_desc {A} (argsort : list K -> list nat) (col : A -> option K)
    (df : list A) : list A :=
  take_rows df (nargsort_desc argsort (col <$> df)).
End Nargsort.

(** ** The default sort kind: numpy's quicksort

    [sort_values] without [kind] arg-sorts with numpy's [kind="quicksort"].
    For 64-bit integers the portable routine is [aquicksort_] of
    [npysort/quicksort.cpp], transcribed here: an introsort over the array
    [tosort] of positions, which partitions a range of more than 17 positions
    around the median of three and sorts a shorter range by insertion.
    Positions and pointers into [tosort] are natural numbers; the values
    [v] are never written.  (On processors with vector instructions numpy may
    hand the sort to a vectorised routine; neither routine is stable.) *)

Module Numpy.

Definition SMALL_QUICKSORT : nat := 16.

(** [npy_get_msb]: the position of the highest bit set. *)
Definition npy_get_msb (unum : nat) : Z := Z.log2 (Z.of_nat unum).

Section Quicksort.
Context (v : list Z).

(** [*p] and [v[*p]] for a position [p] of [tosort]. *)
Definition deref (tosort : list nat) (p : nat) : nat := default 0%nat (tosort !! p).
Definition val (tosort : list nat) (p : nat) : Z := default 0%Z (v !! deref tosort p).

(** [INTP_SWAP] of [*p] and [*q] *)
Definition swap (p q : nat) (tosort : list nat) : list nat :=
  <[q := deref tosort p]> (<[p := deref tosort q]> tosort).

(** [INTP_SWAP] of [*p] and [*q] if [less(v[*p], v[*q])] *)
Definition swap_if_less (p q : nat) (tosort : list nat) : list nat :=
  if (val tosort p <? val tosort q)%Z then swap p q tosort else tosort.

(** [do { ++pi; } while (less(v[*pi], vp))] *)
Fixpoint scan_up (fuel : nat) (tosort : list nat) (vp : Z) (pi : nat) : option nat :=
  match fuel with
  | O => None
  | S fuel =>
      let pi := S pi in
      if (val tosort pi <? vp)%Z then scan_up fuel tosort vp pi else Some pi
  end.

(** [do { --pj; } while (less(vp, v[*pj]))] *)
Fixpoint scan_down (fuel : nat) (tosort : list nat) (vp : Z) (pj : nat) : option nat :=
  match fuel with
  | O => None
  | S fuel =>
      let pj := pred pj in
      if (vp <? val tosort pj)%Z then scan_down fuel tosort vp pj else Some pj
  end.

(** The [for (;;)] of the partition: it ends with [pi >= pj]. *)
Fixpoint partition (fuel : nat) (tosort : list nat) (vp : Z) (pi pj : nat)
    : option (list nat * nat) :=
  match fuel with
  | O => None
  | S fuel =>
      pi ← scan_up (length tosort) tosort vp pi;
      pj ← scan_down (length tosort) tosort vp pj;
      if (pj <=? pi)%nat then Some (tosort, pi)
      else partition fuel (swap pi pj tosort) vp pi pj
  end.

(** [while (pj > pl && less(vp, v[*pk])) { *pj-- = *pk--; }], with
    [pk = pj - 1] throughout. *)
Fixpoint shift (tosort : list nat) (pl : nat) (vp : Z) (pj : nat) : list nat * nat :=
  match pj with
  | O => (tosort, pj)
  | S pk =>
      if (pl <? pj)%nat && (vp <? val tosort pk)%Z
      then shift (<[pj := deref tosort pk]> tosort) pl vp pk
      else (tosort, pj)
  end.

(** The insertion sort of the positions [pl .. pr]. *)
Definition insertion_sort (tosort : list nat) (pl pr : nat) : list nat :=
  foldl (fun tosort pi =>
           let vi := deref tosort pi in
           let vp := default 0%Z (v !! vi) in
           let '(tosort, pj) := shift tosort pl vp pi in
           <[pj := vi]> tosort)
        tosort (seq (S pl) (pr - pl)).

(** The [while ((pr - pl) > SMALL_QUICKSORT)] loop: median of three,
    partition, the larger part pushed on the stack with its depth. *)
Fixpoint partitions (fuel : nat) (tosort : list nat) (pl pr : nat)
    (stack : list (nat * nat * Z)) (cdepth : Z)
    : option (list nat * nat * nat * list (nat * nat * Z) * Z) :=
  if (SMALL_QUICKSORT <? pr - pl)%nat then
    match fuel with
    | O => None
    | S fuel =>
        let pm := (pl + (pr - pl) / 2)%nat in
        let tosort := swap_if_less pm pl tosort in
        let tosort := swap_if_less pr pm tosort in
        let tosort := swap_if_less pm pl tosort in
        let vp := val tosort pm in
        let pi := pl in
        let pj := (pr - 1)%nat in
        let tosort := swap pm pj tosort in
        '(tosort, pi) ← partition (length tosort) tosort vp pi pj;
        let pk := (pr - 1)%nat in
        let tosort := swap pi pk tosort in
        let cdepth := (cdepth - 1)%Z in
        if (pi - pl <? pr - pi)%nat
        then partitions fuel tosort pl (pi - 1) ((S pi, pr, cdepth) :: stack) cdepth
        else partitions fuel tosort (S pi) pr ((pl, (pi - 1)%nat, cdepth) :: stack) cdepth
    end
  else Some (tosort, pl, pr, stack, cdepth).

(** The [while (1)] loop.  [None]: the depth limit is reached, where numpy
    goes on with a heap sort that is not followed here, or [fuel] is used
    up. *)
Fixpoint sort_ranges (fuel : nat) (tosort : list nat) (pl pr : nat)
    (stack : list (nat * nat * Z)) (cdepth : Z) : option (list nat) :=
  match fuel with
  | O => None
  | S fuel =>
      if (cdepth <? 0)%Z then None
      else
        '(tosort, pl, pr, stack, cdepth) ← partitions (length tosort) tosort pl pr stack cdepth;
        let tosort := insertion_sort tosort pl pr in
        match stack with
        | [] => Some tosort
        | (pl, pr, cdepth) :: stack => sort_ranges fuel tosort pl pr stack cdepth
        end
  end.
End Quicksort.

(** [aquicksort_(v, tosort, num)] on [tosort = 0, ..., num - 1], as
    [argsort] calls it. *)
Definition aquicksort (v : list Z) : option (list nat) :=
  let num := length v in
  sort_ranges v (S num) (seq 0 num) 0 (num - 1) [] (npy_get_msb num * 2).

End Numpy.

(** [values.argsort()] with the default kind.  The empty indexer stands for
    a run that [Numpy.aquicksort] does not follow to its end. *)
Definition numpy_quicksort (vals : list Z) : list nat :=
  default [] (Numpy.aquicksort vals).

(** Descending order of a column, missing values last. *)
Definition desc_by {A K} (leb : K -> K -> bool) (col : A -> option K) (a b : A) : Prop :=
  match col a, col b with
  | Some x, Some y => leb y x = true
  | Some _, None => True
  | None, Some _ => False
  | None, None => True
  end.

(** A row is in a class of values when its value is. *)
Definition in_class {A K} (col : A -> option K) (C : K -> bool) (r : A) : bool :=
  match col r with Some v => C v | None => false end.

(** Two rows hold the same value in a column (both missing counts). *)
Definition same_key {A} (col : A -> option Q) (k : option Q) (a : A) : bool :=
  match k, col a with
  | Some x, Some y => Qeq_bool x y
  | None, None => true
  | _, _ => false
  end.

(** [df.empty] *)
Definition is_empty {A} (df : list A) : bool :=
  match df with [] => true | _ => false end.

(** ** Data model *)

(** A raw result of the API: the keys the scripts read, each optional. *)
Module Raw.
Record t := mk {
  id : option Z;
  media_type : option string;
  title : option string;
  name : option string;
  release_date : option string;
  first_air_date : option string;
  genre_ids : option (list Z);
  popularity : option Q;
  vote_average : option Q;
  vote_count : option Z;
  original_language : option string;
  overview : option string;
  poster_path : option string;
  backdrop_path : option string
}.

(** [r["media_type"] = media_type] *)
Definition set_media_type (mt : string) (r : t) : t :=
  mk (id r) (Some mt) (title r) (name r) (release_date r) (first_air_date r)
     (genre_ids r) (popularity r) (vote_average r) (vote_count r)
     (original_language r) (overview r) (poster_path r) (backdrop_path r).
End Raw.

(** One entry of a genre reference list: [g["id"]], [g["name"]]. *)
Record Genre := { g_id : Z; g_name : string }.

(** One entry of a cast list: [c.get("name")]. *)
Record CastMember := { c_name : option string }.

(** A parsed JSON body: the keys the scripts read with [.get(key, [])]. *)
Record Body := {
  results : option (list Raw.t);
  genres : option (list Genre);
  cast : option (list CastMember)
}.

Definition empty_body : Body := {| results := None; genres := None; cast := None |}.

(** A query parameter value. *)
Inductive pval := PInt (i : Z) | PStr (s : string).

(** Exceptions the scripts raise or let through. *)
Inductive exn :=
| RuntimeError (msg : string)
| ValueError (msg : string)
| TypeError (msg : string)
| AttributeError (msg : string)
| ParserError (msg : string)
| ConnectionError (msg : string)
| JSONDecodeError (msg : string)
| SystemExit (msg : string).

(** ** Genre map: [{g["id"]: g["name"] for g in l}] and [dict.update] *)

(** A dict comprehension inserts the entries in order: a later entry with the
    same key replaces an earlier one. *)
Definition dict_of_genres (l : list Genre) : gmap Z string :=
  foldl (fun m g => <[g_id g := g_name g]> m) ∅ l.

(** [d.update(other)]: the entries of [other] replace those of [d]. *)
Definition dict_update (d other : gmap Z string) : gmap Z string := other ∪ d.

(** The two reference lists merged, as [get_genre_map] does after its two
    fetches. *)
Definition merge_genre_lists (movie tv : Body) : gmap Z string :=
  let genre_map := dict_of_genres (default [] (genres movie)) in
  dict_update genre_map (dict_of_genres (default [] (genres tv))).

(** The names a reference list gives an identifier, in list order. *)
Definition names_for (i : Z) (l : list Genre) : list string :=
  g_name <$> List.filter (fun g => (g_id g =? i)%Z) l.

(** The name the specification gives an identifier after the merge: the
    series list's, when it has one, else the movie list's. *)
Definition merged_name (movie tv : list Genre) (i : Z) : option string :=
  match last (names_for i tv) with
  | Some n => Some n
  | None => last (names_for i movie)
  end.

(** [[genre_map.get(gid, str(gid)) for gid in genre_ids]] *)
Definition genre_names (genre_map : gmap Z string) (genre_ids : list Z) : list string :=
  (fun gid => default (Py.str_int gid) (genre_map !! gid)) <$> genre_ids.

(** ** Genre expansion ([expand_by_genre], the same in both scripts) *)

(** A row with the extra [genre] column. *)
Record Expanded (Row : Type) := { base : Row; genre : string }.
Arguments base {Row} _.
Arguments genre {Row} _.

Section Expand.
Context {Row : Type} (genres_of : Row -> string).

(** [[x.strip() for x in str(r["genres"]).split(";") if x and x.strip()]] *)
Definition g_list (r : Row) : list string :=
  Py.strip <$> List.filter (fun x => Py.truthy x && Py.truthy (Py.strip x))
                           (Py.split ";" (genres_of r)).

(** The rows appended for one input row. *)
Definition expand_row (r : Row) : list (Expanded Row) :=
  match g_list r with
  | [] => [ {| base := r; genre := "" |} ]
  | gs => (fun g => {| base := r; genre := g |}) <$> gs
  end.

Definition expand_by_genre (df : list Row) : list (Expanded Row) :=
  df ≫= expand_row.

(** The tokens, computed: split, trim, drop the empty ones.  [tokens_of]
    below says what they are without [split] and [strip]. *)
Definition spec_tokens (s : string) : list string :=
  List.filter Py.truthy (Py.strip <$> Py.split ";" s).

(** The genre fields the specification asks for: the tokens, or one empty
    genre when there is none. *)
Definition spec_genres (tokens : list string) : list string :=
  match tokens with [] => [""] | _ :: _ => tokens end.
End Expand.

(** *** The tokens of a genre field, without [split] and [strip]

    What "split on the semicolon, trim the white space, drop the empty
    tokens" asks of a string, said with concatenation alone. *)

(** The white space [str.strip] removes, code points below 256: tab, line
    feed, vertical tab, form feed, carriage return, the separators FS, GS, RS
    and US, the space, NEL and the no-break space. *)
Definition whitespace : list ascii :=
  ["009"; "010"; "011"; "012"; "013"; "028"; "029"; "030"; "031"; " "; "133"; "160"]%char.

(** A string of white space only. *)
Definition spaces (s : string) : Prop :=
  Forall (fun c => c ∈ whitespace) (list_ascii_of_string s).

(** A string with no white space at either end. *)
Definition bare (t : string) : Prop :=
  (forall c, head (list_ascii_of_string t) = Some c -> c ∉ whitespace) /\
  (forall c, last (list_ascii_of_string t) = Some c -> c ∉ whitespace).

(** [t] is [x] without the white space around it. *)
Definition trimmed (x t : string) : Prop :=
  exists l r, x = l +:+ t +:+ r /\ spaces l /\ spaces r /\ bare t.

(** [pieces] are the stretches of [s] between its semicolons: none holds a
    semicolon, and joined by semicolons they give [s] back (a string without
    semicolon is its one piece). *)
Definition pieces_of (s : string) (pieces : list string) : Prop :=
  String.concat ";" pieces = s /\ pieces <> [] /\
  Forall (fun p => ";"%char ∉ list_ascii_of_string p) pieces.

(** [tokens] are the tokens of the genre field [s]: its pieces, each
    trimmed, the empty ones dropped, in order. *)
Definition tokens_of (s : string) (tokens : list string) : Prop :=
  exists pieces trims,
    pieces_of s pieces /\ Forall2 trimmed pieces trims /\
    tokens = filter (fun t => t <> "") trims.

(** ** Normalization *)

(** [kind="mergesort"] on a float column. *)
Definition mergesort_Q : list Q -> list nat := argsort_mergesort Qle_bool.

Module Trend.

Record Row := {
  id : option Z;
  media_type : option string;
  title : option string;
  date : option string;
  popularity : option Q;
  vote_average : option Q;
  vote_count : option Z;
  original_language : option string;
  genres : string;
  overview : option string;
  poster_path : option string;
  backdrop_path : option string;
  tmdb_url : string
}.

(** The dict appended to [rows] for one result. *)
Definition build_row (genre_map : gmap Z string) (r : Raw.t) : Row :=
  let media_type := Raw.media_type r in
  let title := Py.or_str (Raw.title r) (Raw.name r) in
  let date := Py.or_str (Raw.release_date r) (Raw.first_air_date r) in
  let genre_ids := default [] (Raw.genre_ids r) in
  let genres := genre_names genre_map genre_ids in
  let tmdb_url :=
    if decide (media_type = Some "movie")
    then "https://www.themoviedb.org/movie/" +:+ Py.fmt_opt_int (Raw.id r)
    else if decide (media_type = Some "tv")
    then "https://www.themoviedb.org/tv/" +:+ Py.fmt_opt_int (Raw.id r)
    else "" in
  {| id := Raw.id r; media_type := media_type; title := title; date := date;
     popularity := Raw.popularity r; vote_average := Raw.vote_average r;
     vote_count := Raw.vote_count r; original_language := Raw.original_language r;
     genres := Py.join "; " genres;
     overview := Raw.overview r; poster_path := Raw.poster_path r;
     backdrop_path := Raw.backdrop_path r; tmdb_url := tmdb_url |}.

(** [normalize_trending]: an empty frame is returned as it is. *)
Definition normalize_trending (results : list Raw.t) (genre_map : gmap Z string) : list Row :=
  let df := build_row genre_map <$> results in
  match df with
  | [] => df
  | _ => sort_values_desc mergesort_Q popularity df
  end.

End Trend.

Module Historical.

Record Row := {
  id : option Z;
  media_type : option string;
  title : option string;
  date : option string;
  popularity : option Q;
  vote_average : option Q;
  vote_count : option Z;
  original_language : option string;
  genres : string
}.

Definition build_row (genre_map : gmap Z string) (r : Raw.t) : Row :=
  let media_type := Raw.media_type r in
  let title := Py.or_str (Raw.title r) (Raw.name r) in
  let date := Py.or_str (Raw.release_date r) (Raw.first_air_date r) in
  let genre_ids := default [] (Raw.genre_ids r) in
  let genres := genre_names genre_map genre_ids in
  {| id := Raw.id r; media_type := media_type; title := title; date := date;
     popularity := Raw.popularity r; vote_average := Raw.vote_average r;
     vote_count := Raw.vote_count r; original_language := Raw.original_language r;
     genres := Py.join "; " genres |}.

(** [normalize_results] *)
Definition normalize_results (results : list Raw.t) (genre_map : gmap Z string) : list Row :=
  let df := build_row genre_map <$> results in
  match df with
  | [] => df
  | _ => sort_values_desc mergesort_Q popularity df
  end.

End Historical.

(** The popularity columns of two result lists agree position by position. *)
Definition same_popularity_column (results results' : list Raw.t) : Prop :=
  Forall2 (fun r r' => option_Forall2 Qeq (Raw.popularity r) (Raw.popularity r'))
    results results'.

(** ** The HTTP layer: [fetch_json] over [requests.get] and [time.sleep] *)

Definition API_BASE : string := "https://api.themoviedb.org/3".

Module Http.

(** What [fetch_json] reads off a [requests] response: the status, the text
    and the parsed body.  Here a GET always yields a response, and a response
    always parses; [Wire] below follows [fetch_json] when [requests.get] or
    [resp.json()] raises. *)
Record Response := { status_code : Z; text : string; json : Body }.

Inductive event :=
| Get (url : string) (params : gmap string pval) (resp : Response)
| Sleep (secs : Q).

Section Remote.
(** The remote API: any state machine answering one GET at a time. *)
Context {S : Type} (remote : string -> gmap string pval -> S -> Response * S).

(** The remote's state and the log of what the process did, oldest
    first. *)
Record world := { remote_state : S; log : list event }.

Definition requests_get (url : string) (params : gmap string pval) (w : world)
  : Response * world :=
  let (resp, s) := remote url params (remote_state w) in
  (resp, {| remote_state := s; log := log w ++ [Get url params resp] |}).

Definition sleep (secs : Q) (w : world) : world :=
  {| remote_state := remote_state w; log := log w ++ [Sleep secs] |}.

(** The body of [for attempt in range(3)] and the [raise] after it;
    [last_resp] is the loop-carried variable. *)
Fixpoint attempts (url : string) (params : gmap string pval) (todo : list Z)
    (last_resp : option Response) (w : world) : (exn + Body) * world :=
  match todo with
  | [] =>
      match last_resp with
      | Some r =>
          (inl (RuntimeError ("HTTP " +:+ Py.str_int (status_code r) +:+ " for " +:+ url
                              +:+ ": " +:+ Py.prefix 300 (text r))), w)
      | None => (inl (AttributeError "'NoneType' object has no attribute 'status_code'"), w)
      end
  | attempt :: todo' =>
      let (resp, w) := requests_get url params w in
      if (status_code resp =? 200)%Z then (inr (json resp), w)
      else attempts url params todo' (Some resp) (sleep (inject_Z (1 + attempt)) w)
  end.

(** [fetch_json(path, params)]; [params or {}]. *)
Definition fetch_json (path : string) (params : option (gmap string pval)) (w : world)
  : (exn + Body) * world :=
  let url := API_BASE +:+ path in
  attempts url (default ∅ params) (Py.range 0 3) None w.
End Remote.

Arguments world : clear implicits.

Definition is_sleep (e : event) : bool :=
  match e with Get _ _ _ => false | Sleep _ => true end.

End Http.

(** ** [fetch_json] when the library raises

    [Http] follows [fetch_json] as long as every GET is answered and every
    answer with status 200 parses.  [requests.get] may also raise (no
    connection, a timeout), and so may [resp.json()] on a text that is not
    JSON; [fetch_json] catches neither.  Here a GET yields a response or an
    exception, and a response holds what its [json()] does. *)
Module Wire.

Record Response := { status_code : Z; text : string; json : exn + Body }.

Inductive event :=
| Get (url : string) (params : gmap string pval) (out : exn + Response)
| Sleep (secs : Q).

Section Remote.
Context {S : Type} (remote : string -> gmap string pval -> S -> (exn + Response) * S).

Record world := { remote_state : S; log : list event }.

Definition requests_get (url : string) (params : gmap string pval) (w : world)
  : (exn + Response) * world :=
  let (out, s) := remote url params (remote_state w) in
  (out, {| remote_state := s; log := log w ++ [Get url params out] |}).

Definition sleep (secs : Q) (w : world) : world :=
  {| remote_state := remote_state w; log := log w ++ [Sleep secs] |}.

(** The body of [for attempt in range(3)] and the [raise] after it. *)
Fixpoint attempts (url : string) (params : gmap string pval) (todo : list Z)
    (last_resp : option Response) (w : world) : (exn + Body) * world :=
  match todo with
  | [] =>
      match last_resp with
      | Some r =>
          (inl (RuntimeError ("HTTP " +:+ Py.str_int (status_code r) +:+ " for " +:+ url
                              +:+ ": " +:+ Py.prefix 300 (text r))), w)
      | None => (inl (AttributeError "'NoneType' object has no attribute 'status_code'"), w)
      end
  | attempt :: todo' =>
      let (out, w) := requests_get url params w in
      match out with
      | inl e => (inl e, w)
      | inr resp =>
          if (status_code resp =? 200)%Z then (json resp, w)
          else attempts url params todo' (Some resp) (sleep (inject_Z (1 + attempt)) w)
      end
  end.

Definition fetch_json (path : string) (params : option (gmap string pval)) (w : world)
  : (exn + Body) * world :=
  let url := API_BASE +:+ path in
  attempts url (default ∅ params) (Py.range 0 3) None w.
End Remote.

Arguments world : clear implicits.

(** What the GETs of a log were answered, in order. *)
Definition outcomes (l : list event) : list (exn + Response) :=
  omap (fun e => match e with Get _ _ out => Some out | Sleep _ => None end) l.



(** A remote of [Http], which always answers with a body that parses. *)
Definition of_response (r : Http.Response) : Response :=
  {| status_code := Http.status_code r; text := Http.text r; json := inr (Http.json r) |}.

Definition of_event (e : Http.event) : event :=
  match e with
  | Http.Get url params r => Get url params (inr (of_response r))
  | Http.Sleep secs => Sleep secs
  end.

Definition of_world {S} (w : Http.world S) : world S :=
  {| remote_state := Http.remote_state w; log := of_event <$> Http.log w |}.

Definition of_remote {S} (remote : string -> gmap string pval -> S -> Http.Response * S)
    (url : string) (params : gmap string pval) (s : S) : (exn + Response) * S :=
  let (r, s') := remote url params s in (inr (of_response r), s').

End Wire.

(** ** The scripts over [fetch_json]

    The callers of [fetch_json] see one thing of it: whether it returned a
    parsed body or raised.  They run against any state machine with that
    interface; [Http.fetch_json] over any remote is one. *)

(** A row of the trending frame after [df["week"] = week_label]. *)
Record Weekly := { row : Trend.Row; week : string }.

(** What the scripts write under [DATA_DIR]. *)
Inductive artifact :=
| GenresJson (genre_map : gmap Z string)
| RawJson (trending : Body)
| Table (rows : list Weekly)
| ByGenre (rows : list (Expanded Weekly))
| CastCounts (rows : list (string * Z)).

Inductive event :=
| Fetch (path : string) (params : option (gmap string pval)) (out : exn + Body)
| Sleep (secs : Q).

(** The path and parameters of the calls in a log, in order. *)
Definition calls (l : list event) : list (string * option (gmap string pval)) :=
  omap (fun e => match e with Fetch p q _ => Some (p, q) | Sleep _ => None end) l.

(** The answers to the calls in a log, in order. *)
Definition answers (l : list event) : list (exn + Body) :=
  omap (fun e => match e with Fetch _ _ o => Some o | Sleep _ => None end) l.

(** The result list of an answer: [data.get("results", [])]. *)
Definition page_of (o : exn + Body) : list Raw.t :=
  match o with inr data => default [] (results data) | inl _ => [] end.

(** An answer that ends a page loop: an exception, or an empty page. *)
Definition stops (o : exn + Body) : bool :=
  match o with inl _ => true | inr _ => is_empty (page_of o) end.

(** What a page loop returns after the answers [goods ++ tail], of which
    only [tail] (at most one answer) stops it. *)
Definition page_outcome (stamp : list Raw.t -> list Raw.t) (goods tail : list (exn + Body))
    : exn + list Raw.t :=
  match tail with
  | inl e :: _ => inl e
  | _ => inr (concat ((fun o => stamp (page_of o)) <$> goods))
  end.

(** The pagination contract, on the events [new] of one call and its
    outcome [out]: the calls ask [path] for the pages 1, 2, ... in turn, at
    most [pages] of them; every answer but the last is a non-empty page; the
    loop goes on to the page bound unless the last answer stops it; the
    outcome is the exception of the last answer or the pages joined in fetch
    order. *)
Definition paged_run (path : string) (request : Z -> gmap string pval)
    (stamp : list Raw.t -> list Raw.t) (pages : Z)
    (new : list event) (out : exn + list Raw.t) : Prop :=
  exists goods tail,
    answers new = goods ++ tail /\
    calls new = (fun p => (path, Some (request p)))
                  <$> Py.range 1 (1 + Z.of_nat (length (goods ++ tail))) /\
    (length (goods ++ tail) <= Z.to_nat pages)%nat /\
    Forall (fun o => stops o = false) goods /\
    ((tail = [] /\ length goods = Z.to_nat pages) \/ (exists o, tail = [o] /\ stops o = true)) /\
    out = page_outcome stamp goods tail.

(** Rows of equal count stand in the same order in two tables. *)
Definition ties_in_order (cast_counts out : list (string * Z)) : Prop :=
  forall c : Z, List.filter (fun p : string * Z => (p.2 =? c)%Z) out
                = List.filter (fun p : string * Z => (p.2 =? c)%Z) cast_counts.

(** *** What [pd.read_csv] makes of a table written by [to_csv]

    [to_csv] writes a missing value as an empty cell, and [read_csv] with its
    default arguments takes an empty cell and every cell whose text is one of
    [na_values] for a missing value: a table on disk does not tell a text from
    a missing value when the text is one of these.  What comes back is written
    out again by the next [to_csv]: a missing value as an empty cell.  The
    type [read_csv] infers for a column is left out (a text column all of
    whose cells read as numbers comes back as numbers), and numbers come back
    as written. *)

(** The default [na_values] of [pd.read_csv]. *)
Definition na_values : list string :=
  [""; "#N/A"; "#N/A N/A"; "#NA"; "-1.#IND"; "-1.#QNAN"; "-NaN"; "-nan"; "1.#IND";
   "1.#QNAN"; "<NA>"; "N/A"; "NA"; "NULL"; "NaN"; "None"; "n/a"; "nan"; "null"].

Definition is_na (cell : string) : bool := bool_decide (cell ∈ na_values).

(** A text cell that may be missing, read back. *)
Definition read_cell (cell : option string) : option string :=
  match cell with
  | Some s => if is_na s then None else Some s
  | None => None
  end.

(** A text cell of a column that the scripts always fill, read back: the
    missing value is the empty cell. *)
Definition read_text (cell : string) : string := if is_na cell then "" else cell.

(** A row of the trending frame, read back. *)
Definition read_row (r : Weekly) : Weekly :=
  let t := row r in
  {| row := {| Trend.id := Trend.id t;
               Trend.media_type := read_cell (Trend.media_type t);
               Trend.title := read_cell (Trend.title t);
               Trend.date := read_cell (Trend.date t);
               Trend.popularity := Trend.popularity t;
               Trend.vote_average := Trend.vote_average t;
               Trend.vote_count := Trend.vote_count t;
               Trend.original_language := read_cell (Trend.original_language t);
               Trend.genres := read_text (Trend.genres t);
               Trend.overview := read_cell (Trend.overview t);
               Trend.poster_path := read_cell (Trend.poster_path t);
               Trend.backdrop_path := read_cell (Trend.backdrop_path t);
               Trend.tmdb_url := read_text (Trend.tmdb_url t) |};
     week := read_text (week r) |}.

Record Args := { media : string; window : string; cast_sample : Z }.

Section Scripts.
Context {S : Type}
        (server : string -> option (gmap string pval) -> S -> (exn + Body) * S).

Record world := {
  server_state : S;
  log : list event;
  files : gmap string artifact
}.

(** A program: it runs in a world and returns or raises. *)
Definition M (A : Type) : Type := world -> (exn + A) * world.

Definition ret {A} (a : A) : M A := fun w => (inr a, w).
Definition raise {A} (e : exn) : M A := fun w => (inl e, w).
Definition bind {A B} (c : M A) (k : A -> M B) : M B :=
  fun w => match c w with
           | (inr a, w') => k a w'
           | (inl e, w') => (inl e, w')
           end.

Notation "'let!' x ':=' c 'in' k" := (bind c (fun x => k))
  (at level 10, x name, c at level 100, k at level 200).
Notation "'do!' c 'in' k" := (bind c (fun _ => k))
  (at level 10, c at level 100, k at level 200).

Definition fetch_json (path : string) (params : option (gmap string pval)) : M Body :=
  fun w =>
    let (out, s) := server path params (server_state w) in
    (out, {| server_state := s; log := log w ++ [Fetch path params out];
             files := files w |}).

Definition sleep (secs : Q) : M unit :=
  fun w => (inr tt, {| server_state := server_state w; log := log w ++ [Sleep secs];
                       files := files w |}).

(** [(DATA_DIR / name).write_text(...)] and [df.to_csv(DATA_DIR / name)] *)
Definition write_file (name : string) (a : artifact) : M unit :=
  fun w => (inr tt, {| server_state := server_state w; log := log w;
                       files := <[name := a]> (files w) |}).

(** [path.exists()] *)
Definition file_exists (name : string) : M bool :=
  fun w => (inr (bool_decide (is_Some (files w !! name))), w).

(** [pd.read_csv(path)] of a table written by [to_csv]: the rows that were
    written, each read back ([read_row]).  A file that is not such a table
    does not parse. *)
Definition read_csv (name : string) : M (list Weekly) :=
  fun w => match files w !! name with
           | Some (Table rows) => (inr (read_row <$> rows), w)
           | Some _ => (inl (ParserError name), w)
           | None => (inl (ParserError name), w)
           end.

(** *** [get_trending] *)

(** The [for page in ...] loop; [all_results] is the accumulator, [break]
    returns it. *)
Fixpoint trending_pages (path : string) (todo : list Z) (all_results : list Raw.t)
    : M (list Raw.t) :=
  match todo with
  | [] => ret all_results
  | page :: todo' =>
      let! data := fetch_json path (Some {[ "page" := PInt page ]}) in
      let page_results := default [] (results data) in
      match page_results with
      | [] => ret all_results
      | _ =>
          do! sleep (3 # 10) in
          trending_pages path todo' (all_results ++ page_results)
      end
  end.

Definition trending_path (media_type time_window : string) : string :=
  "/trending/" +:+ media_type +:+ "/" +:+ time_window.

Definition get_trending (media_type time_window : string) (pages : Z) : M Body :=
  let! all_results := trending_pages (trending_path media_type time_window)
                   (Py.range 1 (pages + 1)) [] in
  ret {| results := Some all_results; genres := None; cast := None |}.

(** *** [discover_range] *)

Definition movie_params (start_date end_date : string) : gmap string pval :=
  <["include_adult" := PStr "false"]>
    (<["primary_release_date.lte" := PStr end_date]>
       (<["primary_release_date.gte" := PStr start_date]>
          {[ "sort_by" := PStr "popularity.desc" ]})).

Definition tv_params (start_date end_date : string) : gmap string pval :=
  <["first_air_date.lte" := PStr end_date]>
    (<["first_air_date.gte" := PStr start_date]>
       {[ "sort_by" := PStr "popularity.desc" ]}).

Fixpoint discover_pages (media_type path : string) (base_params : gmap string pval)
    (todo : list Z) (all_results : list Raw.t) : M (list Raw.t) :=
  match todo with
  | [] => ret all_results
  | page :: todo' =>
      let params := <["page" := PInt page]> base_params in
      let! data := fetch_json path (Some params) in
      let results := default [] (results data) in
      match results with
      | [] => ret all_results
      | _ =>
          let results := Raw.set_media_type media_type <$> results in
          do! sleep (3 # 10) in
          discover_pages media_type path base_params todo' (all_results ++ results)
      end
  end.

Definition discover_range (media_type start_date end_date : string) (pages : Z)
    : M (list Raw.t) :=
  if decide (media_type = "movie") then
    discover_pages media_type "/discover/movie" (movie_params start_date end_date)
      (Py.range 1 (pages + 1)) []
  else if decide (media_type = "tv") then
    discover_pages media_type "/discover/tv" (tv_params start_date end_date)
      (Py.range 1 (pages + 1)) []
  else ret [].

(** *** The two page loops as one

    [trending_pages] and [discover_pages] differ in how a page is asked
    for ([request]) and in what is done to its results before they are
    appended ([stamp]). *)
Fixpoint paginate (path : string) (request : Z -> gmap string pval)
    (stamp : list Raw.t -> list Raw.t) (todo : list Z) (all_results : list Raw.t)
    : M (list Raw.t) :=
  match todo with
  | [] => ret all_results
  | page :: todo' =>
      let! data := fetch_json path (Some (request page)) in
      if is_empty (default [] (results data)) then ret all_results
      else
        do! sleep (3 # 10) in
        paginate path request stamp todo' (all_results ++ stamp (default [] (results data)))
  end.

(** *** [get_genre_map]; the two scripts differ in the file name only *)

Definition get_genre_map_to (file : string) : M (gmap Z string) :=
  let! movie := fetch_json "/genre/movie/list" None in
  let! tv := fetch_json "/genre/tv/list" None in
  let genre_map := merge_genre_lists movie tv in
  do! write_file file (GenresJson genre_map) in
  ret genre_map.

Definition get_genre_map : M (gmap Z string) := get_genre_map_to "genres.json".
Definition get_genre_map_historical : M (gmap Z string) :=
  get_genre_map_to "genres_historical.json".

(** *** [get_credits] and [top_cast_from_sample] *)

Definition get_credits (media_type : option string) (tmdb_id : Z) : M Body :=
  if decide (media_type = Some "movie") then
    fetch_json ("/movie/" +:+ Py.str_int tmdb_id +:+ "/credits") None
  else if decide (media_type = Some "tv") then
    fetch_json ("/tv/" +:+ Py.str_int tmdb_id +:+ "/credits") None
  else ret {| results := None; genres := None; cast := Some [] |}.

(** [cast_counts[name] = cast_counts.get(name, 0) + 1] on a dict, which
    keeps its keys in insertion order. *)
Fixpoint bump (name : string) (cast_counts : list (string * Z)) : list (string * Z) :=
  match cast_counts with
  | [] => [(name, 1%Z)]
  | (k, v) :: rest =>
      if String.eqb k name then (k, (v + 1)%Z) :: rest else (k, v) :: bump name rest
  end.

(** The inner [for c in credits.get("cast", [])]. *)
Definition count_cast (credits : Body) (cast_counts : list (string * Z)) : list (string * Z) :=
  foldl (fun acc c =>
           match c_name c with
           | Some name => if Py.truthy name then bump name acc else acc
           | None => acc
           end)
        cast_counts (default [] (cast credits)).

(** [int(row["id"])].  The frame [df] holds the identifiers in one column:
    when some row has one, the column is numeric and a missing identifier is
    NaN, which [int] refuses with a [ValueError]; when no row has one, the
    column holds [None], which [int] refuses with a [TypeError]. *)
Definition int_id (df : list Weekly) (r : Weekly) : M Z :=
  match Trend.id (row r) with
  | Some i => ret i
  | None =>
      if forallb (fun r' => negb (bool_decide (is_Some (Trend.id (row r'))))) df
      then raise (TypeError ("int() argument must be a string, a bytes-like object "
                             +:+ "or a real number, not 'NoneType'"))
      else raise (ValueError "cannot convert float NaN to integer")
  end.

(** The outer [for _, row in sample.iterrows()] over a sample of the frame
    [df].  [int(row["id"])] raises on a missing identifier, before any credits
    are fetched. *)
Fixpoint sample_rows (df sample : list Weekly) (cast_counts : list (string * Z))
    : M (list (string * Z)) :=
  match sample with
  | [] => ret cast_counts
  | r :: sample' =>
      let! tmdb_id := int_id df r in
      let! credits := get_credits (Trend.media_type (row r)) tmdb_id in
      let cast_counts := count_cast credits cast_counts in
      do! sleep (2 # 10) in
      sample_rows df sample' cast_counts
  end.

(** [sort_values("count", ascending=False)] names no [kind]: pandas sorts
    with its default, quicksort, which is not stable.  [quicksort] stands
    for that arg-sort; [numpy_quicksort] is numpy's portable one. *)
Definition top_cast_from_sample (quicksort : list Z -> list nat) (df : list Weekly)
    (sample_size : Z) : M (list (string * Z)) :=
  let sample := Py.head sample_size df in
  let! cast_counts := sample_rows df sample [] in
  match cast_counts with
  | [] => ret []
  | _ => ret (sort_values_desc quicksort (fun p : string * Z => Some p.2) cast_counts)
  end.

(** *** [main] of the trending script *)

Definition raw_path (a : Args) (STAMP : string) : string :=
  "trending_" +:+ media a +:+ "_" +:+ window a +:+ "_raw_" +:+ STAMP +:+ ".json".
Definition clean_path (a : Args) (STAMP : string) : string :=
  "trending_" +:+ media a +:+ "_" +:+ window a +:+ "_clean_" +:+ STAMP +:+ ".csv".
Definition by_genre_path (a : Args) (STAMP : string) : string :=
  "trending_" +:+ media a +:+ "_" +:+ window a +:+ "_by_genre_" +:+ STAMP +:+ ".csv".
Definition hist_path (a : Args) : string :=
  "trending_" +:+ media a +:+ "_" +:+ window a +:+ "_history.csv".
Definition cast_path (STAMP : string) : string :=
  "sample_cast_counts_" +:+ STAMP +:+ ".csv".

(** The frame of one run: normalized rows with the [week] column. *)
Definition run_frame (trending : Body) (genre_map : gmap Z string) (week_label : string)
    : list Weekly :=
  let results := default [] (results trending) in
  let df := Trend.normalize_trending results genre_map in
  (fun r => {| row := r; week := week_label |}) <$> df.

(** [token] is [os.getenv("TMDB_V4_TOKEN")], [STAMP] the date of
    [datetime.now]; the [print]s are left out. *)
Definition main (quicksort : list Z -> list nat) (token : option string) (args : Args)
    (STAMP : string) : M unit :=
  if negb (Py.truthy (default "" token)) then
    raise (SystemExit "Set environment variable TMDB_V4_TOKEN to your v4 read access token.")
  else
    let week_label := STAMP in
    let! trending := get_trending (media args) (window args) 5 in
    do! write_file (raw_path args STAMP) (RawJson trending) in
    let! genre_map := get_genre_map in
    let df := run_frame trending genre_map week_label in
    do! write_file (clean_path args STAMP) (Table df) in
    let df_by_genre := expand_by_genre (fun r => Trend.genres (row r)) df in
    do! write_file (by_genre_path args STAMP) (ByGenre df_by_genre) in
    let! ex := file_exists (hist_path args) in
    let! hist := (if ex : bool then
               let! old := read_csv (hist_path args) in
               ret (old ++ df)
             else ret df) in
    do! write_file (hist_path args) (Table hist) in
    if negb (is_empty df) && (0 <? cast_sample args)%Z then
      let! cast_df := top_cast_from_sample quicksort df
                   (Z.min (cast_sample args) (Z.of_nat (length df))) in
      write_file (cast_path STAMP) (CastCounts cast_df)
    else ret tt.
End Scripts.

Arguments world : clear implicits.
Arguments M : clear implicits.

(** [Http.fetch_json] over a remote is a server of the scripts: its state
    is the HTTP world, with the GETs and the back-off sleeps in its log. *)
Definition http_server {S} (remote : string -> gmap string pval -> S -> Http.Response * S)
    : string -> option (gmap string pval) -> Http.world S -> (exn + Body) * Http.world S :=
  Http.fetch_json remote.

(** ** A small server and remote, to run the scripts on *)

Module Demo.

Definition result (i : Z) (mt : option string) (title : string) (ids : list Z) (pop : Q)
    : Raw.t :=
  Raw.mk (Some i) mt (Some title) None (Some "2024-01-01") None (Some ids) (Some pop)
         (Some (7 # 1)) (Some 10%Z) (Some "en") None None None.

Definition page_param (params : option (gmap string pval)) : Z :=
  match params ≫= (fun q => q !! "page") with
  | Some (PInt p) => p
  | _ => 1%Z
  end.

Definition body_results (l : list Raw.t) : Body :=
  {| results := Some l; genres := None; cast := None |}.
Definition body_genres (l : list Genre) : Body :=
  {| results := None; genres := Some l; cast := None |}.
Definition body_cast (l : list string) : Body :=
  {| results := None; genres := None;
     cast := Some ((fun n => {| c_name := Some n |}) <$> l) |}.

Definition movie_genres : Body :=
  body_genres [ {| g_id := 10; g_name := "Horror" |}; {| g_id := 28; g_name := "Action" |} ].
Definition tv_genres : Body :=
  body_genres [ {| g_id := 10; g_name := "Drama" |}; {| g_id := 35; g_name := "Comedy" |} ].

Definition x : Raw.t := result 1 (Some "movie") "X" [10%Z; 28%Z] (5 # 1).
Definition y : Raw.t := result 2 (Some "tv") "Y" [35%Z] (9 # 1).
Definition z : Raw.t := result 3 (Some "movie") "Z" [] (5 # 1).
Definition v : Raw.t := result 4 None "W" [28%Z] (3 # 1).

(** The state counts the calls answered. *)
Definition server (path : string) (params : option (gmap string pval)) (n : nat)
    : (exn + Body) * nat :=
  let p := page_param params in
  let out :=
    if String.eqb path "/genre/movie/list" then inr movie_genres
    else if String.eqb path "/genre/tv/list" then inr tv_genres
    else if String.eqb path "/trending/all/week" then
      if (p =? 1)%Z then inr (body_results [x; y])
      else if (p =? 2)%Z then inr (body_results [z])
      else inr (body_results [])
    else if String.eqb path "/discover/movie" then
      if (p =? 1)%Z then inr (body_results [v]) else inr (body_results [])
    else if String.eqb path "/movie/1/credits" then inr (body_cast ["Ann"; "Bob"])
    else if String.eqb path "/tv/2/credits" then inr (body_cast ["Bob"; "Cy"])
    else if String.eqb path "/movie/3/credits" then inr (body_cast ["Cy"; "Ann"; "Dee"])
    else inl (RuntimeError ("HTTP 404 for " +:+ API_BASE +:+ path +:+ ": "))
  in (out, Datatypes.S n).

Definition start : world nat := {| server_state := 0; log := []; files := ∅ |}.

(** A remote that fails twice and then answers. *)
Definition remote (url : string) (params : gmap string pval) (n : nat)
    : Http.Response * nat :=
  (if (n <? 2)%nat
   then {| Http.status_code := 503; Http.text := "busy"; Http.json := empty_body |}
   else {| Http.status_code := 200; Http.text := "{}"; Http.json := body_results [] |},
   Datatypes.S n).

Definition args : Args := {| media := "all"; window := "week"; cast_sample := 2 |}.

(** A record with nothing in it. *)
Definition blank : Raw.t :=
  Raw.mk None None None None None None None None None None None None None None.

(** The record of the specification's end-to-end example. *)
Definition spec_example : Raw.t :=
  Raw.mk None None (Some "X") None None None (Some [10%Z]) (Some (5 # 1))
         None None None None None None.

(** The scripts over HTTP, on the remote that fails twice. *)
Definition http_start : world (Http.world nat) :=
  {| server_state := {| Http.remote_state := 0; Http.log := [] |};
     log := []; files := ∅ |}.

(** What a run on [server] fetches, and its frame. *)
Definition trending : Body := body_results [x; y; z].
Definition genre_map : gmap Z string := merge_genre_lists movie_genres tv_genres.
Definition frame : list Weekly := run_frame trending genre_map "2026-01-08".

(** A history of one earlier run, and a world that starts with it. *)
Definition old_history : list Weekly := run_frame (body_results [v]) genre_map "2026-01-01".
Definition start_with_history : world nat :=
  {| server_state := 0; log := [];
     files := {[ "trending_all_week_history.csv" := Table old_history ]} |}.

(** A history of one earlier run whose only title is called "NA". *)
Definition na : Raw.t := result 5 (Some "movie") "NA" [28%Z] (4 # 1).
Definition na_history : list Weekly := run_frame (body_results [na]) genre_map "2026-01-01".
Definition start_with_na_history : world nat :=
  {| server_state := 0; log := [];
     files := {[ "trending_all_week_history.csv" := Table na_history ]} |}.

(** [server] with larger casts: the series [y] has a cast of eighteen, and
    every other one of them plays in the movie [x] too. *)
Definition ensemble : list string :=
  ["A"; "B"; "C"; "D"; "E"; "F"; "G"; "H"; "I"; "J"; "K"; "L"; "M"; "N"; "O"; "P"; "Q"; "R"].
Definition every_other : list string := ["A"; "C"; "E"; "G"; "I"; "K"; "M"; "O"; "Q"].
Definition ensemble_server (path : string) (params : option (gmap string pval)) (n : nat)
    : (exn + Body) * nat :=
  if String.eqb path "/tv/2/credits" then (inr (body_cast ensemble), Datatypes.S n)
  else if String.eqb path "/movie/1/credits" then (inr (body_cast every_other), Datatypes.S n)
  else server path params n.

(** [server] when the API refuses the series genre list, and when it
    refuses everything. *)
Definition refused (path : string) : exn :=
  RuntimeError ("HTTP 503 for " +:+ API_BASE +:+ path +:+ ": busy").
Definition no_tv_genres (path : string) (params : option (gmap string pval)) (n : nat)
    : (exn + Body) * nat :=
  if String.eqb path "/genre/tv/list" then (inl (refused path), Datatypes.S n)
  else server path params n.
Definition down (path : string) (params : option (gmap string pval)) (n : nat)
    : (exn + Body) * nat :=
  (inl (refused path), Datatypes.S n).

(** A remote that answers once with a status that is not 200, then with a 200
    whose text is not JSON. *)
Definition garbled (url : string) (params : gmap string pval) (n : nat)
    : (exn + Wire.Response) * nat :=
  (if (n <? 1)%nat
   then inr {| Wire.status_code := 503; Wire.text := "busy";
               Wire.json := inl (JSONDecodeError "Expecting value: line 1 column 1 (char 0)") |}
   else inr {| Wire.status_code := 200; Wire.text := "<html>";
               Wire.json := inl (JSONDecodeError "Expecting value: line 1 column 1 (char 0)") |},
   Datatypes.S n).

End Demo.

(** ** The rest of the scripts: what the properties below speak of *)

(** The names a cast list contributes: [c.get("name")], the entries without
    a name skipped. *)
Definition cast_names (l : list CastMember) : list string :=
  omap (fun c => match c_name c with
                 | Some name => if Py.truthy name then Some name else None
                 | None => None
                 end) l.

(** The names of a stream, each once, in the order first seen. *)
Definition first_seen (names : list string) : list string :=
  foldl (fun acc n => if bool_decide (n ∈ acc) then acc else acc ++ [n]) [] names.

(** How often a name occurs in a stream. *)
Definition occurrences (n : string) (names : list string) : nat :=
  length (filter (fun m => m = n) names).

(** The frequency table of a stream of names. *)
Definition frequency_table (names : list string) : list (string * Z) :=
  (fun n => (n, Z.of_nat (occurrences n names))) <$> first_seen names.

(** The names in the casts that a log's answers hold, in order. *)
Definition names_fetched (l : list event) : list string :=
  answers l ≫= (fun o => match o with
                         | inr credits => cast_names (default [] (cast credits))
                         | inl _ => []
                         end).

(** The credits path [get_credits] asks for a row, if it asks at all. *)
Definition credits_call (r : Weekly) : option (string * option (gmap string pval)) :=
  match Trend.id (row r) with
  | None => None
  | Some i =>
      if decide (Trend.media_type (row r) = Some "movie")
      then Some ("/movie/" +:+ Py.str_int i +:+ "/credits", None)
      else if decide (Trend.media_type (row r) = Some "tv")
      then Some ("/tv/" +:+ Py.str_int i +:+ "/credits", None)
      else None
  end.

(** A string holds a character. *)
Fixpoint has_char (c : ascii) (s : string) : bool :=
  match s with
  | EmptyString => false
  | String d s' => Ascii.eqb d c || has_char c s'
  end.

(** A genre name that survives the join with ["; "] and the split on [";"]:
    not empty, no semicolon, no white space at either end. *)
Definition clean_name (s : string) : bool :=
  Py.truthy s && negb (has_char ";" s) && String.eqb (Py.strip s) s.

(** The number of [fetch_json] calls in a log. *)
Definition ncalls (l : list event) : nat := length (calls l).

(** The number of GETs in an HTTP log. *)
Definition gets (l : list Http.event) : nat :=
  length (List.filter (fun e => match e with Http.Get _ _ _ => true | Http.Sleep _ => false end) l).

(** A program that adds at most [k] to a measure of the world, however it
    ends. *)
Definition costs {S A} (measure : world S -> nat) (c : M S A) (k : nat) : Prop :=
  forall w : world S, (measure (snd (c w)) <= measure w + k)%nat.

(** The calls of [fetch_json] made so far. *)
Definition calls_made {S} (w : world S) : nat := ncalls (log w).

(** The GETs sent so far, when the server is [fetch_json] over HTTP. *)
Definition gets_sent {S} (w : world (Http.world S)) : nat :=
  gets (Http.log (server_state w)).

(** ** [main] of the historical script *)

Definition PAGES : Z := 5.

(** The tables of the historical script. *)
Inductive hartifact :=
| HistTable (rows : list Historical.Row)
| HistByGenre (rows : list (Expanded Historical.Row)).

Definition hist_clean_path (stamp : string) : string :=
  "historical_all_clean_" +:+ stamp +:+ ".csv".
Definition hist_by_genre_path (stamp : string) : string :=
  "historical_all_by_genre_" +:+ stamp +:+ ".csv".

(** [main] of [tmdb_historical.py].  [start_s] and [end_s] are the two
    dates, [DAYS_BACK = 180] days apart, that [main] formats from the clock; the
    date stamp is [end_s] (both are the date of [now_utc]).  The tables of
    this script have a row type of their own: the run returns its [to_csv]
    writes, in order, where the trending script stores them in [files]; the
    [print]s are left out. *)
Definition historical_main {S}
    (server : string -> option (gmap string pval) -> S -> (exn + Body) * S)
    (token : option string) (start_s end_s : string) : M S (list (string * hartifact)) :=
  if negb (Py.truthy (default "" token)) then
    raise (SystemExit "Set environment variable TMDB_V4_TOKEN to your v4 read access token.")
  else
    let stamp := end_s in
    bind (get_genre_map_historical server) (fun genre_map =>
    let all_results := [] in
    bind (discover_range server "movie" start_s end_s PAGES) (fun movie_results =>
    let all_results := all_results ++ movie_results in
    bind (discover_range server "tv" start_s end_s PAGES) (fun tv_results =>
    let all_results := all_results ++ tv_results in
    if is_empty all_results then ret []
    else
      let df := Historical.normalize_results all_results genre_map in
      let df_by_genre := expand_by_genre Historical.genres df in
      ret [ (hist_clean_path stamp, HistTable df);
            ("historical_all_clean_latest.csv", HistTable df);
            (hist_by_genre_path stamp, HistByGenre df_by_genre);
            ("historical_all_by_genre_latest.csv", HistByGenre df_by_genre) ]))).

(** [a] may stand before [b] in a frame that descends by a column, rows
    without a value last: [desc_by], decided. *)
Definition desc_leb {A} (col : A -> option Q) (a b : A) : bool :=
  match col a, col b with
  | Some x, Some y => Qle_bool y x
  | Some _, None => true
  | None, Some _ => false
  | None, None => true
  end.

(** A server for the historical script: [Demo.server], which also answers
    the series discovery with one page. *)
Definition discover_server (path : string) (params : option (gmap string pval)) (n : nat)
    : (exn + Body) * nat :=
  if String.eqb path "/discover/tv" then
    (inr (Demo.body_results (if (Demo.page_param params =? 1)%Z then [Demo.y] else [])),
     Datatypes.S n)
  else Demo.server path params n.

(** * Proofs *)

(** ** The stable sort *)

Section StableSortFacts.
Context {A : Type} (leb : A -> A -> bool).

Lemma insert_sorted_perm x l : Permutation (insert_sorted leb x l) (x :: l).
Proof.
  induction l as [|y l IH]; simpl; [done|].
  destruct (leb x y); [done|].
  rewrite IH. apply perm_swap.
Qed.

Lemma stable_sort_perm l : Permutation (stable_sort leb l) l.
Proof.
  induction l as [|x l IH]; simpl; [done|].
  rewrite insert_sorted_perm. by constructor.
Qed.

Lemma stable_sort_length l : length (stable_sort leb l) = length l.
Proof. apply Permutation_length, stable_sort_perm. Qed.

(** An element goes in front of the elements of its own class: a class
    is any set of pairwise comparable-as-equal elements. *)
Lemma insert_sorted_filter (C : A -> bool) x l :
  (forall a b, C a = true -> C b = true -> leb a b = true) ->
  List.filter C (insert_sorted leb x l) = List.filter C (x :: l).
Proof.
  intros HC. induction l as [|y l IH]; [done|].
  simpl. destruct (leb x y) eqn:Hxy; [done|].
  simpl in *. rewrite IH.
  destruct (C x) eqn:Hx, (C y) eqn:Hy; try done.
  rewrite (HC x y Hx Hy) in Hxy. done.
Qed.

(** Stability: within a class the input order is kept. *)
Lemma stable_sort_filter (C : A -> bool) l :
  (forall a b, C a = true -> C b = true -> leb a b = true) ->
  List.filter C (stable_sort leb l) = List.filter C l.
Proof.
  intros HC. induction l as [|x l IH]; [done|].
  simpl. rewrite insert_sorted_filter by done. simpl. by rewrite IH.
Qed.

Hypothesis leb_total : forall a b, leb a b = true \/ leb b a = true.
Hypothesis leb_trans : forall a b c, leb a b = true -> leb b c = true -> leb a c = true.

Lemma insert_sorted_sorted x l :
  StronglySorted (fun a b => leb a b = true) l ->
  StronglySorted (fun a b => leb a b = true) (insert_sorted leb x l).
Proof.
  induction 1 as [|y l Hs IH Hy]; simpl; [repeat constructor|].
  destruct (leb x y) eqn:Hxy.
  - constructor; [by constructor|].
    constructor; [done|].
    eapply Forall_impl; [exact Hy|]. intros z Hz. by eapply leb_trans.
  - constructor; [done|].
    rewrite insert_sorted_perm. constructor; [|done].
    destruct (leb_total x y); congruence.
Qed.

Lemma stable_sort_sorted l : StronglySorted (fun a b => leb a b = true) (stable_sort leb l).
Proof.
  induction l; simpl; [constructor|]. by apply insert_sorted_sorted.
Qed.

Lemma leb_refl a : leb a a = true.
Proof. by destruct (leb_total a a). Qed.

Lemma sorted_head_least a s x :
  StronglySorted (fun a b => leb a b = true) (a :: s) -> In x (a :: s) -> leb a x = true.
Proof.
  intros Hs [<-|Hx]; [apply leb_refl|].
  apply StronglySorted_inv in Hs as [_ Hs]. rewrite List.Forall_forall in Hs. by apply Hs.
Qed.

(** Two sorted lists with the same classes, each in the same order, are the
    same list. *)
Lemma sorted_classes_eq s t :
  StronglySorted (fun a b => leb a b = true) s ->
  StronglySorted (fun a b => leb a b = true) t ->
  (forall C : A -> bool, (forall a b, C a = true -> C b = true -> leb a b = true) ->
                         List.filter C s = List.filter C t) ->
  s = t.
Proof.
  set (cls := fun a y => leb a y && leb y a).
  assert (forall c a b, cls c a = true -> cls c b = true -> leb a b = true) as Hcls.
  { unfold cls. intros c a b [_ Hac]%andb_prop [Hcb _]%andb_prop. by eapply leb_trans. }
  assert (forall a, cls a a = true) as Hself.
  { intros a. unfold cls. by rewrite leb_refl. }
  revert t. induction s as [|a s IH]; intros [|b t] Hs Ht Hcl; [done| | |].
  - specialize (Hcl (cls b) (Hcls b)). simpl in Hcl. by rewrite Hself in Hcl.
  - specialize (Hcl (cls a) (Hcls a)). simpl in Hcl. by rewrite Hself in Hcl.
  - assert (leb b a = true) as Hba.
    { pose proof (Hcl (cls a) (Hcls a)) as H.
      assert (In a (List.filter (cls a) (b :: t))) as Hin.
      { rewrite <- H. cbn [List.filter]. rewrite Hself. by left. }
      apply List.filter_In in Hin as [Hin _]. by apply (sorted_head_least b t). }
    assert (leb a b = true) as Hab.
    { pose proof (Hcl (cls b) (Hcls b)) as H.
      assert (In b (List.filter (cls b) (a :: s))) as Hin.
      { rewrite H. cbn [List.filter]. rewrite Hself. by left. }
      apply List.filter_In in Hin as [Hin _]. by apply (sorted_head_least a s). }
    assert (a = b) as <-.
    { pose proof (Hcl (cls a) (Hcls a)) as H. cbn [List.filter] in H.
      rewrite Hself in H. unfold cls at 2 in H. rewrite Hab, Hba in H. simpl in H.
      congruence. }
    f_equal. apply IH.
    + by apply StronglySorted_inv in Hs as [? _].
    + by apply StronglySorted_inv in Ht as [? _].
    + intros C HC. specialize (Hcl C HC). cbn [List.filter] in Hcl.
      destruct (C a); congruence.
Qed.

(** So every stable sort returns what [stable_sort] returns: the model does
    not depend on how the sort is carried out. *)
Lemma stable_sort_unique l s :
  StronglySorted (fun a b => leb a b = true) s ->
  (forall C : A -> bool, (forall a b, C a = true -> C b = true -> leb a b = true) ->
                         List.filter C s = List.filter C l) ->
  s = stable_sort leb l.
Proof.
  intros Hs Hcl. apply sorted_classes_eq; [done|apply stable_sort_sorted|].
  intros C HC. by rewrite stable_sort_filter, Hcl.
Qed.
End StableSortFacts.

(** Sorting commutes with a map that keeps the order. *)
Lemma insert_sorted_map {A B} (lebA : A -> A -> bool) (lebB : B -> B -> bool) (f : A -> B) x l :
  (forall a b, lebB (f a) (f b) = lebA a b) ->
  f <$> insert_sorted lebA x l = insert_sorted lebB (f x) (f <$> l).
Proof.
  intros Hf. induction l as [|y l IH]; [done|].
  rewrite fmap_cons. simpl. rewrite Hf.
  destruct (lebA x y); [done|]. by rewrite fmap_cons, IH.
Qed.

Lemma stable_sort_map {A B} (lebA : A -> A -> bool) (lebB : B -> B -> bool) (f : A -> B) l :
  (forall a b, lebB (f a) (f b) = lebA a b) ->
  f <$> stable_sort lebA l = stable_sort lebB (f <$> l).
Proof.
  intros Hf. induction l as [|x l IH]; [done|].
  rewrite fmap_cons. unfold stable_sort in *. simpl.
  rewrite <- IH. by apply insert_sorted_map.
Qed.

(** ** Taking rows by position *)

Lemma take_rows_app {A} (df : list A) i1 i2 :
  take_rows df (i1 ++ i2) = take_rows df i1 ++ take_rows df i2.
Proof. unfold take_rows. apply omap_app. Qed.

Lemma take_rows_rev {A} (df : list A) i :
  take_rows df (rev i) = rev (take_rows df i).
Proof.
  induction i as [|x i IH]; [done|].
  simpl. rewrite take_rows_app, IH. unfold take_rows at 2 3. simpl.
  destruct (df !! x); simpl; [done|]. by rewrite app_nil_r.
Qed.

(** The positions at which a column satisfies [P] select the rows that
    satisfy it, in order. *)
Lemma take_rows_positions {A B} (f : A -> B) (P : B -> Prop) `{!forall b, Decision (P b)}
    (pre df : list A) :
  take_rows (pre ++ df)
    (snd <$> filter (fun p => P p.1) (zip (f <$> df) (seq (length pre) (length df))))
  = filter (fun a => P (f a)) df.
Proof.
  revert pre. induction df as [|a df IH]; intros pre; [done|].
  rewrite fmap_cons. cbn [length seq zip zip_with].
  rewrite !filter_cons. cbn [fst].
  specialize (IH (pre ++ [a])). rewrite length_app, Nat.add_1_r in IH.
  rewrite <- app_assoc in IH. cbn [app] in IH.
  destruct (decide (P (f a))).
  - rewrite fmap_cons. unfold take_rows in *. cbn [omap list_omap snd].
    rewrite list_lookup_middle by done. simpl. by rewrite IH.
  - done.
Qed.

Lemma positions_in_range {B} (P : B -> Prop) `{!forall b, Decision (P b)} (col : list B) n :
  Forall (fun i => i < n + length col)%nat
    (snd <$> filter (fun p => P p.1) (zip col (seq n (length col)))).
Proof.
  revert n. induction col as [|b col IH]; intros n; [constructor|].
  cbn [length seq zip zip_with]. rewrite filter_cons.
  specialize (IH (S n)).
  assert (Forall (fun i => (i < n + S (length col))%nat)
            (snd <$> filter (fun p => P p.1) (zip col (seq (S n) (length col))))) as IH'.
  { eapply Forall_impl; [exact IH|]. simpl. lia. }
  destruct (decide _); [|done].
  rewrite fmap_cons. constructor; [simpl; lia | done].
Qed.

Lemma take_rows_lookup {A} (df : list A) pos i :
  Forall (fun p => p < length df)%nat pos ->
  take_rows df pos !! i = pos !! i ≫= (df !!.).
Proof.
  intros H. revert i. induction H as [|p pos Hp _ IH]; intros i; [done|].
  unfold take_rows in *. cbn [omap list_omap].
  destruct (lookup_lt_is_Some_2 df p Hp) as [a Ha]. rewrite Ha. simpl.
  destruct i; simpl; [done | apply IH].
Qed.

Lemma take_rows_take_rows {A} (df : list A) pos idx :
  Forall (fun p => p < length df)%nat pos ->
  take_rows df (take_rows pos idx) = take_rows (take_rows df pos) idx.
Proof.
  intros H. induction idx as [|i idx IH]; [done|].
  unfold take_rows at 2 3. cbn [omap list_omap].
  fold (take_rows pos idx). fold (take_rows (take_rows df pos) idx).
  rewrite take_rows_lookup by done.
  destruct (pos !! i) as [p|] eqn:Hi; simpl.
  - unfold take_rows at 1. cbn [omap list_omap]. fold (take_rows df (take_rows pos idx)).
    by rewrite IH.
  - done.
Qed.

Lemma lookup_seq_all {A} (R : list A) :
  (fun i => R !! i) <$> seq 0 (length R) = Some <$> R.
Proof.
  apply list_eq. intros i. rewrite !list_lookup_fmap.
  destruct (decide (i < length R)%nat) as [Hi|Hi].
  - rewrite lookup_seq_lt by done. simpl.
    destruct (lookup_lt_is_Some_2 R i Hi) as [a Ha]. by rewrite Ha.
  - rewrite lookup_seq_ge by lia. rewrite lookup_ge_None_2 by lia. done.
Qed.

Lemma zip_fmap_snd {A B C} (f : B -> C) (l : list A) (k : list B) :
  zip l (f <$> k) = (fun p => (p.1, f p.2)) <$> zip l k.
Proof.
  revert k. induction l as [|a l IH]; intros [|b k]; try done.
  rewrite fmap_cons. cbn [zip zip_with]. rewrite fmap_cons. simpl. f_equal. apply IH.
Qed.

(** The merge-sort indexer takes the rows to where the stable sort of the
    (value, row) pairs puts them. *)
Lemma take_rows_argsort_mergesort {A K} (leb : K -> K -> bool) (V : list K) (R : list A) :
  length V = length R ->
  take_rows R (argsort_mergesort leb V)
  = snd <$> stable_sort (fun a b => leb a.1 b.1) (zip V R).
Proof.
  intros Hlen. unfold argsort_mergesort, take_rows. rewrite Hlen.
  set (lebN := fun a b : K * nat => leb a.1 b.1).
  set (lebO := fun a b : K * option A => leb a.1 b.1).
  set (lebA := fun a b : K * A => leb a.1 b.1).
  transitivity (omap snd ((fun p : K * nat => (p.1, R !! p.2))
                            <$> stable_sort lebN (zip V (seq 0 (length R))))).
  { generalize (stable_sort lebN (zip V (seq 0 (length R)))).
    induction l as [|[k i] l IH]; [done|].
    rewrite !fmap_cons. cbn [omap list_omap snd]. by rewrite IH. }
  rewrite (stable_sort_map lebN lebO) by done.
  rewrite <- (zip_fmap_snd (fun i => R !! i)), lookup_seq_all, zip_fmap_snd.
  rewrite <- (stable_sort_map lebA lebO) by done.
  generalize (stable_sort lebA (zip V R)).
  induction l as [|[k a] l IH]; [done|].
  rewrite !fmap_cons. cbn [omap list_omap snd]. by rewrite IH.
Qed.

(** ** [sort_values], row by row *)

Section SortValues.
Context {A K : Type} (col : A -> option K).

(** The present values of the column and the rows that hold them. *)
Lemma non_nans_rows (df : list A) :
  Forall2 (fun v r => col r = Some v)
    (omap (fun k => k) (col <$> df)) (filter (fun a => is_Some (col a)) df).
Proof.
  induction df as [|a df IH]; [constructor|].
  rewrite fmap_cons, filter_cons. cbn [omap list_omap].
  destruct (decide (is_Some (col a))) as [[v Hv]|Hn].
  - rewrite Hv. by constructor.
  - destruct (col a); [by destruct Hn|done].
Qed.

(** The descending sort of a frame: the rows with a value, reversed,
    arg-sorted and reversed again, then the rows without. *)
Lemma sort_values_desc_rows (argsort : list K -> list nat) (df : list A) :
  sort_values_desc argsort col df
  = rev (take_rows (rev (filter (fun a => is_Some (col a)) df))
           (argsort (rev (omap (fun k => k) (col <$> df)))))
    ++ filter (fun a => col a = None) df.
Proof.
  unfold sort_values_desc, nargsort_desc. rewrite length_fmap.
  rewrite take_rows_app, take_rows_rev. f_equal.
  - rewrite take_rows_take_rows.
    + rewrite take_rows_rev.
      by rewrite (take_rows_positions col (fun k => is_Some k) [] df).
    + apply Forall_rev.
      generalize (positions_in_range (fun k : option K => is_Some k) (col <$> df) 0).
      by rewrite length_fmap.
  - apply (take_rows_positions col (fun k => k = None) [] df).
Qed.
End SortValues.

Lemma take_rows_all {A} (R : list A) : take_rows R (seq 0 (length R)) = R.
Proof.
  unfold take_rows.
  transitivity (omap (fun o : option A => o) ((fun i => R !! i) <$> seq 0 (length R))).
  { generalize (seq 0 (length R)). induction l as [|i l IH]; [done|].
    rewrite fmap_cons. cbn [omap list_omap]. by rewrite IH. }
  rewrite lookup_seq_all. induction R as [|a R IH]; [done|].
  rewrite fmap_cons. cbn [omap list_omap]. simpl. by rewrite IH.
Qed.

Lemma take_rows_elem_of {A} (R : list A) idx r :
  r ∈ take_rows R idx -> exists i, i ∈ idx /\ R !! i = Some r.
Proof. unfold take_rows. rewrite list_elem_of_omap. naive_solver. Qed.

Lemma StronglySorted_on {A} (P : A -> Prop) (R1 R2 : A -> A -> Prop) l :
  Forall P l -> (forall x y, P x -> P y -> R1 x y -> R2 x y) ->
  StronglySorted R1 l -> StronglySorted R2 l.
Proof.
  intros HP Himp Hs. induction Hs as [|x l Hs IH Hx]; [constructor|].
  apply Forall_cons in HP as [Px HP]. constructor; [by apply IH|].
  rewrite Forall_forall in *. intros y Hy. apply Himp; auto.
Qed.

Lemma StronglySorted_rev {A} (R : A -> A -> Prop) l :
  StronglySorted R l -> StronglySorted (flip R) (rev l).
Proof.
  induction 1 as [|x l Hs IH Hx]; [constructor|].
  simpl. apply StronglySorted_app_2; [|done|repeat constructor].
  intros x1 x2 H1 H2. apply list_elem_of_singleton in H2 as ->.
  rewrite Forall_forall in Hx. apply Hx.
  apply list_elem_of_In, in_rev, list_elem_of_In, H1.
Qed.

Lemma Forall2_rev_both {A B} (P : A -> B -> Prop) l k :
  Forall2 P l k -> Forall2 P (rev l) (rev k).
Proof.
  induction 1; simpl; [constructor|]. apply Forall2_app; [done|]. by repeat constructor.
Qed.

Lemma filter_None_split {A K} (col : A -> option K) (df : list A) :
  Permutation (filter (fun a => is_Some (col a)) df ++ filter (fun a => col a = None) df) df.
Proof.
  induction df as [|a df IH]; [done|].
  rewrite !filter_cons.
  destruct (decide (is_Some (col a))) as [[v Hv]|Hn].
  - rewrite decide_False by congruence. simpl. by constructor.
  - rewrite decide_True by (destruct (col a); [by destruct Hn | done]).
    rewrite <- Permutation_middle. by constructor.
Qed.

(** ** What any arg-sort gives: the same rows, in descending order *)

Section SortValuesOk.
Context {A K : Type} (leb : K -> K -> bool) (col : A -> option K).
Context (argsort : list K -> list nat) (Hok : argsort_ok leb argsort).

Lemma sort_values_desc_perm (df : list A) :
  Permutation (sort_values_desc argsort col df) df.
Proof.
  rewrite sort_values_desc_rows.
  etrans; [|apply (filter_None_split col df)].
  apply Permutation_app; [|done].
  rewrite <- Permutation_rev.
  destruct (Hok (rev (omap (fun k => k) (col <$> df)))) as [Hperm _].
  unfold take_rows. rewrite Hperm.
  rewrite !length_rev, (Forall2_length _ _ _ (non_nans_rows col df)).
  rewrite <- (length_rev (filter _ df)).
  fold (take_rows (rev (filter (fun a => is_Some (col a)) df))
          (seq 0 (length (rev (filter (fun a => is_Some (col a)) df))))).
  rewrite take_rows_all. by rewrite <- Permutation_rev.
Qed.

Lemma sort_values_desc_length (df : list A) :
  length (sort_values_desc argsort col df) = length df.
Proof. apply Permutation_length, sort_values_desc_perm. Qed.

Lemma take_rows_sorted (V : list K) (R : list A) idx :
  Forall2 (fun v r => col r = Some v) V R ->
  StronglySorted
    (fun i j => forall a b, V !! i = Some a -> V !! j = Some b -> leb a b = true) idx ->
  StronglySorted
    (fun r r' => forall a b, col r = Some a -> col r' = Some b -> leb a b = true)
    (take_rows R idx).
Proof.
  intros HVR. induction 1 as [|i idx Hs IH Hi]; [constructor|].
  unfold take_rows. cbn [omap list_omap]. fold (take_rows R idx).
  destruct (R !! i) as [r|] eqn:Hr; simpl; [|done].
  constructor; [done|].
  rewrite Forall_forall in Hi. apply Forall_forall. intros r' Hr' a b Ha Hb.
  apply take_rows_elem_of in Hr' as (j & Hj & Hrj).
  destruct (Forall2_lookup_r _ _ _ _ _ HVR Hr) as (v & Hv & Hcv).
  destruct (Forall2_lookup_r _ _ _ _ _ HVR Hrj) as (v' & Hv' & Hcv').
  apply (Hi j Hj); congruence.
Qed.

(** The sorted frame descends along the column, the rows without a value
    last. *)
Lemma sort_values_desc_sorted (df : list A) :
  StronglySorted (desc_by leb col) (sort_values_desc argsort col df).
Proof.
  rewrite sort_values_desc_rows.
  set (R := rev (filter (fun a => is_Some (col a)) df)).
  set (V := rev (omap (fun k => k) (col <$> df))).
  assert (Forall2 (fun v r => col r = Some v) V R) as HVR
    by apply Forall2_rev_both, non_nans_rows.
  assert (Forall (fun r => is_Some (col r)) (rev (take_rows R (argsort V)))) as Hsome.
  { apply Forall_rev, Forall_forall. intros r Hr.
    apply take_rows_elem_of in Hr as (i & _ & Hi).
    destruct (Forall2_lookup_r _ _ _ _ _ HVR Hi) as (v & _ & ->). eauto. }
  assert (Forall (fun r => col r = None) (filter (fun a => col a = None) df)) as Hnone.
  { apply Forall_forall. intros r Hr. by apply list_elem_of_filter in Hr as [? _]. }
  apply StronglySorted_app_2.
  - intros x1 x2 H1 H2. rewrite Forall_forall in Hsome, Hnone.
    unfold desc_by. destruct (Hsome _ H1) as [v ->]. by rewrite (Hnone _ H2).
  - eapply (StronglySorted_on (fun r => is_Some (col r))); [exact Hsome| |].
    2:{ apply StronglySorted_rev, (take_rows_sorted V R); [done|]. apply Hok. }
    intros x y [a Ha] [b Hb] Hxy. unfold desc_by. rewrite Ha, Hb. by apply Hxy.
  - eapply (StronglySorted_on (fun r => col r = None) (fun _ _ => True)); [exact Hnone| |].
    + intros x y Hx Hy _. unfold desc_by. by rewrite Hx, Hy.
    + clear. induction (filter _ df); constructor; [done|]. by apply Forall_forall.
Qed.
End SortValuesOk.

(** ** The merge-sort indexer: an arg-sort, and a stable one *)

Section Mergesort.
Context {K : Type} (leb : K -> K -> bool).
Hypothesis leb_total : forall a b, leb a b = true \/ leb b a = true.
Hypothesis leb_trans : forall a b c, leb a b = true -> leb b c = true -> leb a c = true.

(** Sorting the (value, position) pairs, taken in any order, arg-sorts the
    values. *)
Lemma argsort_pairs_ok (vals : list K) (P : list (K * nat)) :
  Permutation P (zip vals (seq 0 (length vals))) ->
  Permutation (snd <$> stable_sort (fun a b => leb a.1 b.1) P) (seq 0 (length vals)) /\
  StronglySorted
    (fun i j => forall a b, vals !! i = Some a -> vals !! j = Some b -> leb a b = true)
    (snd <$> stable_sort (fun a b => leb a.1 b.1) P).
Proof.
  intros HP.
  set (lebN := fun a b : K * nat => leb a.1 b.1).
  assert (Permutation (stable_sort lebN P) (zip vals (seq 0 (length vals)))) as Hperm
    by (by rewrite stable_sort_perm).
  split.
  - rewrite Hperm. rewrite snd_zip; [done|]. by rewrite length_seq.
  - assert (Forall (fun p : K * nat => vals !! p.2 = Some p.1) (stable_sort lebN P)) as HF.
    { rewrite Hperm. apply Forall_forall. intros [v i] Hin.
      apply list_elem_of_lookup in Hin as [j Hj].
      apply lookup_zip_with_Some in Hj as (v' & i' & [= -> ->] & Hv & Hi).
      apply lookup_seq in Hi as [-> _]. done. }
    eapply (StronglySorted_fmap snd
              (fun x y => forall a b, vals !! x.2 = Some a -> vals !! y.2 = Some b
                                      -> leb a b = true)).
    { done. }
    eapply (StronglySorted_on _ (fun a b => lebN a b = true)); [exact HF| |].
    + intros x y Hx Hy Hxy a b Ha Hb. unfold lebN in Hxy. congruence.
    + apply stable_sort_sorted; unfold lebN; eauto.
Qed.

Lemma argsort_mergesort_ok : argsort_ok leb (argsort_mergesort leb).
Proof. intros vals. by apply argsort_pairs_ok. Qed.

Context {A : Type} (col : A -> option K) (C : K -> bool).
Hypothesis C_class : forall a b, C a = true -> C b = true -> leb a b = true.

Lemma filter_in_class_present (df : list A) :
  List.filter (in_class col C) (filter (fun a => is_Some (col a)) df) = List.filter (in_class col C) df.
Proof.
  induction df as [|a df IH]; [done|].
  rewrite filter_cons. simpl. destruct (decide _) as [|Hn]; simpl; [by rewrite IH|].
  unfold in_class at 2. destruct (col a); [by destruct Hn | done].
Qed.

Lemma filter_in_class_missing (df : list A) :
  List.filter (in_class col C) (filter (fun a => col a = None) df) = [].
Proof.
  induction df as [|a df IH]; [done|].
  rewrite filter_cons. destruct (decide _) as [Hn|]; [|done].
  simpl. unfold in_class at 1. by rewrite Hn.
Qed.

Lemma filter_snd_pairs (V : list K) (R : list A) (S : list (K * A)) :
  Forall2 (fun v r => col r = Some v) V R ->
  Permutation S (zip V R) ->
  List.filter (fun p : K * A => in_class col C p.2) S = List.filter (fun p : K * A => C p.1) S.
Proof.
  intros HVR HS. apply List.filter_ext_in. intros [v r] Hin.
  apply list_elem_of_In in Hin. rewrite HS in Hin.
  apply list_elem_of_lookup in Hin as [j Hj].
  apply lookup_zip_with_Some in Hj as (v' & r' & [= -> ->] & Hv & Hr).
  unfold in_class. simpl. by rewrite (Forall2_lookup_lr _ _ _ _ _ _ HVR Hv Hr).
Qed.

Lemma filter_fmap_snd (f : A -> bool) (S : list (K * A)) :
  List.filter f (snd <$> S) = snd <$> List.filter (fun p : K * A => f p.2) S.
Proof.
  induction S as [|[v r] S IH]; [done|].
  rewrite fmap_cons. simpl. destruct (f r); [rewrite fmap_cons|]; by rewrite IH.
Qed.

(** Stability of the descending merge sort: the rows of one class come out
    in their input order. *)
Lemma sort_values_desc_stable (df : list A) :
  List.filter (in_class col C) (sort_values_desc (argsort_mergesort leb) col df)
  = List.filter (in_class col C) df.
Proof.
  rewrite sort_values_desc_rows, List.filter_app, filter_in_class_missing, app_nil_r.
  set (R := rev (filter (fun a => is_Some (col a)) df)).
  set (V := rev (omap (fun k => k) (col <$> df))).
  assert (Forall2 (fun v r => col r = Some v) V R) as HVR
    by apply Forall2_rev_both, non_nans_rows.
  rewrite take_rows_argsort_mergesort by (by eapply Forall2_length).
  set (lebA := fun a b : K * A => leb a.1 b.1).
  rewrite List.filter_rev, filter_fmap_snd.
  rewrite (filter_snd_pairs V R) by (done || apply stable_sort_perm).
  rewrite (stable_sort_filter lebA (fun p : K * A => C p.1)) by (unfold lebA; eauto).
  rewrite <- (filter_snd_pairs V R) by done.
  rewrite <- filter_fmap_snd, snd_zip by (by rewrite (Forall2_length _ _ _ HVR)).
  unfold R. by rewrite List.filter_rev, rev_involutive, filter_in_class_present.
Qed.
End Mergesort.

(** ** Popularity: the order on [Q] *)

Lemma Qle_bool_total a b : Qle_bool a b = true \/ Qle_bool b a = true.
Proof.
  rewrite !Qle_bool_iff. destruct (Qlt_le_dec a b) as [H|H]; [left|right]; [|done].
  by apply Qlt_le_weak.
Qed.

Lemma Qle_bool_trans a b c :
  Qle_bool a b = true -> Qle_bool b c = true -> Qle_bool a c = true.
Proof. rewrite !Qle_bool_iff. apply Qle_trans. Qed.

Lemma Qeq_bool_class x a b :
  Qeq_bool x a = true -> Qeq_bool x b = true -> Qle_bool a b = true.
Proof.
  intros Ha%Qeq_bool_eq Hb%Qeq_bool_eq. apply Qle_bool_iff.
  rewrite <- Ha, <- Hb. apply Qle_refl.
Qed.

Lemma mergesort_Q_ok : argsort_ok Qle_bool mergesort_Q.
Proof. apply argsort_mergesort_ok; [apply Qle_bool_total | apply Qle_bool_trans]. Qed.

Lemma filter_same_None_missing {A} (col : A -> option Q) (df : list A) :
  List.filter (same_key col None) (filter (fun a => col a = None) df)
  = List.filter (same_key col None) df.
Proof.
  induction df as [|a df IH]; [done|].
  rewrite filter_cons. cbn [List.filter]. unfold same_key at 2.
  destruct (decide (col a = None)) as [Hn|Hn].
  - cbn [List.filter]. unfold same_key at 1. rewrite Hn. by rewrite IH.
  - destruct (col a); [done|congruence].
Qed.

Lemma filter_same_None_present {A} (col : A -> option Q) (l : list A) :
  Forall (fun a => is_Some (col a)) l -> List.filter (same_key col None) l = [].
Proof.
  induction 1 as [|a l [v Hv] _ IH]; [done|].
  cbn [List.filter]. unfold same_key at 1. by rewrite Hv.
Qed.

(** The rows of one popularity keep their input order under the descending
    merge sort; so do the rows without a popularity. *)
Lemma sort_by_popularity_stable {A} (col : A -> option Q) (k : option Q) (df : list A) :
  List.filter (same_key col k) (sort_values_desc mergesort_Q col df)
  = List.filter (same_key col k) df.
Proof.
  destruct k as [x|].
  - apply (sort_values_desc_stable Qle_bool col (Qeq_bool x)), Qeq_bool_class.
  - rewrite sort_values_desc_rows, List.filter_app, filter_same_None_missing.
    rewrite filter_same_None_present; [done|].
    apply Forall_rev, Forall_forall. intros r Hr.
    apply take_rows_elem_of in Hr as (i & _ & Hi).
    apply list_elem_of_lookup_2, list_elem_of_In, in_rev, list_elem_of_In in Hi.
    by apply list_elem_of_filter in Hi as [? _].
Qed.

(** ** The indexer depends on the column alone, up to numerical equality *)

Lemma insert_sorted_rel {A B} (E : A -> B -> Prop) lebA lebB x x' l l' :
  (forall a a' b b', E a a' -> E b b' -> lebA a b = lebB a' b') ->
  E x x' -> Forall2 E l l' ->
  Forall2 E (insert_sorted lebA x l) (insert_sorted lebB x' l').
Proof.
  intros Hleb Hx. induction 1 as [|y y' l l' Hy Hl IH]; simpl; [by repeat constructor|].
  rewrite (Hleb x x' y y') by done.
  destruct (lebB x' y'); repeat constructor; done.
Qed.

Lemma stable_sort_rel {A B} (E : A -> B -> Prop) lebA lebB l l' :
  (forall a a' b b', E a a' -> E b b' -> lebA a b = lebB a' b') ->
  Forall2 E l l' -> Forall2 E (stable_sort lebA l) (stable_sort lebB l').
Proof.
  intros Hleb. induction 1; simpl; [constructor|]. by apply insert_sorted_rel.
Qed.

Lemma mergesort_Q_Qeq (V V' : list Q) :
  Forall2 Qeq V V' -> mergesort_Q V = mergesort_Q V'.
Proof.
  intros HV. unfold mergesort_Q, argsort_mergesort.
  rewrite <- (Forall2_length _ _ _ HV).
  set (E := fun p p' : Q * nat => Qeq p.1 p'.1 /\ p.2 = p'.2).
  assert (forall n, Forall2 E (zip V (seq n (length V))) (zip V' (seq n (length V)))) as Hzip.
  { clear -HV. induction HV as [|v v' V V' Hv _ IH]; intros n; simpl; [constructor|].
    constructor; [by split | apply IH]. }
  assert (forall S S' : list (Q * nat), Forall2 E S S' -> snd <$> S = snd <$> S') as Hsnd.
  { induction 1 as [|p p' S S' [_ Hp] _ IH]; [done|]. rewrite !fmap_cons. by f_equal. }
  apply Hsnd, stable_sort_rel; [|apply Hzip].
  intros a a' b b' [Ha _] [Hb _]. by apply Qleb_comp.
Qed.

Lemma nargsort_desc_Qeq (items items' : list (option Q)) :
  Forall2 (option_Forall2 Qeq) items items' ->
  nargsort_desc mergesort_Q items = nargsort_desc mergesort_Q items'.
Proof.
  intros H. unfold nargsort_desc. rewrite <- (Forall2_length _ _ _ H).
  assert (forall n,
    snd <$> filter (fun p : option Q * nat => is_Some p.1) (zip items (seq n (length items)))
    = snd <$> filter (fun p : option Q * nat => is_Some p.1) (zip items' (seq n (length items)))
    /\ snd <$> filter (fun p : option Q * nat => p.1 = None) (zip items (seq n (length items)))
    = snd <$> filter (fun p : option Q * nat => p.1 = None) (zip items' (seq n (length items))))
    as Hpos.
  { clear -H. induction H as [|k k' l l' Hk _ IH]; intros n; [done|].
    cbn [length seq zip zip_with]. rewrite !filter_cons. cbn [fst].
    destruct (IH (S n)) as [IH1 IH2].
    destruct Hk as [x y Hxy|].
    - rewrite !decide_True by eauto. rewrite !decide_False by done.
      rewrite !fmap_cons. by rewrite IH1, IH2.
    - rewrite !decide_False by (by intros [? ?]). rewrite !decide_True by done.
      rewrite !fmap_cons. by rewrite IH1, IH2. }
  destruct (Hpos 0%nat) as [-> ->].
  f_equal. f_equal. f_equal. apply mergesort_Q_Qeq, Forall2_rev_both.
  clear -H. induction H as [|k k' l l' Hk _ IH]; [constructor|].
  destruct Hk; simpl; [by constructor | done].
Qed.

(** ** Normalization *)

Lemma normalize_trending_sort (results : list Raw.t) genre_map :
  Trend.normalize_trending results genre_map
  = sort_values_desc mergesort_Q Trend.popularity (Trend.build_row genre_map <$> results).
Proof. unfold Trend.normalize_trending. by destruct results. Qed.

Lemma normalize_results_sort (results : list Raw.t) genre_map :
  Historical.normalize_results results genre_map
  = sort_values_desc mergesort_Q Historical.popularity
      (Historical.build_row genre_map <$> results).
Proof. unfold Historical.normalize_results. by destruct results. Qed.

Lemma trend_popularity_column (results : list Raw.t) genre_map :
  Trend.popularity <$> (Trend.build_row genre_map <$> results) = Raw.popularity <$> results.
Proof. rewrite <- list_fmap_compose. by apply list_fmap_ext. Qed.

Lemma historical_popularity_column (results : list Raw.t) genre_map :
  Historical.popularity <$> (Historical.build_row genre_map <$> results)
  = Raw.popularity <$> results.
Proof. rewrite <- list_fmap_compose. by apply list_fmap_ext. Qed.

Lemma normalize_trending_perm (results : list Raw.t) genre_map :
  Permutation (Trend.normalize_trending results genre_map)
    (Trend.build_row genre_map <$> results).
Proof.
  rewrite normalize_trending_sort.
  apply (sort_values_desc_perm Qle_bool), mergesort_Q_ok.
Qed.

Lemma normalize_results_perm (results : list Raw.t) genre_map :
  Permutation (Historical.normalize_results results genre_map)
    (Historical.build_row genre_map <$> results).
Proof.
  rewrite normalize_results_sort.
  apply (sort_values_desc_perm Qle_bool), mergesort_Q_ok.
Qed.

(** C1. Normalization yields one row per input record, in both scripts: the
    normalized frame is a rearrangement of the rows built from the records,
    one for each, so it is as long as the input list; no record is dropped
    and no exception can be raised, whatever fields are missing. *)
Theorem normalize_row_count (results : list Raw.t) (genre_map : gmap Z string) :
  (length (Trend.normalize_trending results genre_map) = length results /\
   Permutation (Trend.normalize_trending results genre_map)
     (Trend.build_row genre_map <$> results)) /\
  (length (Historical.normalize_results results genre_map) = length results /\
   Permutation (Historical.normalize_results results genre_map)
     (Historical.build_row genre_map <$> results)).
Proof.
  pose proof (normalize_trending_perm results genre_map) as Ht.
  pose proof (normalize_results_perm results genre_map) as Hh.
  repeat split; try done.
  - by rewrite (Permutation_length Ht), length_fmap.
  - by rewrite (Permutation_length Hh), length_fmap.
Qed.

(** C4. Normalization sorts the built rows descending by popularity (rows
    without a popularity last) and the sort is stable: the rows of any one
    popularity value come out in their input order.  The order of the output
    is read off the popularity column alone, so a second input with the same
    popularity at each position (such as the first with equal-popularity rows
    permuted) has its rows placed by the same indexer. *)
Theorem normalize_sort_stable (genre_map : gmap Z string) (results results' : list Raw.t)
    (Hcol : same_popularity_column results results') :
  let idx := nargsort_desc mergesort_Q (Raw.popularity <$> results) in
  (StronglySorted (desc_by Qle_bool Trend.popularity)
     (Trend.normalize_trending results genre_map) /\
   (forall k, List.filter (same_key Trend.popularity k)
                (Trend.normalize_trending results genre_map)
              = List.filter (same_key Trend.popularity k)
                  (Trend.build_row genre_map <$> results)) /\
   Trend.normalize_trending results genre_map
     = take_rows (Trend.build_row genre_map <$> results) idx /\
   Trend.normalize_trending results' genre_map
     = take_rows (Trend.build_row genre_map <$> results') idx) /\
  (StronglySorted (desc_by Qle_bool Historical.popularity)
     (Historical.normalize_results results genre_map) /\
   (forall k, List.filter (same_key Historical.popularity k)
                (Historical.normalize_results results genre_map)
              = List.filter (same_key Historical.popularity k)
                  (Historical.build_row genre_map <$> results)) /\
   Historical.normalize_results results genre_map
     = take_rows (Historical.build_row genre_map <$> results) idx /\
   Historical.normalize_results results' genre_map
     = take_rows (Historical.build_row genre_map <$> results') idx).
Proof.
  intros idx.
  assert (nargsort_desc mergesort_Q (Raw.popularity <$> results') = idx) as Hidx.
  { symmetry. apply nargsort_desc_Qeq. unfold same_popularity_column in Hcol.
    clear -Hcol. induction Hcol; [constructor|]. rewrite !fmap_cons. by constructor. }
  rewrite !normalize_trending_sort, !normalize_results_sort.
  split; (split; [apply sort_values_desc_sorted, mergesort_Q_ok|]);
    (split; [intros k; apply sort_by_popularity_stable|]); unfold sort_values_desc.
  - by rewrite !trend_popularity_column, Hidx.
  - by rewrite !historical_popularity_column, Hidx.
Qed.

(** ** Genre expansion *)

Lemma strip_truthy x : Py.truthy (Py.strip x) = true -> Py.truthy x = true.
Proof. by destruct x. Qed.

(** The list comprehension filters, then trims; [spec_tokens] trims, then
    filters: the same list. *)
Lemma g_list_spec_tokens {Row} (genres_of : Row -> string) (r : Row) :
  g_list genres_of r = spec_tokens (genres_of r).
Proof.
  unfold g_list, spec_tokens. generalize (Py.split ";" (genres_of r)).
  induction l as [|x l IH]; [done|].
  rewrite fmap_cons. cbn [List.filter].
  destruct (Py.truthy (Py.strip x)) eqn:Hx.
  - rewrite (strip_truthy x Hx). cbn [andb]. rewrite fmap_cons. by rewrite IH.
  - by rewrite andb_false_r.
Qed.

Lemma spec_tokens_nonempty s : Forall (fun t => t <> "") (spec_tokens s).
Proof.
  unfold spec_tokens. apply Forall_forall. intros t Ht.
  apply list_elem_of_In, List.filter_In in Ht as [_ Ht]. by destruct t.
Qed.

Lemma expand_row_genres {Row} (genres_of : Row -> string) (r : Row) :
  genre <$> expand_row genres_of r = spec_genres (spec_tokens (genres_of r)).
Proof.
  unfold expand_row. rewrite g_list_spec_tokens.
  destruct (spec_tokens (genres_of r)) as [|t ts]; [done|].
  rewrite <- list_fmap_compose. simpl. f_equal. by apply list_fmap_id.
Qed.

Lemma expand_row_base {Row} (genres_of : Row -> string) (r : Row) :
  Forall (fun e => base e = r) (expand_row genres_of r).
Proof.
  unfold expand_row. destruct (g_list genres_of r); [by repeat constructor|].
  apply Forall_fmap, Forall_forall. done.
Qed.

(** *** [strip] trims, [split] cuts at the semicolons

    [Py.strip] and [Py.split] against [trimmed] and [pieces_of], which are
    said with concatenation and [whitespace] alone: each relation has one
    solution, and the function computes it. *)

Lemma isspace_whitespace c : Py.isspace c = true <-> c ∈ whitespace.
Proof.
  assert (Py.isspace c = bool_decide (c ∈ whitespace)) as ->.
  { destruct c as [[] [] [] [] [] [] [] []]; vm_compute; reflexivity. }
  apply bool_decide_eq_true.
Qed.

Lemma isspace_not_whitespace c : Py.isspace c = false <-> c ∉ whitespace.
Proof.
  rewrite <- isspace_whitespace. symmetry; apply not_true_iff_false.
Qed.

Lemma spaces_cons c s : spaces (String c s) <-> c ∈ whitespace /\ spaces s.
Proof. unfold spaces. cbn. by rewrite Forall_cons. Qed.

Lemma lstrip_spaces_app l y : spaces l -> Py.lstrip (l +:+ y) = Py.lstrip y.
Proof.
  induction l as [|c l IH]; [done|].
  intros [Hc Hl]%spaces_cons. simpl.
  apply isspace_whitespace in Hc. rewrite Hc. by apply IH.
Qed.

Lemma lstrip_spaces r : spaces r -> Py.lstrip r = "".
Proof.
  induction r as [|c r IH]; [done|].
  intros [Hc Hr]%spaces_cons. simpl. apply isspace_whitespace in Hc. rewrite Hc. by apply IH.
Qed.

Lemma rstrip_spaces r : spaces r -> Py.rstrip r = "".
Proof.
  induction r as [|c r IH]; [done|].
  intros [Hc Hr]%spaces_cons. simpl. rewrite (IH Hr).
  apply isspace_whitespace in Hc. by rewrite Hc.
Qed.

Lemma rstrip_app_spaces t r : spaces r -> Py.rstrip (t +:+ r) = Py.rstrip t.
Proof.
  intros Hr. induction t as [|c t IH]; [by apply rstrip_spaces|].
  simpl. by rewrite IH.
Qed.

Lemma rstrip_bare t :
  (forall c, last (list_ascii_of_string t) = Some c -> c ∉ whitespace) -> Py.rstrip t = t.
Proof.
  induction t as [|c t IH]; [done|]. intros Hlast.
  destruct t as [|d t].
  - simpl. specialize (Hlast c eq_refl).
    apply isspace_not_whitespace in Hlast. by rewrite Hlast.
  - change (Py.rstrip (String c (String d t)))
      with (match Py.rstrip (String d t) with
            | "" => if Py.isspace c then "" else String c ""
            | t' => String c t'
            end).
    rewrite IH; [done|].
    intros e He. apply Hlast. cbn [list_ascii_of_string] in *. by rewrite last_cons_cons.
Qed.

Lemma trimmed_strip x t : trimmed x t -> Py.strip x = t.
Proof.
  intros (l & r & -> & Hl & Hr & Hhead & Hlast). unfold Py.strip.
  rewrite lstrip_spaces_app by done.
  destruct t as [|c t].
  - simpl. by rewrite lstrip_spaces.
  - assert (Py.lstrip (String c t +:+ r) = String c t +:+ r) as ->.
    { simpl. specialize (Hhead c eq_refl).
      apply isspace_not_whitespace in Hhead. by rewrite Hhead. }
    rewrite rstrip_app_spaces by done. by apply rstrip_bare.
Qed.

Lemma append_cons c (a b : string) : String c a +:+ b = String c (a +:+ b).
Proof. done. Qed.

Lemma append_nil (b : string) : "" +:+ b = b.
Proof. done. Qed.

(** Conversely, [strip] trims. *)
Lemma lstrip_split x :
  exists l, x = l +:+ Py.lstrip x /\ spaces l /\
            forall c, head (list_ascii_of_string (Py.lstrip x)) = Some c -> c ∉ whitespace.
Proof.
  induction x as [|c x (l & Hx & Hl & Hh)].
  - exists "". repeat split; [constructor|done].
  - simpl. destruct (Py.isspace c) eqn:Hc.
    + exists (String c l). split; [rewrite ?append_cons; congruence|]. split; [|done].
      apply spaces_cons. split; [by apply isspace_whitespace|done].
    + exists "". split; [done|]. split; [constructor|].
      intros d [= <-]. by apply isspace_not_whitespace.
Qed.

Lemma rstrip_split y :
  exists r, y = Py.rstrip y +:+ r /\ spaces r /\
            forall c, last (list_ascii_of_string (Py.rstrip y)) = Some c -> c ∉ whitespace.
Proof.
  induction y as [|c y (r & Hy & Hr & Hl)].
  - exists "". repeat split; [constructor|done].
  - simpl. destruct (Py.rstrip y) as [|d t] eqn:Ht.
    + destruct (Py.isspace c) eqn:Hc.
      * exists (String c r). split; [rewrite ?append_cons, ?append_nil in *; congruence|]. split; [|done].
        apply spaces_cons. split; [by apply isspace_whitespace|done].
      * exists r. split; [rewrite ?append_cons, ?append_nil in *; congruence|]. split; [done|].
        intros e [= <-]. by apply isspace_not_whitespace.
    + exists r. split; [rewrite ?append_cons, ?append_nil in *; congruence|]. split; [done|].
      intros e He. apply Hl.
      change (list_ascii_of_string (String c (String d t)))
        with (c :: d :: list_ascii_of_string t) in He.
      by rewrite last_cons_cons in He.
Qed.

Lemma head_app_string (t r : string) c :
  head (list_ascii_of_string t) = Some c -> head (list_ascii_of_string (t +:+ r)) = Some c.
Proof. by destruct t. Qed.

Lemma strip_trimmed x : trimmed x (Py.strip x).
Proof.
  unfold Py.strip.
  destruct (lstrip_split x) as (l & Hx & Hl & Hh).
  destruct (rstrip_split (Py.lstrip x)) as (r & Hy & Hr & Hlast).
  exists l, r. split; [by rewrite <- Hy|]. split; [done|]. split; [done|].
  split; [|done]. intros c Hc. apply Hh. rewrite Hy. by apply head_app_string.
Qed.

(** [split] and [String.concat] *)
Lemma split_nonempty c s : Py.split c s <> [].
Proof.
  destruct s as [|d s]; [done|]. simpl. destruct (Ascii.eqb d c); [done|].
  by destruct (Py.split c s).
Qed.

Lemma concat_cons_cons sep (x y : string) l :
  String.concat sep (x :: y :: l) = x +:+ sep +:+ String.concat sep (y :: l).
Proof. done. Qed.

Lemma concat_split s : String.concat ";" (Py.split ";" s) = s.
Proof.
  induction s as [|c s IH]; [done|]. simpl.
  pose proof (split_nonempty ";" s) as Hne.
  destruct (Ascii.eqb c ";") eqn:Hc.
  - apply Ascii.eqb_eq in Hc as ->.
    destruct (Py.split ";" s) as [|t ts]; [done|].
    rewrite concat_cons_cons, IH. done.
  - destruct (Py.split ";" s) as [|t ts]; [done|].
    destruct ts as [|u ts].
    + simpl in *. by rewrite IH.
    + rewrite concat_cons_cons in *. by rewrite append_cons, IH.
Qed.

Lemma split_free s :
  Forall (fun p => ";"%char ∉ list_ascii_of_string p) (Py.split ";" s).
Proof.
  induction s as [|c s IH]; [repeat constructor; by intros ?%elem_of_nil|].
  simpl. destruct (Ascii.eqb c ";") eqn:Hc.
  - constructor; [by intros ?%elem_of_nil|done].
  - assert (c <> ";"%char) as Hne by (intros ->; by rewrite Ascii.eqb_refl in Hc).
    destruct (Py.split ";" s) as [|t ts].
    + constructor; [|constructor]. simpl.
      intros [?|?%elem_of_nil]%elem_of_cons; [|done]. by apply Hne.
    + apply Forall_cons in IH as [Ht Hts]. constructor; [|done].
      simpl. intros [?|?]%elem_of_cons; [|done]. by apply Hne.
Qed.

Lemma split_cons_free (c : ascii) (p : string) :
  c ∉ list_ascii_of_string p -> Py.split c p = [p].
Proof.
  induction p as [|d p IH]; [done|]. simpl. intros Hd.
  destruct (Ascii.eqb d c) eqn:Hc.
  - apply Ascii.eqb_eq in Hc as ->. destruct Hd. by left.
  - rewrite IH; [done|]. intros ?. apply Hd. by right.
Qed.

Lemma split_app_free (c : ascii) (p rest : string) :
  c ∉ list_ascii_of_string p ->
  Py.split c (p +:+ String c rest) = p :: Py.split c rest.
Proof.
  induction p as [|d p IH]; intros Hd.
  - simpl. by rewrite Ascii.eqb_refl.
  - simpl in *. destruct (Ascii.eqb d c) eqn:Hc.
    + apply Ascii.eqb_eq in Hc as ->. destruct Hd. by left.
    + rewrite IH; [done|]. intros ?. apply Hd. by right.
Qed.

Lemma split_concat (pieces : list string) :
  pieces <> [] -> Forall (fun p => ";"%char ∉ list_ascii_of_string p) pieces ->
  Py.split ";" (String.concat ";" pieces) = pieces.
Proof.
  induction pieces as [|p pieces IH]; [done|]. intros _ [Hp Hps]%Forall_cons.
  destruct pieces as [|q pieces].
  - simpl. by apply split_cons_free.
  - rewrite concat_cons_cons. change (";" +:+ ?s) with (String ";" s).
    rewrite split_app_free by done. by rewrite IH.
Qed.

Lemma pieces_of_split s pieces : pieces_of s pieces <-> pieces = Py.split ";" s.
Proof.
  split.
  - intros (<- & Hne & Hfree). by rewrite split_concat.
  - intros ->. split; [apply concat_split|]. split; [apply split_nonempty|apply split_free].
Qed.

Lemma filter_truthy (l : list string) :
  List.filter Py.truthy l = filter (fun t => t <> "") l.
Proof.
  induction l as [|x l IH]; [done|]. simpl. rewrite filter_cons, IH.
  destruct x; simpl; by rewrite ?decide_True, ?decide_False by (try done; by intros ?).
Qed.

Lemma Forall2_trimmed pieces trims :
  Forall2 trimmed pieces trims <-> trims = Py.strip <$> pieces.
Proof.
  split.
  - induction 1 as [|x t pieces trims Ht _ IH]; [done|].
    simpl. by rewrite (trimmed_strip _ _ Ht), IH.
  - intros ->. induction pieces; constructor; [apply strip_trimmed|done].
Qed.

Lemma tokens_of_spec_tokens s tokens : tokens_of s tokens <-> tokens = spec_tokens s.
Proof.
  unfold tokens_of, spec_tokens. rewrite filter_truthy. split.
  - intros (pieces & trims & ->%pieces_of_split & ->%Forall2_trimmed & ->). done.
  - intros ->. exists (Py.split ";" s), (Py.strip <$> Py.split ";" s).
    by rewrite pieces_of_split, Forall2_trimmed.
Qed.

(** C2. Let [tokens] be the tokens of a row's genre field: the pieces
    between its semicolons, each without the white space around it, the empty
    ones dropped ([tokens_of]).  They are not empty; the row is expanded into
    one row per token, carrying the tokens in order as their genre, or into
    one row with the empty genre when there is no token; the expanded rows
    are copies of the row.  The expanded frame lists the expansions of the
    rows in order: its genre column is the tokens of the rows, row after row,
    and it has at least as many rows as the input.  The same function serves
    both scripts. *)
Theorem expand_by_genre_counts {Row} (genres_of : Row -> string) (df : list Row) (r : Row)
    (tokens : list string) (frame_tokens : list (list string))
    (Htokens : tokens_of (genres_of r) tokens)
    (Hframe : Forall2 (fun r toks => tokens_of (genres_of r) toks) df frame_tokens) :
  Forall (fun t => t <> "") tokens /\
  genre <$> expand_row genres_of r = spec_genres tokens /\
  length (expand_row genres_of r) = Nat.max 1 (length tokens) /\
  Forall (fun e => base e = r) (expand_row genres_of r) /\
  expand_by_genre genres_of df = concat (expand_row genres_of <$> df) /\
  genre <$> expand_by_genre genres_of df = concat (spec_genres <$> frame_tokens) /\
  length (expand_by_genre genres_of df)
    = sum_list ((fun toks => Nat.max 1 (length toks)) <$> frame_tokens) /\
  (length df <= length (expand_by_genre genres_of df))%nat.
Proof.
  apply tokens_of_spec_tokens in Htokens as ->.
  assert (frame_tokens = (fun r => spec_tokens (genres_of r)) <$> df) as ->.
  { induction Hframe as [|a toks df frame_tokens Ha _ IH]; [done|].
    apply tokens_of_spec_tokens in Ha as ->. by rewrite fmap_cons, IH. }
  clear Hframe.
  assert (forall r, length (expand_row genres_of r)
                    = Nat.max 1 (length (spec_tokens (genres_of r)))) as Hlen.
  { intros r0. rewrite <- (length_fmap genre), expand_row_genres.
    destruct (spec_tokens (genres_of r0)); simpl; lia. }
  assert (length (expand_by_genre genres_of df)
          = sum_list ((fun toks => Nat.max 1 (length toks))
                        <$> ((fun r => spec_tokens (genres_of r)) <$> df)))
    as Hsum.
  { unfold expand_by_genre. induction df as [|a df IH]; [done|].
    rewrite !fmap_cons. cbn [mbind list_bind]. fold (df ≫= expand_row genres_of).
    rewrite length_app, Hlen, IH. done. }
  split; [apply spec_tokens_nonempty|].
  split; [apply expand_row_genres|].
  split; [apply Hlen|].
  split; [apply expand_row_base|].
  split.
  { clear. unfold expand_by_genre. induction df as [|a df IH]; [done|].
    rewrite fmap_cons. cbn [mbind list_bind concat]. by rewrite <- IH. }
  split.
  { clear. unfold expand_by_genre. induction df as [|a df IH]; [done|].
    rewrite !fmap_cons. cbn [mbind list_bind concat]. fold (df ≫= expand_row genres_of).
    by rewrite fmap_app, expand_row_genres, IH. }
  split; [exact Hsum|].
  rewrite Hsum. clear. induction df as [|a df IH]; [done|].
  rewrite !fmap_cons. simpl. lia.
Qed.

(** The genre field [" Action ;; Sci-Fi & Fantasy ;"] followed by a tab:
    four pieces, two of them blank, and two tokens. *)
Lemma expand_by_genre_counts_witness :
  let field := " Action ;; Sci-Fi & Fantasy ;" +:+ String "009" "" in
  tokens_of field ["Action"; "Sci-Fi & Fantasy"] /\
  genre <$> expand_row id field = ["Action"; "Sci-Fi & Fantasy"] /\
  genre <$> expand_by_genre id [field; " ; "; "Drama"]
  = ["Action"; "Sci-Fi & Fantasy"; ""; "Drama"] /\
  length (expand_by_genre id [field; " ; "; "Drama"]) = 4%nat.
Proof.
  intros field.
  assert (forall c, bool_decide (c ∈ whitespace) = true -> c ∈ whitespace) as Hin
    by (intros c; apply bool_decide_eq_true).
  assert (forall c, bool_decide (c ∈ whitespace) = false -> c ∉ whitespace) as Hout
    by (intros c; apply bool_decide_eq_false).
  assert (forall s, bool_decide (";"%char ∈ list_ascii_of_string s) = false ->
                    ";"%char ∉ list_ascii_of_string s) as Hfree
    by (intros s; apply bool_decide_eq_false).
  assert (spaces "") as Hnil by constructor.
  assert (spaces " ") as Hsp by (repeat constructor; by apply Hin).
  assert (spaces (String "009" "")) as Htab by (repeat constructor; by apply Hin).
  assert (bare "") as Hbare0 by (split; intros c; discriminate).
  assert (bare "Action") as Hbare1
    by (split; intros c [= <-]; by apply Hout).
  assert (bare "Sci-Fi & Fantasy") as Hbare2
    by (split; intros c [= <-]; by apply Hout).
  assert (bare "Drama") as Hbare3
    by (split; intros c [= <-]; by apply Hout).
  assert (tokens_of field ["Action"; "Sci-Fi & Fantasy"]) as Hfield.
  { exists [" Action "; ""; " Sci-Fi & Fantasy "; String "009" ""],
           ["Action"; ""; "Sci-Fi & Fantasy"; ""].
    split; [|split; [|reflexivity]].
    - split; [reflexivity|]. split; [discriminate|].
      repeat constructor; by apply Hfree.
    - repeat constructor.
      + by exists " ", " ".
      + by exists "", "".
      + by exists " ", " ".
      + by exists (String "009" ""), "". }
  assert (tokens_of " ; " []) as Hnone.
  { exists [" "; " "], [""; ""].
    split; [|split; [|reflexivity]].
    - split; [reflexivity|]. split; [discriminate|].
      repeat constructor; by apply Hfree.
    - repeat constructor; by exists " ", "". }
  assert (tokens_of "Drama" ["Drama"]) as Hone.
  { exists ["Drama"], ["Drama"].
    split; [|split; [|reflexivity]].
    - split; [reflexivity|]. split; [discriminate|].
      repeat constructor; by apply Hfree.
    - repeat constructor. by exists "", "". }
  destruct (expand_by_genre_counts id [field; " ; "; "Drama"] field
              ["Action"; "Sci-Fi & Fantasy"] [["Action"; "Sci-Fi & Fantasy"]; []; ["Drama"]])
    as (_ & Hrow & _ & _ & _ & Hgenres & Hlen & _).
  - exact Hfield.
  - repeat constructor; assumption.
  - split; [exact Hfield|]. split; [exact Hrow|]. split; [exact Hgenres | exact Hlen].
Defined.

(** ** The page loops *)

Lemma answers_fetch p q o l : answers (Fetch p q o :: l) = o :: answers l.
Proof. done. Qed.
Lemma answers_sleep t l : answers (Sleep t :: l) = answers l.
Proof. done. Qed.
Lemma calls_fetch p q o l : calls (Fetch p q o :: l) = (p, q) :: calls l.
Proof. done. Qed.
Lemma calls_sleep t l : calls (Sleep t :: l) = calls l.
Proof. done. Qed.

Section Pages.
Context {S : Type}
        (server : string -> option (gmap string pval) -> S -> (exn + Body) * S).

Lemma trending_pages_paginate path todo acc (w : world S) :
  trending_pages server path todo acc w
  = paginate server path (fun p => {[ "page" := PInt p ]}) (fun l => l) todo acc w.
Proof.
  revert acc w. induction todo as [|page todo IH]; intros acc w; [done|].
  cbn [trending_pages paginate]. unfold bind.
  destruct (fetch_json server path _ w) as [[e|data] w1]; [done|].
  destruct (default [] (results data)) as [|r rs]; [done|].
  cbn [is_empty]. destruct (sleep (3 # 10) w1) as [[e|[]] w2]; [done|]. apply IH.
Qed.

Lemma discover_pages_paginate media_type path base_params todo acc (w : world S) :
  discover_pages server media_type path base_params todo acc w
  = paginate server path (fun p => <["page" := PInt p]> base_params)
      (fmap (Raw.set_media_type media_type)) todo acc w.
Proof.
  revert acc w. induction todo as [|page todo IH]; intros acc w; [done|].
  cbn [discover_pages paginate]. unfold bind.
  destruct (fetch_json server path _ w) as [[e|data] w1]; [done|].
  destruct (default [] (results data)) as [|r rs]; [done|].
  cbn [is_empty]. destruct (sleep (3 # 10) w1) as [[e|[]] w2]; [done|]. apply IH.
Qed.

Lemma paginate_run path request stamp todo acc (w : world S) :
  exists new goods tail s',
    paginate server path request stamp todo acc w
    = (match page_outcome stamp goods tail with
       | inl e => inl e
       | inr l => inr (acc ++ l)
       end,
       {| server_state := s'; log := log w ++ new; files := files w |}) /\
    answers new = goods ++ tail /\
    calls new = (fun p => (path, Some (request p))) <$> take (length (goods ++ tail)) todo /\
    (length (goods ++ tail) <= length todo)%nat /\
    Forall (fun o => stops o = false) goods /\
    ((tail = [] /\ length goods = length todo) \/ (exists o, tail = [o] /\ stops o = true)).
Proof.
  revert acc w. induction todo as [|page todo IH]; intros acc w.
  { exists [], [], [], (server_state w). destruct w. simpl.
    rewrite !app_nil_r. repeat split; auto. }
  cbn [paginate]. unfold bind, fetch_json.
  destruct (server path (Some (request page)) (server_state w)) as [o s1] eqn:Hs.
  destruct o as [e|data].
  { exists [Fetch path (Some (request page)) (inl e)], [], [inl e], s1.
    simpl. repeat split; auto with lia. right. by exists (inl e). }
  destruct (is_empty (default [] (results data))) eqn:Hempty.
  { exists [Fetch path (Some (request page)) (inr data)], [], [inr data], s1.
    simpl. rewrite app_nil_r. repeat split; auto with lia. right. by exists (inr data). }
  unfold sleep. cbn [server_state log files].
  set (w2 := {| server_state := s1;
                log := (log w ++ [Fetch path (Some (request page)) (inr data)])
                       ++ [Sleep (3 # 10)];
                files := files w |}).
  destruct (IH (acc ++ stamp (default [] (results data))) w2)
    as (new & goods & tail & s' & Hrun & Hans & Hcalls & Hlen & Hgood & Htail).
  exists ([Fetch path (Some (request page)) (inr data); Sleep (3 # 10)] ++ new),
         (inr data :: goods), tail, s'.
  split.
  { rewrite Hrun. unfold w2. cbn [server_state log files].
    f_equal.
    - unfold page_outcome. destruct tail as [|[e|b] t]; cbn [fmap list_fmap concat page_of];
        by rewrite <- ?app_assoc.
    - f_equal. by rewrite <- !app_assoc. }
  split; [cbn [app]; by rewrite answers_fetch, answers_sleep, Hans|].
  split; [cbn [app length]; by rewrite calls_fetch, calls_sleep, Hcalls|].
  split; [cbn [app length] in *; lia|].
  split; [by constructor|].
  destruct Htail as [[-> Hl]|Ht]; [left|right; done].
  split; [done|]. simpl. by rewrite Hl.
Qed.
End Pages.

Lemma range_length pages : length (Py.range 1 (pages + 1)) = Z.to_nat pages.
Proof. unfold Py.range. rewrite length_fmap, length_seq. f_equal. lia. Qed.

Lemma range_take n pages :
  (n <= Z.to_nat pages)%nat ->
  take n (Py.range 1 (pages + 1)) = Py.range 1 (1 + Z.of_nat n).
Proof.
  intros Hn. unfold Py.range. rewrite <- fmap_take, take_seq.
  f_equal. f_equal. lia.
Qed.

Section Pagination.
Context {S : Type}
        (server : string -> option (gmap string pval) -> S -> (exn + Body) * S).

(** The shared loop over [range(1, pages + 1)] meets the contract. *)
Lemma paginate_range path request stamp pages (w : world S) :
  exists new out s',
    paginate server path request stamp (Py.range 1 (pages + 1)) [] w
    = (out, {| server_state := s'; log := log w ++ new; files := files w |}) /\
    paged_run path request stamp pages new out.
Proof.
  destruct (paginate_run server path request stamp (Py.range 1 (pages + 1)) [] w)
    as (new & goods & tail & s' & Hrun & Hans & Hcalls & Hlen & Hgood & Htail).
  rewrite range_length in Hlen, Htail.
  rewrite range_take in Hcalls by done.
  exists new, (page_outcome stamp goods tail), s'. split.
  - rewrite Hrun. by destruct (page_outcome stamp goods tail).
  - by exists goods, tail.
Qed.

End Pagination.

(** ** [discover_range] *)

Lemma page_outcome_stamped media_type goods tail rs :
  page_outcome (fmap (Raw.set_media_type media_type)) goods tail = inr rs ->
  Forall (fun r => Raw.media_type r = Some media_type) rs.
Proof.
  unfold page_outcome. intros H.
  assert (rs = concat ((fun o => Raw.set_media_type media_type <$> page_of o) <$> goods))
    as -> by (destruct tail as [|[e|b] t]; congruence).
  clear. induction goods as [|o goods IH]; [constructor|].
  rewrite fmap_cons. cbn [concat]. apply Forall_app. split; [|done].
  apply Forall_fmap, Forall_forall. done.
Qed.

(** C9. For a media type other than ["movie"] and ["tv"], [discover_range]
    returns the empty list at once: no fetch, no sleep, no file, whatever the
    dates and the page count. *)
Theorem discover_range_other_media {S}
    (server : string -> option (gmap string pval) -> S -> (exn + Body) * S)
    (w : world S) (media_type start_date end_date : string) (pages : Z)
    (Hmovie : media_type <> "movie") (Htv : media_type <> "tv") :
  discover_range server media_type start_date end_date pages w = (inr [], w).
Proof.
  unfold discover_range. rewrite decide_False by done. by rewrite decide_False by done.
Qed.

Lemma discover_range_other_media_witness :
  discover_range Demo.server "person" "2024-01-01" "2024-06-30" 5 Demo.start
  = (inr [], Demo.start).
Proof. apply discover_range_other_media; discriminate. Defined.

(** C10. Every record [discover_range] returns carries the [media_type] it
    was called with, and so does every row normalized from them. *)
Theorem discover_range_media_type {S}
    (server : string -> option (gmap string pval) -> S -> (exn + Body) * S)
    (w w' : world S) (media_type start_date end_date : string) (pages : Z)
    (rs : list Raw.t) (genre_map : gmap Z string)
    (Hrun : discover_range server media_type start_date end_date pages w = (inr rs, w')) :
  Forall (fun r => Raw.media_type r = Some media_type) rs /\
  Forall (fun r => Historical.media_type r = Some media_type)
    (Historical.normalize_results rs genre_map).
Proof.
  assert (Forall (fun r => Raw.media_type r = Some media_type) rs) as Hrs.
  { unfold discover_range in Hrun.
    destruct (decide (media_type = "movie")) as [->|_];
      [|destruct (decide (media_type = "tv")) as [->|_]].
    - rewrite discover_pages_paginate in Hrun.
      destruct (paginate_run server "/discover/movie"
                  (fun p => <["page" := PInt p]> (movie_params start_date end_date))
                  (fmap (Raw.set_media_type "movie")) (Py.range 1 (pages + 1)) [] w)
        as (new & goods & tail & s' & Hrun' & _).
      rewrite Hrun' in Hrun.
      destruct (page_outcome _ goods tail) eqn:Hout; [congruence|].
      simpl in Hrun. injection Hrun as <- _. by apply page_outcome_stamped in Hout.
    - rewrite discover_pages_paginate in Hrun.
      destruct (paginate_run server "/discover/tv"
                  (fun p => <["page" := PInt p]> (tv_params start_date end_date))
                  (fmap (Raw.set_media_type "tv")) (Py.range 1 (pages + 1)) [] w)
        as (new & goods & tail & s' & Hrun' & _).
      rewrite Hrun' in Hrun.
      destruct (page_outcome _ goods tail) eqn:Hout; [congruence|].
      simpl in Hrun. injection Hrun as <- _. by apply page_outcome_stamped in Hout.
    - injection Hrun as <- _. constructor. }
  split; [done|].
  rewrite normalize_results_perm. apply Forall_fmap. by eapply Forall_impl; [exact Hrs|].
Qed.

Lemma discover_range_media_type_witness :
  let rs := [Raw.set_media_type "movie" Demo.v] in
  let w' := snd (discover_range Demo.server "movie" "2024-01-01" "2024-06-30" 5 Demo.start) in
  discover_range Demo.server "movie" "2024-01-01" "2024-06-30" 5 Demo.start = (inr rs, w') /\
  Forall (fun r => Raw.media_type r = Some "movie") rs /\
  Forall (fun r => Historical.media_type r = Some "movie")
    (Historical.normalize_results rs Demo.genre_map).
Proof.
  intros rs w'.
  assert (discover_range Demo.server "movie" "2024-01-01" "2024-06-30" 5 Demo.start
          = (inr rs, w')) as Hrun by (vm_compute; reflexivity).
  split; [exact Hrun|].
  exact (discover_range_media_type Demo.server Demo.start w' "movie" "2024-01-01"
           "2024-06-30" 5 rs Demo.genre_map Hrun).
Defined.

(** ** [fetch_json]: three attempts *)

(** [s[:n]] has at most [n] characters, all of [s] when it is short. *)
Lemma prefix_length n s : String.length (Py.prefix n s) = Nat.min n (String.length s).
Proof.
  unfold Py.prefix. revert s. induction n as [|n IH]; intros [|c s]; simpl; auto.
Qed.


(** ** The genre map *)

Lemma foldl_insert_lookup (l : list Genre) (m : gmap Z string) (i : Z) :
  foldl (fun m g => <[g_id g := g_name g]> m) m l !! i
  = match last (names_for i l) with Some n => Some n | None => m !! i end.
Proof.
  revert m. induction l as [|g l IH]; intros m; [done|].
  cbn [foldl]. rewrite IH. unfold names_for. cbn [List.filter].
  destruct (Z.eqb_spec (g_id g) i) as [Heq|Hne].
  - rewrite fmap_cons, last_cons.
    destruct (last (g_name <$> List.filter _ l)); [done|].
    by rewrite Heq, lookup_insert_eq.
  - destruct (last (g_name <$> List.filter _ l)); [done|].
    by rewrite lookup_insert_ne.
Qed.

Lemma dict_of_genres_lookup (l : list Genre) (i : Z) :
  dict_of_genres l !! i = last (names_for i l).
Proof.
  unfold dict_of_genres. rewrite foldl_insert_lookup, lookup_empty.
  by destruct (last (names_for i l)).
Qed.

Lemma merge_genre_lists_lookup (movie tv : Body) (i : Z) :
  merge_genre_lists movie tv !! i
  = merged_name (default [] (genres movie)) (default [] (genres tv)) i.
Proof.
  unfold merge_genre_lists, dict_update, merged_name.
  rewrite lookup_union, !dict_of_genres_lookup.
  by destruct (last (names_for i (default [] (genres tv)))),
              (last (names_for i (default [] (genres movie)))).
Qed.

(** C6. [get_genre_map] (in either script) fetches the movie list and the
    series list, and returns and saves their merge: an identifier that the
    series list names gets the series name (the last one that list gives
    it), also when the movie list names it too; an identifier of the movie
    list alone keeps the movie name; any other identifier is absent. *)
Theorem genre_map_series_wins {S}
    (server : string -> option (gmap string pval) -> S -> (exn + Body) * S)
    (file : string) (w : world S) (movie tv : Body) (s1 s2 : S)
    (Hmovie : server "/genre/movie/list" None (server_state w) = (inr movie, s1))
    (Htv : server "/genre/tv/list" None s1 = (inr tv, s2)) :
  let genre_map := merge_genre_lists movie tv in
  get_genre_map_to server file w
  = (inr genre_map,
     {| server_state := s2;
        log := log w ++ [Fetch "/genre/movie/list" None (inr movie);
                         Fetch "/genre/tv/list" None (inr tv)];
        files := <[file := GenresJson genre_map]> (files w) |}) /\
  forall i, genre_map !! i
            = merged_name (default [] (genres movie)) (default [] (genres tv)) i.
Proof.
  intros genre_map. split; [|apply merge_genre_lists_lookup].
  unfold get_genre_map_to, bind, fetch_json, write_file, ret.
  rewrite Hmovie. cbn [server_state log files]. rewrite Htv.
  cbn [server_state log files]. by rewrite <- app_assoc.
Qed.

Lemma genre_map_series_wins_witness :
  exists genre_map w',
    get_genre_map Demo.server Demo.start = (inr genre_map, w') /\
    genre_map !! 10%Z = Some "Drama" /\
    genre_map !! 28%Z = Some "Action" /\
    genre_map !! 35%Z = Some "Comedy" /\
    genre_map !! 99%Z = None.
Proof.
  destruct (genre_map_series_wins Demo.server "genres.json" Demo.start
              Demo.movie_genres Demo.tv_genres 1%nat 2%nat eq_refl eq_refl) as [Hrun Hlook].
  eexists _, _. split; [exact Hrun|].
  rewrite !Hlook. repeat split.
Defined.

(** ** Files: who writes what *)

Section Files.
Context {S : Type}
        (server : string -> option (gmap string pval) -> S -> (exn + Body) * S).

Lemma fetch_json_files path params (w : world S) :
  files (snd (fetch_json server path params w)) = files w.
Proof. unfold fetch_json. by destruct (server path params (server_state w)). Qed.

Lemma get_trending_files media_type time_window pages (w : world S) :
  files (snd (get_trending server media_type time_window pages w)) = files w.
Proof.
  unfold get_trending, bind. rewrite trending_pages_paginate.
  destruct (paginate_range server (trending_path media_type time_window)
              (fun p => {[ "page" := PInt p ]}) (fun l => l) pages w)
    as (new & out & s' & -> & _).
  by destruct out.
Qed.

Lemma get_genre_map_to_files file (w w' : world S) genre_map :
  get_genre_map_to server file w = (inr genre_map, w') ->
  files w' = <[file := GenresJson genre_map]> (files w).
Proof.
  unfold get_genre_map_to, bind, fetch_json, write_file, ret.
  destruct (server "/genre/movie/list" None (server_state w)) as [[e|movie] s1];
    [done|]. cbn [server_state log files].
  destruct (server "/genre/tv/list" None s1) as [[e|tv] s2]; [done|].
  cbn [server_state log files]. by intros [= <- <-].
Qed.

Lemma get_credits_files media_type tmdb_id (w : world S) :
  files (snd (get_credits server media_type tmdb_id w)) = files w.
Proof.
  unfold get_credits. repeat case_decide; try apply fetch_json_files. done.
Qed.

Lemma sample_rows_files df sample cast_counts (w : world S) :
  files (snd (sample_rows server df sample cast_counts w)) = files w.
Proof.
  revert cast_counts w. induction sample as [|r sample IH]; intros cc w; [done|].
  cbn [sample_rows]. unfold bind at 1. unfold int_id.
  destruct (Trend.id (row r)) as [i|]; [|by destruct (forallb _ df)]. unfold ret at 1.
  unfold bind at 1.
  pose proof (get_credits_files (Trend.media_type (row r)) i w) as Hc.
  destruct (get_credits server (Trend.media_type (row r)) i w) as [[e|credits] w1];
    [done|]. cbn [snd] in Hc.
  unfold bind, sleep. rewrite IH. done.
Qed.

Lemma top_cast_from_sample_files quicksort df sample_size (w : world S) :
  files (snd (top_cast_from_sample server quicksort df sample_size w)) = files w.
Proof.
  unfold top_cast_from_sample, bind.
  pose proof (sample_rows_files df (Py.head sample_size df) [] w) as Hs.
  destruct (sample_rows server df (Py.head sample_size df) [] w) as [[e|cc] w1]; [done|].
  by destruct cc.
Qed.
End Files.

(** The history file is none of the other files of a run. *)
Lemma hist_path_fresh (a : Args) (STAMP : string) :
  raw_path a STAMP <> hist_path a /\ clean_path a STAMP <> hist_path a /\
  by_genre_path a STAMP <> hist_path a /\ cast_path STAMP <> hist_path a /\
  "genres.json" <> hist_path a.
Proof.
  unfold raw_path, clean_path, by_genre_path, cast_path, hist_path.
  repeat split; try discriminate;
    intros H; do 4 apply String.app_inj in H; discriminate.
Qed.

Lemma clean_path_fresh (a : Args) (STAMP : string) :
  by_genre_path a STAMP <> clean_path a STAMP /\ hist_path a <> clean_path a STAMP /\
  cast_path STAMP <> clean_path a STAMP.
Proof.
  unfold clean_path, by_genre_path, cast_path, hist_path.
  repeat split; try discriminate;
    intros H; do 4 apply String.app_inj in H; discriminate.
Qed.

(** ** [main]: the rolling history *)

Section History.
Context {S : Type}
        (server : string -> option (gmap string pval) -> S -> (exn + Body) * S).

(** The cast sampling at the end of [main] leaves every file but its own
    as it was. *)
Lemma cast_sampling_files quicksort df n STAMP (w : world S) p :
  p <> cast_path STAMP ->
  files (snd (bind (top_cast_from_sample server quicksort df n)
                (fun cast_df => write_file (cast_path STAMP) (CastCounts cast_df)) w)) !! p
  = files w !! p.
Proof.
  intros Hp. unfold bind.
  pose proof (top_cast_from_sample_files server quicksort df n w) as Hf.
  destruct (top_cast_from_sample server quicksort df n w) as [[e|cast_df] w1];
    cbn [snd] in *; [by rewrite Hf|].
  unfold write_file. cbn [snd files]. rewrite lookup_insert_ne by done. by rewrite Hf.
Qed.

(** The files after a run of [main] whose two fetching steps succeed: the
    clean table, the by-genre table and the history (the old table as
    [read_csv] reads it, then the frame) are written over the files left by
    the genre step; only the cast table may follow. *)
Lemma main_files (quicksort : list Z -> list nat) (token : option string)
    (args : Args) (STAMP : string) (w w1 w2 : world S) (trending : Body)
    (genre_map : gmap Z string) (old : option (list Weekly)) (p : string) :
  Py.truthy (default "" token) = true ->
  get_trending server (media args) (window args) 5 w = (inr trending, w1) ->
  get_genre_map server (snd (write_file (raw_path args STAMP) (RawJson trending) w1))
  = (inr genre_map, w2) ->
  files w !! hist_path args = Table <$> old ->
  p <> cast_path STAMP ->
  let df := run_frame trending genre_map STAMP in
  files (snd (main server quicksort token args STAMP w)) !! p
  = <[hist_path args := Table ((read_row <$> default [] old) ++ df)]>
      (<[by_genre_path args STAMP
         := ByGenre (expand_by_genre (fun r => Trend.genres (row r)) df)]>
         (<[clean_path args STAMP := Table df]> (files w2))) !! p.
Proof.
  intros Htoken Htrend Hgenres Hold Hp df.
  destruct (hist_path_fresh args STAMP) as (Hraw & Hclean & Hby & Hcast & Hgen).
  assert (files w2 !! hist_path args = Table <$> old) as Hold2.
  { rewrite (get_genre_map_to_files server _ _ _ _ Hgenres).
    rewrite lookup_insert_ne by done. unfold write_file. cbn [snd files].
    rewrite lookup_insert_ne by done.
    pose proof (get_trending_files server (media args) (window args) 5 w) as Hf.
    rewrite Htrend in Hf. cbn [snd] in Hf. by rewrite Hf. }
  unfold main. rewrite Htoken. cbn [negb].
  unfold bind at 1. rewrite Htrend.
  unfold bind at 1, write_file at 1.
  unfold write_file at 1 in Hgenres. cbn [snd] in Hgenres.
  unfold bind at 1. rewrite Hgenres. fold df.
  unfold bind at 1, write_file at 1. unfold bind at 1, write_file at 1.
  unfold bind at 1, file_exists at 1. cbn [files].
  rewrite !(lookup_insert_ne _ _ (hist_path args)) by done. rewrite Hold2.
  assert (forall hist (w3 : world S),
            files (snd ((if negb (is_empty df) && (0 <? cast_sample args)%Z
                         then bind (top_cast_from_sample server quicksort df
                                      (Z.min (cast_sample args) (Z.of_nat (length df))))
                                (fun cast_df =>
                                   write_file (cast_path STAMP) (CastCounts cast_df))
                         else ret tt)
                          {| server_state := server_state w3; log := log w3;
                             files := <[hist_path args := Table hist]> (files w3) |})) !! p
            = <[hist_path args := Table hist]> (files w3) !! p) as Hcastp.
  { intros hist w3. destruct (negb (is_empty df) && (0 <? cast_sample args)%Z); [|done].
    by rewrite cast_sampling_files. }
  destruct old as [old|]; cbn [fmap option_fmap option_map default].
  - rewrite bool_decide_true by eauto.
    unfold bind at 1. unfold bind at 1. unfold read_csv at 1. cbn [files].
    rewrite !(lookup_insert_ne _ _ (hist_path args)) by done. rewrite Hold2.
    cbn [fmap option_fmap option_map]. unfold ret at 1.
    unfold bind at 1, write_file at 1. by rewrite Hcastp.
  - rewrite bool_decide_false by (by intros [? ?]).
    unfold bind at 1. unfold ret at 1.
    unfold bind at 1, write_file at 1. by rewrite Hcastp.
Qed.

(** The history after such a run: the old table as [read_csv] reads it,
    then the frame of the run.  This holds whether or not the cast sampling
    that follows succeeds. *)
Lemma main_history (quicksort : list Z -> list nat) (token : option string)
    (args : Args) (STAMP : string) (w w1 w2 : world S) (trending : Body)
    (genre_map : gmap Z string) (old : option (list Weekly)) :
  Py.truthy (default "" token) = true ->
  get_trending server (media args) (window args) 5 w = (inr trending, w1) ->
  get_genre_map server (snd (write_file (raw_path args STAMP) (RawJson trending) w1))
  = (inr genre_map, w2) ->
  files w !! hist_path args = Table <$> old ->
  files (snd (main server quicksort token args STAMP w)) !! hist_path args
  = Some (Table ((read_row <$> default [] old) ++ run_frame trending genre_map STAMP)).
Proof.
  intros Htoken Htrend Hgenres Hold.
  destruct (hist_path_fresh args STAMP) as (_ & _ & _ & Hcast & _).
  rewrite (main_files _ _ _ _ _ w1 w2 trending genre_map old) by done.
  by rewrite lookup_insert_eq.
Qed.
End History.

(** C7, on a history that holds the title "NA".  The history file is the
    table of one earlier run, its one row a movie called "NA".  A run whose
    fetching steps succeed reads the table, puts its own three rows after it
    and writes it back: four rows, the last three the frame of the run as it
    is.  The first row is not the row that was there: [read_csv] took the
    title for a missing value, and the title is gone from the file. *)
Theorem history_loses_title :
  let w' := snd (main Demo.server numpy_quicksort (Some "token") Demo.args "2026-01-08"
                   Demo.start_with_na_history) in
  exists hist,
    files w' !! hist_path Demo.args = Some (Table hist) /\
    length hist = (length Demo.na_history + length Demo.frame)%nat /\
    drop (length Demo.na_history) hist = Demo.frame /\
    Trend.title ∘ row <$> Demo.na_history = [Some "NA"] /\
    Trend.title ∘ row <$> take (length Demo.na_history) hist = [None] /\
    take (length Demo.na_history) hist <> Demo.na_history.
Proof.
  intros w'. eexists. split; [vm_compute; reflexivity|].
  split; [vm_compute; reflexivity|].
  split; [vm_compute; reflexivity|].
  split; [vm_compute; reflexivity|].
  split; [vm_compute; reflexivity|].
  intros H. vm_compute in H. discriminate.
Qed.

(** ** The cast sample *)

Lemma Zleb_total a b : (a <=? b)%Z = true \/ (b <=? a)%Z = true.
Proof. rewrite !Z.leb_le. lia. Qed.

Lemma Zleb_trans a b c : (a <=? b)%Z = true -> (b <=? c)%Z = true -> (a <=? c)%Z = true.
Proof. rewrite !Z.leb_le. lia. Qed.

(** C8, as the code has it. Whatever arg-sort pandas' default kind is, the
    table [top_cast_from_sample] returns holds exactly the accumulated
    (name, count) pairs and descends by count.  Nothing fixes the order of
    the names of equal count: the sort is called without a stable kind. *)
Theorem top_cast_sorted {S}
    (server : string -> option (gmap string pval) -> S -> (exn + Body) * S)
    (quicksort : list Z -> list nat) (df : list Weekly) (sample_size : Z)
    (w w1 : world S) (cast_counts : list (string * Z))
    (Hok : argsort_ok Z.leb quicksort)
    (Hacc : sample_rows server df (Py.head sample_size df) [] w = (inr cast_counts, w1)) :
  exists out,
    top_cast_from_sample server quicksort df sample_size w = (inr out, w1) /\
    Permutation out cast_counts /\
    StronglySorted (fun a b : string * Z => (b.2 <= a.2)%Z) out.
Proof.
  unfold top_cast_from_sample, bind. rewrite Hacc.
  destruct cast_counts as [|c cc]; [exists []; repeat split; constructor|].
  eexists. split; [reflexivity|]. split.
  - by apply (sort_values_desc_perm Z.leb).
  - eapply StronglySorted_on with (P := fun _ => True);
      [by apply Forall_forall| |by apply (sort_values_desc_sorted Z.leb)].
    intros x y _ _. unfold desc_by. by rewrite Z.leb_le.
Qed.

Lemma top_cast_sorted_witness :
  exists out,
    top_cast_from_sample Demo.server (argsort_mergesort Z.leb) Demo.frame 2 Demo.start
    = (inr out, snd (sample_rows Demo.server Demo.frame (Py.head 2 Demo.frame) [] Demo.start)) /\
    Permutation out [("Bob", 2%Z); ("Cy", 1%Z); ("Ann", 1%Z)] /\
    StronglySorted (fun a b : string * Z => (b.2 <= a.2)%Z) out.
Proof.
  apply (top_cast_sorted Demo.server (argsort_mergesort Z.leb) Demo.frame 2 Demo.start).
  - apply (argsort_mergesort_ok Z.leb Zleb_total Zleb_trans).
  - vm_compute. reflexivity.
Defined.

(** C8, as the claim states it, fails.  On [Demo.ensemble_server] the sample
    counts eighteen names, first seen in the order of [Demo.ensemble], every
    other one of them twice.  The default sort partitions a column of eighteen
    counts and runs to its end ([indexer]): the table it returns descends by
    count, but the names of equal count do not stand in the order in which
    they were first seen. *)
Lemma top_cast_ties_counterexample :
  exists cast_counts out w1 indexer,
    sample_rows Demo.ensemble_server Demo.frame (Py.head 2 Demo.frame) [] Demo.start
    = (inr cast_counts, w1) /\
    fst <$> cast_counts = Demo.ensemble /\
    Numpy.aquicksort (rev (snd <$> cast_counts)) = Some indexer /\
    top_cast_from_sample Demo.ensemble_server numpy_quicksort Demo.frame 2 Demo.start
    = (inr out, w1) /\
    snd <$> out = replicate 9 2%Z ++ replicate 9 1%Z /\
    ~ ties_in_order cast_counts out.
Proof.
  eexists _, _, _, _.
  split; [vm_compute; reflexivity|].
  split; [vm_compute; reflexivity|].
  split; [vm_compute; reflexivity|].
  split; [vm_compute; reflexivity|].
  split; [vm_compute; reflexivity|].
  intros Hties. specialize (Hties 2%Z). vm_compute in Hties. discriminate.
Qed.

(** Had the sort been asked to be stable, the names of equal count would
    stand in first-seen order. *)
Lemma sort_by_count_stable (cast_counts : list (string * Z)) :
  ties_in_order cast_counts
    (sort_values_desc (argsort_mergesort Z.leb) (fun p : string * Z => Some p.2) cast_counts).
Proof.
  intros c.
  apply (sort_values_desc_stable Z.leb (fun p : string * Z => Some p.2)
           (fun v => (v =? c)%Z)).
  intros a b Ha%Z.eqb_eq Hb%Z.eqb_eq. apply Z.leb_le. lia.
Qed.

Lemma normalize_sort_stable_witness :
  same_popularity_column [Demo.x; Demo.y; Demo.z] [Demo.z; Demo.y; Demo.x] /\
  Trend.normalize_trending [Demo.z; Demo.y; Demo.x] Demo.genre_map
  = take_rows (Trend.build_row Demo.genre_map <$> [Demo.z; Demo.y; Demo.x])
      (nargsort_desc mergesort_Q (Raw.popularity <$> [Demo.x; Demo.y; Demo.z])).
Proof.
  assert (same_popularity_column [Demo.x; Demo.y; Demo.z] [Demo.z; Demo.y; Demo.x]) as Hcol.
  { repeat constructor. }
  split; [exact Hcol|].
  destruct (normalize_sort_stable Demo.genre_map _ _ Hcol) as [(_ & _ & _ & H) _].
  exact H.
Defined.

(** ** The scripts at work *)

Example tokens_trimmed : spec_tokens "Action;  ; Sci-Fi & Fantasy ;" = ["Action"; "Sci-Fi & Fantasy"].
Proof. reflexivity. Qed.

Example no_token : spec_tokens " ; " = [].
Proof. reflexivity. Qed.

Example unmapped_genre_id : genre_names {[ 10%Z := "Horror" ]} [10%Z; 7%Z] = ["Horror"; "7"].
Proof. vm_compute. reflexivity. Qed.

Example blank_record_row :
  Historical.normalize_results [Demo.blank] ∅
  = [ {| Historical.id := None; Historical.media_type := None; Historical.title := None;
         Historical.date := None; Historical.popularity := None;
         Historical.vote_average := None; Historical.vote_count := None;
         Historical.original_language := None; Historical.genres := "" |} ].
Proof. vm_compute. reflexivity. Qed.

(** The end-to-end example of the specification. *)
Example spec_end_to_end :
  Trend.genres <$> Trend.normalize_trending [Demo.spec_example] {[ 10%Z := "Horror" ]}
  = ["Horror"] /\
  genre <$> expand_by_genre Trend.genres
              (Trend.normalize_trending [Demo.spec_example] {[ 10%Z := "Horror" ]})
  = ["Horror"].
Proof. vm_compute. split; reflexivity. Qed.

Example trending_frame_order :
  (fun r => Trend.title (row r)) <$> Demo.frame = [Some "Y"; Some "X"; Some "Z"].
Proof. vm_compute. reflexivity. Qed.

Example trending_calls :
  calls (log (snd (get_trending Demo.server "all" "week" 5 Demo.start)))
  = [("/trending/all/week", Some {[ "page" := PInt 1 ]});
     ("/trending/all/week", Some {[ "page" := PInt 2 ]});
     ("/trending/all/week", Some {[ "page" := PInt 3 ]})].
Proof. vm_compute. reflexivity. Qed.

(** Over HTTP, the first fetch of the genre lists is answered at the third
    attempt, the second at once. *)
Example genre_map_over_http :
  let w := snd (get_genre_map (http_server Demo.remote) Demo.http_start) in
  (fun e => match e with Http.Get _ _ r => Some (Http.status_code r) | Http.Sleep _ => None end)
    <$> Http.log (server_state w)
  = [Some 503%Z; None; Some 503%Z; None; Some 200%Z; Some 200%Z] /\
  List.filter Http.is_sleep (Http.log (server_state w)) = [Http.Sleep 1; Http.Sleep 2] /\
  length (calls (log w)) = 2%nat.
Proof. vm_compute. repeat split; reflexivity. Qed.

(** A sampled row without an identifier: [int] raises a [TypeError] when no
    row of the frame has one, and a [ValueError] when another row has one
    (here the credits of that row are fetched first). *)
Example sample_without_identifier :
  let none := run_frame (Demo.body_results [Demo.blank]) Demo.genre_map "2026-01-08" in
  let some := run_frame (Demo.body_results [Demo.blank; Demo.x]) Demo.genre_map "2026-01-08" in
  (exists msg w, top_cast_from_sample Demo.server numpy_quicksort none 1 Demo.start
                 = (inl (TypeError msg), w) /\ ncalls (log w) = 0%nat) /\
  (exists msg w, top_cast_from_sample Demo.server numpy_quicksort some 2 Demo.start
                 = (inl (ValueError msg), w) /\ ncalls (log w) = 1%nat).
Proof. split; eexists _, _; split; vm_compute; reflexivity. Qed.

(** The tokens of a genre field are what [split] and [strip] compute, and
    nothing else. *)
Example tokens_of_field :
  forall tokens, tokens_of "Action;  ; Sci-Fi & Fantasy ;" tokens
                 <-> tokens = ["Action"; "Sci-Fi & Fantasy"].
Proof. intros tokens. by rewrite tokens_of_spec_tokens. Qed.

(** * Further properties of the scripts *)

(** ** Counting the cast *)

Lemma count_cast_names (credits : Body) (acc : list (string * Z)) :
  count_cast credits acc
  = foldl (fun acc n => bump n acc) acc (cast_names (default [] (cast credits))).
Proof.
  unfold count_cast. generalize (default [] (cast credits)). intros l. revert acc.
  induction l as [|c l IH]; intros acc; [done|].
  cbn [foldl]. rewrite IH. unfold cast_names. cbn [omap list_omap].
  destruct (c_name c) as [name|]; [|done]. by destruct (Py.truthy name).
Qed.

Lemma first_seen_snoc (names : list string) (n : string) :
  first_seen (names ++ [n])
  = if bool_decide (n ∈ first_seen names) then first_seen names else first_seen names ++ [n].
Proof. unfold first_seen. by rewrite foldl_app. Qed.

Lemma elem_of_first_seen (names : list string) (n : string) :
  n ∈ first_seen names <-> n ∈ names.
Proof.
  induction names as [|m names IH] using rev_ind; [done|].
  rewrite first_seen_snoc, elem_of_app, list_elem_of_singleton.
  case_bool_decide as Hm.
  - rewrite IH. split; [by left|]. intros [?| ->]; [done|]. by apply IH.
  - by rewrite elem_of_app, list_elem_of_singleton, IH.
Qed.

Lemma NoDup_first_seen (names : list string) : NoDup (first_seen names).
Proof.
  induction names as [|m names IH] using rev_ind; [constructor|].
  rewrite first_seen_snoc. case_bool_decide as Hm; [done|].
  apply NoDup_app. split; [done|]. split; [|apply NoDup_singleton].
  intros x Hx ->%list_elem_of_singleton. done.
Qed.

Lemma occurrences_snoc (m n : string) (names : list string) :
  occurrences m (names ++ [n])
  = (occurrences m names + if decide (n = m) then 1 else 0)%nat.
Proof.
  unfold occurrences. rewrite filter_app, length_app. f_equal.
  rewrite filter_cons, filter_nil. by destruct (decide (n = m)).
Qed.

Lemma occurrences_absent (n : string) (names : list string) :
  n ∉ names -> occurrences n names = 0%nat.
Proof.
  intros Hn. unfold occurrences.
  induction names as [|m names IH]; [done|].
  rewrite filter_cons. apply not_elem_of_cons in Hn as [Hne Hn].
  rewrite decide_False by done. by apply IH.
Qed.

Lemma bump_fresh (n : string) (f : string -> Z) (keys : list string) :
  n ∉ keys ->
  bump n ((fun m => (m, f m)) <$> keys) = ((fun m => (m, f m)) <$> keys) ++ [(n, 1%Z)].
Proof.
  induction keys as [|k keys IH]; intros Hn; [done|].
  apply not_elem_of_cons in Hn as [Hne Hn].
  rewrite fmap_cons. cbn [bump].
  destruct (String.eqb_spec k n) as [->|_]; [done|].
  rewrite IH by done. done.
Qed.

Lemma bump_present (n : string) (f g : string -> Z) (keys : list string) :
  NoDup keys -> n ∈ keys ->
  g n = (f n + 1)%Z -> (forall m, m <> n -> g m = f m) ->
  bump n ((fun m => (m, f m)) <$> keys) = (fun m => (m, g m)) <$> keys.
Proof.
  intros Hnd Hin Hgn Hg. induction keys as [|k keys IH]; [by apply elem_of_nil in Hin|].
  apply NoDup_cons in Hnd as [Hk Hnd].
  rewrite !fmap_cons. cbn [bump].
  destruct (String.eqb_spec k n) as [->|Hne].
  - rewrite Hgn. f_equal. apply list_fmap_ext. intros i m Hm.
    rewrite Hg; [done|]. intros ->. apply Hk. by eapply list_elem_of_lookup_2.
  - rewrite Hg by done. f_equal. apply IH; [done|].
    apply elem_of_cons in Hin as [->|Hin]; done.
Qed.

(** Bumping the names of a stream one after the other, from the empty dict,
    builds the frequency table of the stream. *)
Lemma bump_all_frequency_table (names : list string) :
  foldl (fun acc n => bump n acc) [] names = frequency_table names.
Proof.
  induction names as [|n names IH] using rev_ind; [done|].
  rewrite foldl_app. cbn [foldl]. rewrite IH. unfold frequency_table.
  rewrite first_seen_snoc. case_bool_decide as Hn.
  - apply bump_present; [apply NoDup_first_seen|done|..].
    + rewrite occurrences_snoc, decide_True by done. lia.
    + intros m Hm. rewrite occurrences_snoc, decide_False by done. f_equal. lia.
  - rewrite bump_fresh by done. rewrite fmap_app. f_equal.
    + apply list_fmap_ext. intros i m Hm. rewrite occurrences_snoc.
      rewrite decide_False; [f_equal; f_equal; lia|].
      intros ->. apply Hn. by eapply list_elem_of_lookup_2.
    + cbn. rewrite occurrences_snoc, decide_True by done.
      rewrite occurrences_absent; [done|]. by rewrite <- elem_of_first_seen.
Qed.

(** X1. Counting the casts of several titles one after the other, from an
    empty dict, gives the frequency table of all their names: every name
    that occurs is listed once, in the order first seen, with the number of
    its occurrences; entries without a name are not counted. *)
Theorem count_cast_frequency (bodies : list Body) :
  let names := bodies ≫= (fun credits => cast_names (default [] (cast credits))) in
  let cast_counts := foldl (fun acc credits => count_cast credits acc) [] bodies in
  cast_counts = frequency_table names /\
  NoDup cast_counts.*1 /\
  (forall n, n ∈ cast_counts.*1 <-> n ∈ names) /\
  Forall (fun p : string * Z => (1 <= p.2)%Z) cast_counts.
Proof.
  intros names cast_counts.
  assert (cast_counts = frequency_table names) as ->.
  { unfold cast_counts, names. rewrite <- bump_all_frequency_table.
    generalize (@nil (string * Z)).
    induction bodies as [|b bodies IH]; intros acc; [done|].
    cbn [foldl mbind list_bind]. rewrite foldl_app, IH, count_cast_names. done. }
  assert ((frequency_table names).*1 = first_seen names) as Hkeys.
  { unfold frequency_table. rewrite <- list_fmap_compose. by apply list_fmap_id. }
  split; [done|]. rewrite Hkeys.
  split; [apply NoDup_first_seen|]. split; [apply elem_of_first_seen|].
  unfold frequency_table. apply Forall_fmap, Forall_forall. intros n Hn. cbn.
  rewrite elem_of_first_seen in Hn. unfold occurrences.
  assert (n ∈ filter (fun m => m = n) names) as Hf by (apply list_elem_of_filter; by split).
  destruct (filter (fun m => m = n) names); [by apply elem_of_nil in Hf|]. cbn. lia.
Qed.

(** ** The cast sample, call by call *)

Lemma names_fetched_fetch p q credits l :
  names_fetched (Fetch p q (inr credits) :: l)
  = cast_names (default [] (cast credits)) ++ names_fetched l.
Proof. done. Qed.

Lemma names_fetched_sleep t l : names_fetched (Sleep t :: l) = names_fetched l.
Proof. done. Qed.

Section CastSample.
Context {S : Type}
        (server : string -> option (gmap string pval) -> S -> (exn + Body) * S).

(** A sample that is gone through to the end: one credits call for each
    movie or series row, in order, none for the other rows, and the names of
    the answers bumped into the dict. *)
Lemma sample_rows_run (df sample : list Weekly) (acc cast_counts : list (string * Z))
    (w w' : world S) :
  sample_rows server df sample acc w = (inr cast_counts, w') ->
  exists new,
    log w' = log w ++ new /\
    calls new = omap credits_call sample /\
    cast_counts = foldl (fun acc n => bump n acc) acc (names_fetched new).
Proof.
  revert acc w. induction sample as [|r sample IH]; intros acc w Hrun.
  { injection Hrun as <- <-. exists []. by rewrite app_nil_r. }
  cbn [sample_rows] in Hrun. unfold bind at 1 in Hrun. unfold int_id in Hrun.
  cbn [omap list_omap]. unfold credits_call at 1.
  destruct (Trend.id (row r)) as [i|]; [|by destruct (forallb _ df)].
  unfold ret at 1 in Hrun.
  unfold bind at 1 in Hrun. unfold get_credits in Hrun.
  destruct (decide (Trend.media_type (row r) = Some "movie")) as [Hm|Hm];
    [|destruct (decide (Trend.media_type (row r) = Some "tv")) as [Ht|Ht]].
  - unfold fetch_json in Hrun.
    destruct (server _ None (server_state w)) as [[e|credits] s1]; [done|].
    unfold bind, sleep in Hrun. cbn [server_state log files] in Hrun.
    apply IH in Hrun as (new & Hlog & Hcalls & Hcc). cbn [log] in Hlog.
    eexists (Fetch _ None (inr credits) :: Sleep (2 # 10) :: new).
    split; [by rewrite Hlog, <- !app_assoc|].
    split; [by rewrite calls_fetch, calls_sleep, Hcalls|].
    rewrite names_fetched_fetch, names_fetched_sleep, foldl_app, <- count_cast_names.
    done.
  - unfold fetch_json in Hrun.
    destruct (server _ None (server_state w)) as [[e|credits] s1]; [done|].
    unfold bind, sleep in Hrun. cbn [server_state log files] in Hrun.
    apply IH in Hrun as (new & Hlog & Hcalls & Hcc). cbn [log] in Hlog.
    eexists (Fetch _ None (inr credits) :: Sleep (2 # 10) :: new).
    split; [by rewrite Hlog, <- !app_assoc|].
    split; [by rewrite calls_fetch, calls_sleep, Hcalls|].
    rewrite names_fetched_fetch, names_fetched_sleep, foldl_app, <- count_cast_names.
    done.
  - unfold ret at 1 in Hrun. unfold bind, sleep in Hrun.
    cbn [server_state log files] in Hrun.
    apply IH in Hrun as (new & Hlog & Hcalls & Hcc). cbn [log] in Hlog.
    exists (Sleep (2 # 10) :: new).
    split; [by rewrite Hlog, <- !app_assoc|].
    split; [by rewrite calls_sleep|].
    by rewrite names_fetched_sleep.
Qed.

(** X2. When [top_cast_from_sample] returns, it has asked for the credits
    of each sampled row that is a movie or a series with an identifier, once
    and in frame order, and for nothing else; the table it returns is a
    rearrangement of the frequency table of the names in the casts it was
    sent: each name once, with the number of its occurrences. *)
Theorem top_cast_counts_fetched (quicksort : list Z -> list nat) (df : list Weekly)
    (sample_size : Z) (w w' : world S) (out : list (string * Z))
    (Hok : argsort_ok Z.leb quicksort)
    (Hrun : top_cast_from_sample server quicksort df sample_size w = (inr out, w')) :
  exists new,
    log w' = log w ++ new /\
    calls new = omap credits_call (Py.head sample_size df) /\
    Permutation out (frequency_table (names_fetched new)).
Proof.
  unfold top_cast_from_sample, bind in Hrun.
  destruct (sample_rows server df (Py.head sample_size df) [] w) as [[e|cc] w1] eqn:Hs;
    [done|].
  apply sample_rows_run in Hs as (new & Hlog & Hcalls & Hcc).
  rewrite bump_all_frequency_table in Hcc.
  exists new.
  destruct cc as [|c cc].
  - injection Hrun as <- <-. by rewrite <- Hcc.
  - injection Hrun as <- <-. repeat split; try done.
    rewrite <- Hcc. by apply (sort_values_desc_perm Z.leb).
Qed.
End CastSample.

Lemma top_cast_counts_fetched_witness :
  exists new,
    log (snd (top_cast_from_sample Demo.server (argsort_mergesort Z.leb) Demo.frame 2
                Demo.start)) = log Demo.start ++ new /\
    calls new = [("/tv/2/credits", None); ("/movie/1/credits", None)] /\
    Permutation [("Bob", 2%Z); ("Cy", 1%Z); ("Ann", 1%Z)]
      (frequency_table (names_fetched new)).
Proof.
  apply (top_cast_counts_fetched Demo.server (argsort_mergesort Z.leb) Demo.frame 2
           Demo.start).
  - apply argsort_mergesort_ok; [apply Zleb_total | apply Zleb_trans].
  - vm_compute. reflexivity.
Defined.

(** ** From genre identifiers to expanded rows: join, then split *)

Lemma split_no_sep (c : ascii) (s : string) :
  has_char c s = false -> Py.split c s = [s].
Proof.
  induction s as [|d s IH]; [done|]. cbn [has_char Py.split].
  intros [Hd Hs]%orb_false_elim. rewrite Hd, IH by done. done.
Qed.

Lemma split_app_sep (c : ascii) (a rest : string) :
  has_char c a = false -> Py.split c (a +:+ String c rest) = a :: Py.split c rest.
Proof.
  induction a as [|d a IH]; simpl.
  - intros _. by rewrite Ascii.eqb_refl.
  - intros [Hd Ha]%orb_false_elim. rewrite Hd, IH by done. done.
Qed.

Lemma split_join (names : list string) :
  Forall (fun n => has_char ";" n = false) names ->
  Py.split ";" (Py.join "; " names)
  = match names with [] => [""] | a :: rest => a :: (String " " <$> rest) end.
Proof.
  induction 1 as [|a rest Ha Hrest IH]; [done|].
  destruct rest as [|b rest]; [by apply split_no_sep|].
  change (Py.join "; " (a :: b :: rest))
    with (a +:+ String ";" (String " " (Py.join "; " (b :: rest)))).
  rewrite split_app_sep by done. f_equal.
  cbn [Py.split]. change (Ascii.eqb " " ";") with false. cbn iota.
  rewrite IH. by rewrite !fmap_cons.
Qed.

Lemma clean_name_inv (s : string) :
  clean_name s = true ->
  Py.truthy s = true /\ has_char ";" s = false /\ Py.strip s = s.
Proof.
  unfold clean_name. intros [[Ht Hc]%andb_prop Hs]%andb_prop.
  apply negb_true_iff in Hc. by apply String.eqb_eq in Hs.
Qed.

(** The tokens of a joined list of clean names are the names. *)
Lemma spec_tokens_join (names : list string) :
  Forall (fun n => clean_name n = true) names ->
  spec_tokens (Py.join "; " names) = names.
Proof.
  intros Hclean. unfold spec_tokens. rewrite split_join.
  2:{ eapply Forall_impl; [exact Hclean|]. intros n Hn. by apply clean_name_inv in Hn as (_ & ? & _). }
  destruct Hclean as [|a rest Ha Hrest]; [done|].
  apply clean_name_inv in Ha as (Hta & _ & Hsa).
  rewrite fmap_cons. cbn [List.filter]. rewrite Hsa, Hta. f_equal.
  induction Hrest as [|b rest Hb Hrest IH]; [done|].
  apply clean_name_inv in Hb as (Htb & _ & Hsb).
  rewrite !fmap_cons. cbn [List.filter].
  change (Py.strip (String " " b)) with (Py.strip b). rewrite Hsb, Htb. by f_equal.
Qed.

(** A character that is neither white space nor the semicolon. *)
Lemma plain_clean (s : string) :
  s <> "" ->
  (forall c, has_char c s = true -> Py.isspace c = false /\ c <> ";"%char) ->
  clean_name s = true.
Proof.
  intros Hne Hplain. unfold clean_name.
  assert (Py.truthy s = true) as -> by (by destruct s).
  assert (has_char ";" s = false) as ->.
  { destruct (has_char ";" s) eqn:H; [|done]. by destruct (Hplain _ H). }
  cbn [andb negb]. apply String.eqb_eq. unfold Py.strip.
  assert (Py.lstrip s = s) as ->.
  { destruct s as [|c s]; [done|]. cbn [Py.lstrip].
    destruct (Hplain c) as [-> _]; [|done]. cbn [has_char]. by rewrite Ascii.eqb_refl. }
  clear Hne. induction s as [|c s IH]; [done|]. cbn [Py.rstrip].
  rewrite IH.
  2:{ intros d Hd. apply Hplain. cbn [has_char]. rewrite Hd. by rewrite orb_true_r. }
  destruct s; [|done].
  destruct (Hplain c) as [-> _]; [|done]. cbn [has_char]. by rewrite Ascii.eqb_refl.
Qed.

Lemma has_char_pretty_N_go (c : ascii) (x : N) (s : string) :
  has_char c (pretty_N_go x s) = true ->
  has_char c s = true \/ exists d, (d < 10)%N /\ c = pretty_N_char d.
Proof.
  revert s. induction (N.lt_wf_0 x) as [x _ IH]; intros s.
  assert (x = 0 \/ 0 < x)%N as [->|Hx] by lia; [rewrite pretty_N_go_0; auto|].
  rewrite pretty_N_go_step by done. intros H.
  apply IH in H as [H|H]; [|auto|by apply N.div_lt].
  cbn [has_char] in H. apply orb_prop in H as [H|H]; [|auto].
  right. exists (x `mod` 10)%N. split; [by apply N.mod_lt|].
  by apply Ascii.eqb_eq in H.
Qed.

Lemma pretty_N_go_nonempty (x : N) (s : string) :
  s <> "" -> pretty_N_go x s <> "".
Proof.
  revert s. induction (N.lt_wf_0 x) as [x _ IH]; intros s Hs.
  assert (x = 0 \/ 0 < x)%N as [->|Hx] by lia; [by rewrite pretty_N_go_0|].
  rewrite pretty_N_go_step by done. apply IH; [by apply N.div_lt|done].
Qed.

Lemma digit_plain (d : N) :
  Py.isspace (pretty_N_char d) = false /\ pretty_N_char d <> ";"%char.
Proof. unfold pretty_N_char. by repeat case_match. Qed.

(** [str(gid)] is a clean name: digits after an optional minus sign. *)
Lemma clean_str_int (z : Z) : clean_name (Py.str_int z) = true.
Proof.
  assert (forall p : positive, clean_name (pretty (N.pos p)) = true) as Hpos.
  { intros p. unfold pretty, pretty_N. rewrite decide_False by done.
    apply plain_clean.
    - rewrite pretty_N_go_step by lia. by apply pretty_N_go_nonempty.
    - intros c [H|(d & _ & ->)]%has_char_pretty_N_go; [done|]. apply digit_plain. }
  unfold Py.str_int. destruct z as [|p|p]; [done|apply Hpos|].
  change (pretty (Z.neg p)) with ("-" +:+ pretty (N.pos p)).
  apply plain_clean; [done|]. intros c Hc. cbn [String.append has_char] in Hc.
  apply orb_prop in Hc as [Hc|Hc].
  - apply Ascii.eqb_eq in Hc as <-. done.
  - unfold pretty, pretty_N in Hc. rewrite decide_False in Hc by done.
    apply has_char_pretty_N_go in Hc as [H|(d & _ & ->)]; [done|]. apply digit_plain.
Qed.

Lemma clean_genre_names (genre_map : gmap Z string) (genre_ids : list Z) :
  (forall i n, genre_map !! i = Some n -> clean_name n = true) ->
  Forall (fun n => clean_name n = true) (genre_names genre_map genre_ids).
Proof.
  intros Hmap. unfold genre_names. apply Forall_fmap, Forall_forall. intros i _. cbn.
  destruct (genre_map !! i) as [n|] eqn:Hi; cbn; [by eapply Hmap | apply clean_str_int].
Qed.

(** X3. When the names of the genre map are clean (not empty, no semicolon,
    no white space at either end), normalizing a record and expanding its row
    gives one expanded row per genre identifier of the record, in order,
    carrying the name of the identifier (its decimal form when the map has no
    name for it), or one row with the empty genre when the record has no
    identifier; so in both scripts. *)
Theorem normalize_then_expand (genre_map : gmap Z string) (r : Raw.t)
    (Hclean : forall i n, genre_map !! i = Some n -> clean_name n = true) :
  let names := genre_names genre_map (default [] (Raw.genre_ids r)) in
  genre <$> expand_row Trend.genres (Trend.build_row genre_map r) = spec_genres names /\
  genre <$> expand_row Historical.genres (Historical.build_row genre_map r)
  = spec_genres names /\
  length (expand_row Trend.genres (Trend.build_row genre_map r))
  = Nat.max 1 (length (default [] (Raw.genre_ids r))).
Proof.
  intros names.
  assert (spec_tokens (Py.join "; " names) = names) as Htok
    by (by apply spec_tokens_join, clean_genre_names).
  subst names.
  assert (genre <$> expand_row Trend.genres (Trend.build_row genre_map r)
          = spec_genres (genre_names genre_map (default [] (Raw.genre_ids r)))) as Ht.
  { rewrite expand_row_genres. cbn [Trend.build_row Trend.genres]. by rewrite Htok. }
  split; [done|]. split.
  - rewrite expand_row_genres. cbn [Historical.build_row Historical.genres]. by rewrite Htok.
  - rewrite <- (length_fmap genre), Ht. unfold genre_names.
    destruct (default [] (Raw.genre_ids r)); [done|].
    rewrite fmap_cons. cbn [spec_genres length]. rewrite length_fmap. lia.
Qed.

Lemma normalize_then_expand_witness :
  genre <$> expand_row Trend.genres (Trend.build_row {[ 10%Z := "Horror" ]} Demo.x)
  = ["Horror"; "28"].
Proof.
  refine (proj1 (normalize_then_expand {[ 10%Z := "Horror" ]} Demo.x _)).
  intros i n [_ <-]%lookup_singleton_Some. reflexivity.
Defined.

(** ** The genre map holds the identifiers of the two lists, and their names *)

Lemma last_names_for (i : Z) (l : list Genre) (n : string) :
  last (names_for i l) = Some n -> exists g, g ∈ l /\ g_id g = i /\ g_name g = n.
Proof.
  intros [l' Hl]%last_Some.
  assert (n ∈ names_for i l) as Hn by (rewrite Hl; set_solver).
  unfold names_for in Hn. apply list_elem_of_fmap in Hn as (g & -> & Hg).
  apply list_elem_of_In, List.filter_In in Hg as [Hg Hi].
  exists g. split; [by apply list_elem_of_In|]. split; [by apply Z.eqb_eq|done].
Qed.

Lemma last_names_for_is_Some (i : Z) (l : list Genre) :
  is_Some (last (names_for i l)) <-> i ∈ g_id <$> l.
Proof.
  split.
  - intros [n (g & Hg & <- & _)%last_names_for]. apply list_elem_of_fmap. eauto.
  - intros (g & -> & Hg)%list_elem_of_fmap.
    assert (g_name g ∈ names_for (g_id g) l) as Hn.
    { unfold names_for. apply list_elem_of_fmap. exists g. split; [done|].
      apply list_elem_of_In, List.filter_In. split; [by apply list_elem_of_In|].
      apply Z.eqb_refl. }
    destruct (names_for (g_id g) l) as [|x xs] eqn:Hx using rev_ind;
      [by apply elem_of_nil in Hn|].
    rewrite last_snoc. eauto.
Qed.

(** X4. The merged genre map knows exactly the identifiers that occur in
    the movie list or in the series list, and the name it gives an identifier
    is the name of an entry of one of the lists with that identifier. *)
Theorem genre_map_ids (movie tv : Body) (i : Z) :
  let genre_map := merge_genre_lists movie tv in
  let entries := default [] (genres movie) ++ default [] (genres tv) in
  (is_Some (genre_map !! i) <-> i ∈ g_id <$> entries) /\
  (forall n, genre_map !! i = Some n -> exists g, g ∈ entries /\ g_id g = i /\ g_name g = n).
Proof.
  intros genre_map entries. unfold genre_map, entries.
  rewrite merge_genre_lists_lookup. unfold merged_name.
  rewrite fmap_app, elem_of_app, <- !last_names_for_is_Some.
  destruct (last (names_for i (default [] (genres tv)))) as [n|] eqn:Htv.
  - split; [split; eauto|]. intros n' [= <-].
    apply last_names_for in Htv as (g & Hg & Hi & Hn). exists g. set_solver.
  - split.
    + split; [by left|]. intros [H|[? H]]; [done|congruence].
    + intros n H. apply last_names_for in H as (g & Hg & Hi & Hn). exists g. set_solver.
Qed.

(** ** A run of the trending script that fails in a fetching step *)

Section MainFailure.
Context {S : Type}
        (server : string -> option (gmap string pval) -> S -> (exn + Body) * S).

Lemma get_genre_map_to_files_failed file (w w' : world S) e :
  get_genre_map_to server file w = (inl e, w') -> files w' = files w.
Proof.
  unfold get_genre_map_to, bind, fetch_json, write_file, ret.
  destruct (server "/genre/movie/list" None (server_state w)) as [[e1|movie] s1];
    [by intros [= _ <-]|]. cbn [server_state log files].
  destruct (server "/genre/tv/list" None s1) as [[e2|tv] s2]; [by intros [= _ <-]|].
  done.
Qed.

(** X5. When the trending fetch of [main] raises, [main] raises the same
    exception and has written nothing: the files are as before the run.  When
    the trending fetch returns and the genre fetch raises, [main] raises that
    exception and has written the raw snapshot of the trending results and
    nothing else.  So the raw snapshot is written only when the trending
    fetch succeeded, and a run that fails in a fetching step writes no table,
    no genre file and no cast file. *)
Theorem main_fetch_failure (quicksort : list Z -> list nat) (token : option string)
    (args : Args) (STAMP : string) (w w1 : world S) (e : exn)
    (Htoken : Py.truthy (default "" token) = true)
    (Hfail : get_trending server (media args) (window args) 5 w = (inl e, w1) \/
             exists trending w0,
               get_trending server (media args) (window args) 5 w = (inr trending, w0) /\
               get_genre_map server
                 (snd (write_file (raw_path args STAMP) (RawJson trending) w0))
               = (inl e, w1)) :
  main server quicksort token args STAMP w = (inl e, w1) /\
  files w1 = match fst (get_trending server (media args) (window args) 5 w) with
             | inl _ => files w
             | inr trending => <[raw_path args STAMP := RawJson trending]> (files w)
             end.
Proof.
  unfold main. rewrite Htoken. cbn [negb]. unfold bind at 1.
  pose proof (get_trending_files server (media args) (window args) 5 w) as Hf.
  destruct Hfail as [Ht|(trending & w0 & Ht & Hg)]; rewrite Ht in *; cbn [fst snd] in *.
  - done.
  - unfold bind at 1, write_file at 1. unfold bind at 1.
    unfold write_file at 1 in Hg. cbn [snd] in Hg. rewrite Hg.
    split; [done|].
    rewrite (get_genre_map_to_files_failed _ _ _ _ Hg). cbn [files]. by rewrite Hf.
Qed.
End MainFailure.

(** Two runs with [--media all]: the API refuses everything, and the API
    refuses the second genre list only. *)
Lemma main_fetch_failure_witness :
  (exists e w1,
     main Demo.down numpy_quicksort (Some "token") Demo.args "2026-01-08"
       Demo.start_with_history = (inl e, w1) /\
     files w1 = files Demo.start_with_history) /\
  (exists e w1,
     main Demo.no_tv_genres numpy_quicksort (Some "token") Demo.args "2026-01-08"
       Demo.start_with_history = (inl e, w1) /\
     files w1 = <[raw_path Demo.args "2026-01-08" := RawJson Demo.trending]>
                  (files Demo.start_with_history)).
Proof.
  split.
  - destruct (main_fetch_failure Demo.down numpy_quicksort (Some "token") Demo.args
                "2026-01-08" Demo.start_with_history
                (snd (get_trending Demo.down "all" "week" 5 Demo.start_with_history))
                (Demo.refused "/trending/all/week"))
      as [Hmain Hfiles].
    + reflexivity.
    + left. vm_compute. reflexivity.
    + eexists _, _. split; [exact Hmain | exact Hfiles].
  - destruct (main_fetch_failure Demo.no_tv_genres numpy_quicksort (Some "token") Demo.args
                "2026-01-08" Demo.start_with_history
                (snd (get_genre_map Demo.no_tv_genres
                        (snd (write_file (raw_path Demo.args "2026-01-08")
                                (RawJson Demo.trending)
                                (snd (get_trending Demo.no_tv_genres "all" "week" 5
                                        Demo.start_with_history))))))
                (Demo.refused "/genre/tv/list"))
      as [Hmain Hfiles].
    + reflexivity.
    + right. eexists _, _. split; vm_compute; reflexivity.
    + eexists _, _. split; [exact Hmain | exact Hfiles].
Defined.

(** ** The outputs of a run of the trending script *)

(** The output files of a run bear different names, whatever the media, the
    window and the date stamp. *)
Lemma output_paths_distinct (a : Args) (STAMP : string) :
  raw_path a STAMP <> clean_path a STAMP /\ raw_path a STAMP <> by_genre_path a STAMP /\
  raw_path a STAMP <> cast_path STAMP /\ raw_path a STAMP <> "genres.json" /\
  "genres.json" <> clean_path a STAMP /\ "genres.json" <> by_genre_path a STAMP /\
  "genres.json" <> cast_path STAMP /\ by_genre_path a STAMP <> cast_path STAMP.
Proof.
  unfold raw_path, clean_path, by_genre_path, cast_path.
  repeat split; try discriminate;
    intros H; do 4 apply String.app_inj in H; discriminate.
Qed.

(** X6. After a run of [main] whose two fetching steps succeed, each output
    is on disk under its own name and none has overwritten another: the raw
    snapshot holds the trending results fetched, the genre file the genre
    map, and the by-genre table is the expansion of the frame saved as the
    clean table. *)
Theorem main_outputs {S}
    (server : string -> option (gmap string pval) -> S -> (exn + Body) * S)
    (quicksort : list Z -> list nat) (token : option string)
    (args : Args) (STAMP : string) (w w1 w2 : world S) (trending : Body)
    (genre_map : gmap Z string) (old : option (list Weekly))
    (Htoken : Py.truthy (default "" token) = true)
    (Htrend : get_trending server (media args) (window args) 5 w = (inr trending, w1))
    (Hgenres : get_genre_map server
                 (snd (write_file (raw_path args STAMP) (RawJson trending) w1))
               = (inr genre_map, w2))
    (Hold : files w !! hist_path args = Table <$> old) :
  let df := run_frame trending genre_map STAMP in
  let w' := snd (main server quicksort token args STAMP w) in
  files w' !! raw_path args STAMP = Some (RawJson trending) /\
  files w' !! "genres.json" = Some (GenresJson genre_map) /\
  files w' !! clean_path args STAMP = Some (Table df) /\
  files w' !! by_genre_path args STAMP
  = Some (ByGenre (expand_by_genre (fun r => Trend.genres (row r)) df)).
Proof.
  intros df w'.
  destruct (hist_path_fresh args STAMP) as (Hraw & Hclean & Hby & Hcast & Hgen).
  destruct (clean_path_fresh args STAMP) as (Hby' & Hhist' & Hcast').
  destruct (output_paths_distinct args STAMP)
    as (Hrc & Hrb & Hrk & Hrg & Hgc & Hgb & Hgk & Hbk).
  assert (files w2 = <["genres.json" := GenresJson genre_map]>
                       (<[raw_path args STAMP := RawJson trending]> (files w1))) as Hw2.
  { by rewrite (get_genre_map_to_files server _ _ _ _ Hgenres). }
  unfold w'. repeat split.
  - rewrite (main_files _ _ _ _ _ _ w1 w2 trending genre_map old) by done.
    rewrite !(lookup_insert_ne _ _ (raw_path args STAMP)) by done.
    rewrite Hw2, lookup_insert_ne by done. by rewrite lookup_insert_eq.
  - rewrite (main_files _ _ _ _ _ _ w1 w2 trending genre_map old) by done.
    rewrite !(lookup_insert_ne _ _ "genres.json") by done.
    by rewrite Hw2, lookup_insert_eq.
  - rewrite (main_files _ _ _ _ _ _ w1 w2 trending genre_map old) by done.
    rewrite !(lookup_insert_ne _ _ (clean_path args STAMP)) by done.
    by rewrite lookup_insert_eq.
  - rewrite (main_files _ _ _ _ _ _ w1 w2 trending genre_map old) by done.
    rewrite lookup_insert_ne by done. by rewrite lookup_insert_eq.
Qed.

Lemma main_outputs_witness :
  let w' := snd (main Demo.server (argsort_mergesort Z.leb) (Some "token") Demo.args
                   "2026-01-08" Demo.start) in
  files w' !! raw_path Demo.args "2026-01-08" = Some (RawJson Demo.trending) /\
  files w' !! "genres.json" = Some (GenresJson Demo.genre_map) /\
  files w' !! clean_path Demo.args "2026-01-08" = Some (Table Demo.frame) /\
  files w' !! by_genre_path Demo.args "2026-01-08"
  = Some (ByGenre (expand_by_genre (fun r => Trend.genres (row r)) Demo.frame)).
Proof.
  apply (main_outputs Demo.server (argsort_mergesort Z.leb) (Some "token") Demo.args
           "2026-01-08" Demo.start
           (snd (get_trending Demo.server "all" "week" 5 Demo.start))
           (snd (get_genre_map Demo.server
                   (snd (write_file (raw_path Demo.args "2026-01-08")
                           (RawJson Demo.trending)
                           (snd (get_trending Demo.server "all" "week" 5 Demo.start))))))
           Demo.trending Demo.genre_map None).
  - reflexivity.
  - vm_compute. reflexivity.
  - vm_compute. reflexivity.
  - reflexivity.
Defined.

(** ** What a run costs: calls of [fetch_json], GETs *)

Section Cost.
Context {S : Type}
        (server : string -> option (gmap string pval) -> S -> (exn + Body) * S).
Context (measure : world S -> nat) (per_fetch : nat).
Hypothesis fetch_cost : forall path params w,
  (measure (snd (fetch_json server path params w)) <= measure w + per_fetch)%nat.
Hypothesis sleep_free : forall secs w, measure (snd (sleep secs w)) = measure w.
Hypothesis write_free : forall name a w, measure (snd (write_file name a w)) = measure w.

Lemma costs_ret {A} (a : A) : costs measure (ret a) 0.
Proof. intros w. cbn. lia. Qed.

Lemma costs_raise {A} (e : exn) : costs measure (@raise S A e) 0.
Proof. intros w. cbn. lia. Qed.

Lemma costs_bind {A B} (c : M S A) (f : A -> M S B) k1 k2 :
  costs measure c k1 -> (forall a, costs measure (f a) k2) ->
  costs measure (bind c f) (k1 + k2).
Proof.
  intros Hc Hf w. unfold bind. specialize (Hc w).
  destruct (c w) as [[e|a] w1]; cbn [snd] in *; [lia|].
  specialize (Hf a w1). lia.
Qed.

Lemma costs_le {A} (c : M S A) k k' :
  (k <= k')%nat -> costs measure c k -> costs measure c k'.
Proof. intros Hk Hc w. specialize (Hc w). lia. Qed.

Lemma costs_fetch path params : costs measure (fetch_json server path params) per_fetch.
Proof. intros w. apply fetch_cost. Qed.

Lemma costs_sleep secs : costs measure (sleep secs) 0.
Proof. intros w. rewrite sleep_free. lia. Qed.

Lemma costs_write name a : costs measure (write_file name a) 0.
Proof. intros w. rewrite write_free. lia. Qed.

Lemma costs_paginate path request stamp todo acc :
  costs measure (paginate server path request stamp todo acc) (length todo * per_fetch).
Proof.
  revert acc. induction todo as [|page todo IH]; intros acc; [apply costs_ret|].
  cbn [paginate length].
  apply (costs_le _ (per_fetch + (0 + length todo * per_fetch))); [lia|].
  apply costs_bind; [apply costs_fetch|]. intros data.
  destruct (is_empty (default [] (results data))).
  - eapply costs_le; [|apply costs_ret]. lia.
  - apply costs_bind; [apply costs_sleep|]. intros _. apply IH.
Qed.

Lemma costs_get_trending media_type time_window pages :
  costs measure (get_trending server media_type time_window pages)
    (Z.to_nat pages * per_fetch).
Proof.
  intros w. unfold get_trending, bind. rewrite trending_pages_paginate.
  pose proof (costs_paginate (trending_path media_type time_window)
                (fun p => {[ "page" := PInt p ]}) (fun l => l)
                (Py.range 1 (pages + 1)) [] w) as H.
  rewrite range_length in H.
  by destruct (paginate _ _ _ _ _ _ w) as [[e|a] w1].
Qed.

Lemma costs_discover_range media_type start_date end_date pages :
  costs measure (discover_range server media_type start_date end_date pages)
    (Z.to_nat pages * per_fetch).
Proof.
  intros w. unfold discover_range.
  destruct (decide (media_type = "movie")); [|destruct (decide (media_type = "tv"))].
  - rewrite discover_pages_paginate.
    pose proof (costs_paginate "/discover/movie"
                  (fun p => <["page" := PInt p]> (movie_params start_date end_date))
                  (fmap (Raw.set_media_type media_type)) (Py.range 1 (pages + 1)) [] w) as H.
    by rewrite range_length in H.
  - rewrite discover_pages_paginate.
    pose proof (costs_paginate "/discover/tv"
                  (fun p => <["page" := PInt p]> (tv_params start_date end_date))
                  (fmap (Raw.set_media_type media_type)) (Py.range 1 (pages + 1)) [] w) as H.
    by rewrite range_length in H.
  - cbn. lia.
Qed.

Lemma costs_get_genre_map_to file :
  costs measure (get_genre_map_to server file) (2 * per_fetch).
Proof.
  unfold get_genre_map_to.
  apply (costs_le _ (per_fetch + (per_fetch + (0 + 0)))); [lia|].
  apply costs_bind; [apply costs_fetch|]. intros movie.
  apply costs_bind; [apply costs_fetch|]. intros tv.
  apply costs_bind; [apply costs_write|]. intros _. apply costs_ret.
Qed.

Lemma costs_get_credits media_type tmdb_id :
  costs measure (get_credits server media_type tmdb_id) per_fetch.
Proof.
  unfold get_credits. repeat case_decide; try apply costs_fetch.
  eapply costs_le; [|apply costs_ret]. lia.
Qed.

Lemma costs_sample_rows df sample acc :
  costs measure (sample_rows server df sample acc) (length sample * per_fetch).
Proof.
  revert acc. induction sample as [|r sample IH]; intros acc; [apply costs_ret|].
  cbn [sample_rows length].
  apply (costs_le _ (0 + (per_fetch + (0 + length sample * per_fetch)))); [lia|].
  apply costs_bind.
  { unfold int_id. destruct (Trend.id (row r)); [apply costs_ret|].
    destruct (forallb _ df); apply costs_raise. }
  intros i. apply costs_bind; [apply costs_get_credits|]. intros credits.
  apply costs_bind; [apply costs_sleep|]. intros _. apply IH.
Qed.

Lemma costs_top_cast quicksort df sample_size :
  costs measure (top_cast_from_sample server quicksort df sample_size)
    (length (Py.head sample_size df) * per_fetch).
Proof.
  unfold top_cast_from_sample.
  apply (costs_le _ (length (Py.head sample_size df) * per_fetch + 0)); [lia|].
  apply costs_bind; [apply costs_sample_rows|]. intros cc.
  destruct cc; apply costs_ret.
Qed.

Lemma head_length {A} (n : Z) (l : list A) :
  (0 <= n)%Z -> (length (Py.head n l) <= Z.to_nat n)%nat.
Proof.
  intros Hn. unfold Py.head. rewrite (proj2 (Z.leb_le 0 n)) by done.
  rewrite length_take. lia.
Qed.

(** The whole run of the trending script: five pages at most, the two genre
    lists, and at most [cast_sample] credits. *)
Lemma costs_main quicksort token args STAMP :
  costs measure (main server quicksort token args STAMP)
    ((7 + Z.to_nat (cast_sample args)) * per_fetch).
Proof.
  unfold main. destruct (negb (Py.truthy (default "" token))).
  { eapply costs_le; [|apply costs_raise]. lia. }
  apply (costs_le _ (5 * per_fetch + (0 + (2 * per_fetch
                     + (0 + (0 + (0 + (0 + (0 + Z.to_nat (cast_sample args) * per_fetch)))))))));
    [lia|].
  apply costs_bind; [apply (costs_get_trending _ _ 5)|]. intros trending.
  apply costs_bind; [apply costs_write|]. intros _.
  apply costs_bind; [apply costs_get_genre_map_to|]. intros genre_map.
  apply costs_bind; [apply costs_write|]. intros _.
  apply costs_bind; [apply costs_write|]. intros _.
  apply costs_bind; [intros w; cbn; lia|]. intros ex.
  apply costs_bind.
  { destruct ex; [|apply costs_ret].
    apply (costs_le _ (0 + 0)); [lia|].
    apply costs_bind; [|intros old; apply costs_ret].
    intros w. unfold read_csv. destruct (files w !! _) as [[]|]; cbn; lia. }
  intros hist. apply costs_bind; [apply costs_write|]. intros _.
  destruct (negb (is_empty _) && (0 <? cast_sample args)%Z) eqn:Hc.
  - apply andb_prop in Hc as [_ Hpos%Z.ltb_lt].
    set (df := run_frame trending genre_map STAMP).
    set (n := Z.min (cast_sample args) (Z.of_nat (length df))).
    apply (costs_le _ (length (Py.head n df) * per_fetch + 0)).
    { pose proof (head_length n df) as Hh. rewrite Nat.add_0_r.
      apply Nat.mul_le_mono_r. unfold n in *. lia. }
    apply costs_bind; [apply costs_top_cast|]. intros cast_df. apply costs_write.
  - eapply costs_le; [|apply costs_ret]. lia.
Qed.

(** The whole run of the historical script: the two genre lists and five
    pages at most for each of the two media kinds. *)
Lemma costs_historical_main token start_s end_s :
  costs measure (historical_main server token start_s end_s) (12 * per_fetch).
Proof.
  unfold historical_main. destruct (negb (Py.truthy (default "" token))).
  { eapply costs_le; [|apply costs_raise]. lia. }
  apply (costs_le _ (2 * per_fetch + (5 * per_fetch + (5 * per_fetch + 0)))); [lia|].
  apply costs_bind; [apply costs_get_genre_map_to|]. intros genre_map.
  apply costs_bind; [apply (costs_discover_range _ _ _ 5)|]. intros movie_results.
  apply costs_bind; [apply (costs_discover_range _ _ _ 5)|]. intros tv_results.
  destruct (is_empty _); apply costs_ret.
Qed.
End Cost.

(** X7. The network budget of a whole run, in calls of [fetch_json],
    however the run ends: the trending script makes at most
    7 + [cast_sample] calls (five pages, two genre lists, one credits call
    per sampled title; 7 when [cast_sample] is zero or negative), the
    historical script at most 12. *)
Theorem run_call_budget {S}
    (server : string -> option (gmap string pval) -> S -> (exn + Body) * S)
    (quicksort : list Z -> list nat) (token : option string) (args : Args)
    (STAMP start_s end_s : string) :
  costs calls_made (main server quicksort token args STAMP)
    (7 + Z.to_nat (cast_sample args)) /\
  costs calls_made (historical_main server token start_s end_s) 12.
Proof.
  assert (forall path params (w : world S),
            (calls_made (snd (fetch_json server path params w)) <= calls_made w + 1)%nat) as Hf.
  { intros path params w. unfold fetch_json, calls_made, ncalls.
    destruct (server path params (server_state w)) as [out s]. cbn [snd log].
    unfold calls. rewrite omap_app, length_app. cbn. lia. }
  assert (forall secs (w : world S), calls_made (snd (sleep secs w)) = calls_made w) as Hs.
  { intros secs w. unfold sleep, calls_made, ncalls, calls. cbn [snd log].
    rewrite omap_app, length_app. cbn. lia. }
  assert (forall name a (w : world S), calls_made (snd (write_file name a w)) = calls_made w)
    as Hw by done.
  split.
  - pose proof (costs_main server calls_made 1 Hf Hs Hw quicksort token args STAMP) as H.
    by rewrite Nat.mul_1_r in H.
  - apply (costs_historical_main server calls_made 1 Hf Hs Hw).
Qed.

(** ** [fetch_json], attempt by attempt *)

Section Attempts.
Context {S : Type} (remote : string -> gmap string pval -> S -> Http.Response * S).

Lemma gets_app l1 l2 : gets (l1 ++ l2) = (gets l1 + gets l2)%nat.
Proof. unfold gets. by rewrite List.filter_app, length_app. Qed.

(** The retry loop, for any list of attempts: as many GETs as attempts at
    most, all of the same URL and parameters, one second more of sleep after
    each refusal; what it returns is the body of the last response, whose
    status is 200; what it raises after a refusal is a [RuntimeError]. *)
Lemma attempts_run url q todo last_resp (w : Http.world S) :
  exists new,
    Http.log (snd (Http.attempts remote url q todo last_resp w)) = Http.log w ++ new /\
    (gets new <= length todo)%nat /\
    (todo <> [] -> (1 <= gets new)%nat) /\
    Forall (fun e => match e with
                     | Http.Get u p _ => u = url /\ p = q
                     | Http.Sleep _ => True
                     end) new /\
    match fst (Http.attempts remote url q todo last_resp w) with
    | inr body => exists r, last new = Some (Http.Get url q r) /\
                            Http.status_code r = 200%Z /\ Http.json r = body
    | inl e => (exists msg, e = RuntimeError msg) \/ (last_resp = None /\ todo = [])
    end.
Proof.
  revert last_resp w. induction todo as [|attempt todo IH]; intros last_resp w.
  { exists []. cbn [Http.attempts]. rewrite app_nil_r.
    destruct last_resp; cbn [fst snd]; (split; [done|]); (split; [done|]);
      (split; [done|]); (split; [constructor|]); eauto. }
  cbn [Http.attempts]. unfold Http.requests_get.
  destruct (remote url q (Http.remote_state w)) as [resp s1].
  destruct (Http.status_code resp =? 200)%Z eqn:Hst.
  - exists [Http.Get url q resp]. cbn [fst snd Http.log].
    split; [done|]. split; [cbn; lia|]. split; [intros _; cbn; lia|].
    split; [by repeat constructor|].
    exists resp. split; [done|]. split; [by apply Z.eqb_eq|done].
  - destruct (IH (Some resp)
                (Http.sleep (inject_Z (1 + attempt))
                   {| Http.remote_state := s1;
                      Http.log := Http.log w ++ [Http.Get url q resp] |}))
      as (new & Hlog & Hn & _ & Hall & Hout).
    exists (Http.Get url q resp :: Http.Sleep (inject_Z (1 + attempt)) :: new).
    split; [rewrite Hlog; cbn; by rewrite <- !app_assoc|].
    split; [change (gets (Http.Get url q resp :: Http.Sleep (inject_Z (1 + attempt)) :: new))
              with (Datatypes.S (gets new)); cbn; lia|].
    split; [intros _; change (gets (Http.Get url q resp :: Http.Sleep (inject_Z (1 + attempt)) :: new))
              with (Datatypes.S (gets new)); lia|].
    split; [by repeat constructor|].
    destruct (fst (Http.attempts remote url q todo (Some resp) _)) as [e|body].
    + destruct Hout as [Hout|[? _]]; [by left|done].
    + destruct Hout as (r & Hlast & Hr). exists r. split; [|done].
      destruct new; [done|]. by rewrite !last_cons_cons.
Qed.
End Attempts.

(** ** [fetch_json] with the exceptions of the library *)

Section WireAttempts.
Context {S : Type} (remote : string -> gmap string pval -> S -> (exn + Wire.Response) * S).



End WireAttempts.

(** [Http.fetch_json] is [Wire.fetch_json] on a remote that always answers
    with a body that parses. *)
Lemma wire_attempts_http {S} (remote : string -> gmap string pval -> S -> Http.Response * S)
    url q todo last_resp (w : Http.world S) :
  Wire.attempts (Wire.of_remote remote) url q todo (Wire.of_response <$> last_resp)
    (Wire.of_world w)
  = (fst (Http.attempts remote url q todo last_resp w),
     Wire.of_world (snd (Http.attempts remote url q todo last_resp w))).
Proof.
  revert last_resp w. induction todo as [|attempt todo IH]; intros last_resp w.
  - by destruct last_resp.
  - cbn [Wire.attempts Http.attempts]. unfold Wire.requests_get, Http.requests_get.
    unfold Wire.of_remote at 1. cbn [Wire.remote_state Wire.of_world].
    destruct (remote url q (Http.remote_state w)) as [resp s1].
    cbn [Wire.status_code Wire.of_response].
    destruct (Http.status_code resp =? 200)%Z.
    + cbn [fst snd Wire.json]. unfold Wire.of_world. cbn [Http.remote_state Http.log].
      by rewrite fmap_app.
    + rewrite <- (IH (Some resp)). f_equal.
      unfold Wire.of_world, Wire.sleep, Http.sleep. cbn.
      by rewrite !fmap_app.
Qed.

Lemma wire_fetch_json_http {S} (remote : string -> gmap string pval -> S -> Http.Response * S)
    path params (w : Http.world S) :
  Wire.fetch_json (Wire.of_remote remote) path params (Wire.of_world w)
  = (fst (Http.fetch_json remote path params w),
     Wire.of_world (snd (Http.fetch_json remote path params w))).
Proof. apply (wire_attempts_http remote _ _ _ None). Qed.

(** After a refusal, a response with status 200 whose text is not JSON: the
    parser's exception comes out of [fetch_json], after two GETs. *)
Example fetch_json_garbled :
  let out := Wire.fetch_json Demo.garbled "/genre/movie/list" None
               {| Wire.remote_state := 0%nat; Wire.log := [] |} in
  fst out = inl (JSONDecodeError "Expecting value: line 1 column 1 (char 0)") /\
  length (Wire.outcomes (Wire.log (snd out))) = 2%nat.
Proof. split; reflexivity. Qed.

(** X9. Over HTTP every call of [fetch_json] has its own three attempts, so
    a whole run of the trending script sends at most 3 * (7 + [cast_sample])
    GETs and a whole run of the historical script at most 36, however the
    remote answers. *)
Theorem run_get_budget {S} (remote : string -> gmap string pval -> S -> Http.Response * S)
    (quicksort : list Z -> list nat) (token : option string) (args : Args)
    (STAMP start_s end_s : string) :
  costs gets_sent (main (http_server remote) quicksort token args STAMP)
    (3 * (7 + Z.to_nat (cast_sample args))) /\
  costs gets_sent (historical_main (http_server remote) token start_s end_s) 36.
Proof.
  assert (forall path params (w : world (Http.world S)),
            (gets_sent (snd (fetch_json (http_server remote) path params w))
             <= gets_sent w + 3)%nat) as Hf.
  { intros path params w. unfold fetch_json, gets_sent, http_server, Http.fetch_json.
    destruct (attempts_run remote (API_BASE +:+ path) (default ∅ params) (Py.range 0 3)
                None (server_state w)) as (new & Hlog & Hn & _).
    destruct (Http.attempts remote _ _ _ None (server_state w)) as [out hw].
    cbn [snd server_state] in *. rewrite Hlog, gets_app.
    change (length (Py.range 0 3)) with 3%nat in Hn. lia. }
  assert (forall secs (w : world (Http.world S)),
            gets_sent (snd (sleep secs w)) = gets_sent w) as Hs by done.
  assert (forall name a (w : world (Http.world S)),
            gets_sent (snd (write_file name a w)) = gets_sent w) as Hw by done.
  split.
  - pose proof (costs_main (http_server remote) gets_sent 3 Hf Hs Hw quicksort token args
                  STAMP) as H.
    eapply costs_le; [|exact H]. lia.
  - pose proof (costs_historical_main (http_server remote) gets_sent 3 Hf Hs Hw token
                  start_s end_s) as H.
    eapply costs_le; [|exact H]. lia.
Qed.

(** ** The frame of a run, and the sample taken from it *)

Lemma run_frame_sorted (trending : Body) (genre_map : gmap Z string) (week_label : string) :
  StronglySorted (desc_by Qle_bool (fun r => Trend.popularity (row r)))
    (run_frame trending genre_map week_label).
Proof.
  unfold run_frame. rewrite normalize_trending_sort.
  eapply StronglySorted_fmap; [|apply (sort_values_desc_sorted Qle_bool), mergesort_Q_ok].
  done.
Qed.

(** X10. The rows [top_cast_from_sample] samples from the frame of a run
    are its most popular ones: the frame descends by popularity (rows without
    a popularity last), so no row left out of the sample goes before a
    sampled row in that order. *)
Theorem sample_most_popular (trending : Body) (genre_map : gmap Z string)
    (week_label : string) (sample_size : Z) (a b : Weekly)
    (Hsize : (0 <= sample_size)%Z) :
  let df := run_frame trending genre_map week_label in
  Py.head sample_size df ++ drop (Z.to_nat sample_size) df = df /\
  (a ∈ Py.head sample_size df -> b ∈ drop (Z.to_nat sample_size) df ->
   desc_by Qle_bool (fun r => Trend.popularity (row r)) a b).
Proof.
  intros df. unfold Py.head. rewrite (proj2 (Z.leb_le 0 sample_size)) by done.
  split; [apply take_drop|]. intros Ha Hb.
  pose proof (run_frame_sorted trending genre_map week_label) as Hs. fold df in Hs.
  rewrite <- (take_drop (Z.to_nat sample_size) df) in Hs.
  by eapply StronglySorted_app_1_elem_of.
Qed.

Lemma sample_most_popular_witness :
  Py.head 1 Demo.frame ++ drop 1 Demo.frame = Demo.frame /\
  forall a b, a ∈ Py.head 1 Demo.frame -> b ∈ drop 1 Demo.frame ->
              desc_by Qle_bool (fun r => Trend.popularity (row r)) a b.
Proof.
  split.
  - apply (sample_most_popular Demo.trending Demo.genre_map "2026-01-08" 1
             (Build_Weekly (Trend.build_row ∅ Demo.blank) "")
             (Build_Weekly (Trend.build_row ∅ Demo.blank) "")). lia.
  - intros a b. apply (sample_most_popular Demo.trending Demo.genre_map "2026-01-08" 1 a b).
    lia.
Defined.

(** ** The historical script *)

Section HistoricalMain.
Context {S : Type}
        (server : string -> option (gmap string pval) -> S -> (exn + Body) * S).

Lemma discover_range_stamped media_type start_date end_date pages (w w' : world S) rs :
  discover_range server media_type start_date end_date pages w = (inr rs, w') ->
  Forall (fun r => Raw.media_type r = Some media_type) rs /\ files w' = files w.
Proof.
  unfold discover_range. intros Hrun.
  destruct (decide (media_type = "movie")) as [->|_];
    [|destruct (decide (media_type = "tv")) as [->|_]].
  - rewrite discover_pages_paginate in Hrun.
    destruct (paginate_run server "/discover/movie"
                (fun p => <["page" := PInt p]> (movie_params start_date end_date))
                (fmap (Raw.set_media_type "movie")) (Py.range 1 (pages + 1)) [] w)
      as (new & goods & tail & s' & Hrun' & _).
    rewrite Hrun' in Hrun.
    destruct (page_outcome _ goods tail) eqn:Hout; [congruence|].
    simpl in Hrun. injection Hrun as <- <-. split; [|done].
    by apply page_outcome_stamped in Hout.
  - rewrite discover_pages_paginate in Hrun.
    destruct (paginate_run server "/discover/tv"
                (fun p => <["page" := PInt p]> (tv_params start_date end_date))
                (fmap (Raw.set_media_type "tv")) (Py.range 1 (pages + 1)) [] w)
      as (new & goods & tail & s' & Hrun' & _).
    rewrite Hrun' in Hrun.
    destruct (page_outcome _ goods tail) eqn:Hout; [congruence|].
    simpl in Hrun. injection Hrun as <- <-. split; [|done].
    by apply page_outcome_stamped in Hout.
  - injection Hrun as <- <-. split; [constructor|done].
Qed.

(** X11. A run of the historical script whose fetches succeed: with no
    result at all it writes no table; otherwise it writes the same frame
    under the dated and the latest name, and the expansion of that frame
    under the dated and the latest by-genre name.  The frame has one row for
    each movie and each series fetched, every row bears the media kind
    ["movie"] or ["tv"], and it descends by popularity.  The genre file holds
    the genre map. *)
Theorem historical_main_tables (token : option string) (start_s end_s : string)
    (w w1 w2 w3 : world S) (genre_map : gmap Z string) (movie tv : list Raw.t)
    (Htoken : Py.truthy (default "" token) = true)
    (Hgenres : get_genre_map_historical server w = (inr genre_map, w1))
    (Hmovie : discover_range server "movie" start_s end_s PAGES w1 = (inr movie, w2))
    (Htv : discover_range server "tv" start_s end_s PAGES w2 = (inr tv, w3)) :
  let df := Historical.normalize_results (movie ++ tv) genre_map in
  let by_genre := expand_by_genre Historical.genres df in
  historical_main server token start_s end_s w
  = (inr (if is_empty (movie ++ tv) then []
          else [ (hist_clean_path end_s, HistTable df);
                 ("historical_all_clean_latest.csv", HistTable df);
                 (hist_by_genre_path end_s, HistByGenre by_genre);
                 ("historical_all_by_genre_latest.csv", HistByGenre by_genre) ]), w3) /\
  length df = (length movie + length tv)%nat /\
  Forall (fun r => Historical.media_type r = Some "movie"
                   \/ Historical.media_type r = Some "tv") df /\
  StronglySorted (desc_by Qle_bool Historical.popularity) df /\
  (length df <= length by_genre)%nat /\
  files w3 = <["genres_historical.json" := GenresJson genre_map]> (files w).
Proof.
  intros df by_genre.
  apply discover_range_stamped in Hmovie as Hm. destruct Hm as [Hm Hf2].
  apply discover_range_stamped in Htv as Ht. destruct Ht as [Ht Hf3].
  split; [|split; [|split; [|split; [|split]]]].
  - unfold historical_main. rewrite Htoken. cbn [negb].
    unfold bind at 1. rewrite Hgenres. unfold bind at 1. rewrite Hmovie.
    unfold bind at 1. rewrite Htv. cbn [app].
    by destruct (is_empty (movie ++ tv)).
  - unfold df. by rewrite (Permutation_length (normalize_results_perm _ _)),
      length_fmap, length_app.
  - unfold df. rewrite normalize_results_perm. apply Forall_fmap, Forall_app.
    split; (eapply Forall_impl; [eassumption|]); cbn; auto.
  - unfold df. rewrite normalize_results_sort.
    apply (sort_values_desc_sorted Qle_bool), mergesort_Q_ok.
  - unfold by_genre, expand_by_genre. clear. induction df as [|r df IH]; [done|].
    cbn [mbind list_bind]. rewrite length_app. cbn [length].
    assert (1 <= length (expand_row Historical.genres r))%nat; [|lia].
    unfold expand_row. destruct (g_list Historical.genres r); cbn; lia.
  - rewrite Hf3, Hf2. by apply (get_genre_map_to_files server _ _ _ _ Hgenres).
Qed.
End HistoricalMain.

Lemma historical_main_tables_witness :
  let df := Historical.normalize_results
              [Raw.set_media_type "movie" Demo.v; Raw.set_media_type "tv" Demo.y]
              Demo.genre_map in
  exists w3,
    historical_main discover_server (Some "token") "2025-07-12" "2026-01-08" Demo.start
    = (inr [ (hist_clean_path "2026-01-08", HistTable df);
             ("historical_all_clean_latest.csv", HistTable df);
             (hist_by_genre_path "2026-01-08",
              HistByGenre (expand_by_genre Historical.genres df));
             ("historical_all_by_genre_latest.csv",
              HistByGenre (expand_by_genre Historical.genres df)) ], w3) /\
    length df = 2%nat.
Proof.
  intros df.
  destruct (historical_main_tables discover_server (Some "token") "2025-07-12" "2026-01-08"
              Demo.start
              (snd (get_genre_map_historical discover_server Demo.start))
              (snd (discover_range discover_server "movie" "2025-07-12" "2026-01-08" PAGES
                      (snd (get_genre_map_historical discover_server Demo.start))))
              (snd (discover_range discover_server "tv" "2025-07-12" "2026-01-08" PAGES
                      (snd (discover_range discover_server "movie" "2025-07-12"
                              "2026-01-08" PAGES
                              (snd (get_genre_map_historical discover_server Demo.start))))))
              Demo.genre_map [Raw.set_media_type "movie" Demo.v]
              [Raw.set_media_type "tv" Demo.y])
    as (Hrun & Hlen & _).
  - reflexivity.
  - vm_compute. reflexivity.
  - vm_compute. reflexivity.
  - vm_compute. reflexivity.
  - eexists. split; [exact Hrun | exact Hlen].
Defined.

(** ** A run of the trending script without cast sampling *)

(** X12. With [cast_sample] zero or negative, or with an empty frame, a run
    of [main] whose fetching steps succeed ends normally right after the
    history is written: nothing is fetched or slept after the genre lists, and
    no cast table is written. *)
Theorem main_without_sampling {S}
    (server : string -> option (gmap string pval) -> S -> (exn + Body) * S)
    (quicksort : list Z -> list nat) (token : option string)
    (args : Args) (STAMP : string) (w w1 w2 : world S) (trending : Body)
    (genre_map : gmap Z string) (old : option (list Weekly))
    (Htoken : Py.truthy (default "" token) = true)
    (Htrend : get_trending server (media args) (window args) 5 w = (inr trending, w1))
    (Hgenres : get_genre_map server
                 (snd (write_file (raw_path args STAMP) (RawJson trending) w1))
               = (inr genre_map, w2))
    (Hold : files w !! hist_path args = Table <$> old)
    (Hoff : (cast_sample args <= 0)%Z \/ run_frame trending genre_map STAMP = []) :
  let df := run_frame trending genre_map STAMP in
  exists w',
    main server quicksort token args STAMP w = (inr tt, w') /\
    log w' = log w2 /\ server_state w' = server_state w2 /\
    files w' !! cast_path STAMP = files w !! cast_path STAMP.
Proof.
  intros df.
  destruct (hist_path_fresh args STAMP) as (Hraw & Hclean & Hby & Hcast & Hgen).
  destruct (clean_path_fresh args STAMP) as (_ & _ & Hcast').
  destruct (output_paths_distinct args STAMP) as (_ & _ & Hrk & _ & _ & _ & Hgk & Hbk).
  assert (files w1 = files w) as Hf1.
  { pose proof (get_trending_files server (media args) (window args) 5 w) as Hf.
    by rewrite Htrend in Hf. }
  assert (files w2 = <["genres.json" := GenresJson genre_map]>
                       (<[raw_path args STAMP := RawJson trending]> (files w))) as Hf2.
  { rewrite (get_genre_map_to_files server _ _ _ _ Hgenres). cbn. by rewrite Hf1. }
  assert (negb (is_empty df) && (0 <? cast_sample args)%Z = false) as Hno.
  { destruct Hoff as [Hcs|Hdf].
    - rewrite (proj2 (Z.ltb_ge 0 (cast_sample args))) by done. apply andb_false_r.
    - fold df in Hdf. by rewrite Hdf. }
  unfold main. rewrite Htoken. cbn [negb].
  unfold bind at 1. rewrite Htrend.
  unfold bind at 1, write_file at 1.
  unfold write_file at 1 in Hgenres. cbn [snd] in Hgenres.
  unfold bind at 1. rewrite Hgenres. fold df.
  unfold bind at 1, write_file at 1. unfold bind at 1, write_file at 1.
  unfold bind at 1, file_exists at 1. cbn [files].
  rewrite !(lookup_insert_ne _ _ (hist_path args)) by done.
  rewrite Hf2. rewrite !(lookup_insert_ne _ _ (hist_path args)) by done. rewrite Hold.
  rewrite Hno.
  destruct old as [old|]; cbn [fmap option_fmap option_map default].
  - rewrite bool_decide_true by eauto.
    unfold bind at 1. unfold bind at 1. unfold read_csv at 1. cbn [files].
    rewrite !(lookup_insert_ne _ _ (hist_path args)) by done. rewrite Hold.
    cbn [fmap option_fmap option_map]. unfold ret at 1.
    unfold bind at 1, write_file at 1. unfold ret.
    eexists. split; [reflexivity|]. cbn [log server_state files].
    repeat split.
    by rewrite !(lookup_insert_ne _ _ (cast_path STAMP)) by done.
  - rewrite bool_decide_false by (by intros [? ?]).
    unfold bind at 1. unfold ret at 1.
    unfold bind at 1, write_file at 1. unfold ret.
    eexists. split; [reflexivity|]. cbn [log server_state files].
    repeat split.
    by rewrite !(lookup_insert_ne _ _ (cast_path STAMP)) by done.
Qed.

Lemma main_without_sampling_witness :
  let args := {| media := "all"; window := "week"; cast_sample := 0 |} in
  exists w',
    main Demo.server (argsort_mergesort Z.leb) (Some "token") args "2026-01-08"
      Demo.start_with_history = (inr tt, w') /\
    ncalls (log w') = 5%nat /\
    files w' !! cast_path "2026-01-08" = None.
Proof.
  intros args.
  destruct (main_without_sampling Demo.server (argsort_mergesort Z.leb) (Some "token") args
              "2026-01-08" Demo.start_with_history
              (snd (get_trending Demo.server "all" "week" 5 Demo.start_with_history))
              (snd (get_genre_map Demo.server
                      (snd (write_file (raw_path args "2026-01-08")
                              (RawJson Demo.trending)
                              (snd (get_trending Demo.server "all" "week" 5
                                      Demo.start_with_history))))))
              Demo.trending Demo.genre_map (Some Demo.old_history))
    as (w' & Hrun & Hlog & _ & Hcast).
  - reflexivity.
  - vm_compute. reflexivity.
  - vm_compute. reflexivity.
  - reflexivity.
  - left. cbn. lia.
  - exists w'. split; [exact Hrun|]. split; [by rewrite Hlog|]. by rewrite Hcast.
Defined.

(** ** A frame already in order *)

Section SameClasses.
Context {A : Type} (leb : A -> A -> bool).
Hypothesis leb_total : forall a b, leb a b = true \/ leb b a = true.

(** Two sorted lists are the same list as soon as they agree on the
    elements that compare equal to any given one, order included. *)
Lemma sorted_same_classes s t :
  StronglySorted (fun a b => leb a b = true) s ->
  StronglySorted (fun a b => leb a b = true) t ->
  (forall c, List.filter (fun y => leb c y && leb y c) s
             = List.filter (fun y => leb c y && leb y c) t) ->
  s = t.
Proof.
  assert (forall a, leb a a && leb a a = true) as Hself.
  { intros a. by rewrite (leb_refl leb leb_total). }
  revert t. induction s as [|a s IH]; intros [|b t] Hs Ht Hcl; [done| | |].
  - specialize (Hcl b). cbn [List.filter] in Hcl. by rewrite Hself in Hcl.
  - specialize (Hcl a). cbn [List.filter] in Hcl. by rewrite Hself in Hcl.
  - assert (leb b a = true) as Hba.
    { assert (In a (List.filter (fun y => leb a y && leb y a) (b :: t))) as Hin.
      { rewrite <- (Hcl a). cbn [List.filter]. rewrite Hself. by left. }
      apply List.filter_In in Hin as [Hin _].
      by apply (sorted_head_least leb leb_total b t). }
    assert (leb a b = true) as Hab.
    { assert (In b (List.filter (fun y => leb b y && leb y b) (a :: s))) as Hin.
      { rewrite (Hcl b). cbn [List.filter]. rewrite Hself. by left. }
      apply List.filter_In in Hin as [Hin _].
      by apply (sorted_head_least leb leb_total a s). }
    assert (a = b) as <-.
    { pose proof (Hcl a) as H. cbn [List.filter] in H.
      rewrite Hself, Hab, Hba in H. cbn [andb] in H. congruence. }
    f_equal. apply IH.
    + by apply StronglySorted_inv in Hs as [? _].
    + by apply StronglySorted_inv in Ht as [? _].
    + intros c. specialize (Hcl c). cbn [List.filter] in Hcl.
      destruct (leb c a && leb a c); congruence.
Qed.
End SameClasses.

Lemma desc_leb_total {A} (col : A -> option Q) a b :
  desc_leb col a b = true \/ desc_leb col b a = true.
Proof.
  unfold desc_leb. destruct (col a), (col b); auto. apply Qle_bool_total.
Qed.

Lemma desc_leb_desc_by {A} (col : A -> option Q) a b :
  desc_by Qle_bool col a b <-> desc_leb col a b = true.
Proof. unfold desc_by, desc_leb. by destruct (col a), (col b). Qed.

Lemma desc_leb_class {A} (col : A -> option Q) c y :
  desc_leb col c y && desc_leb col y c = same_key col (col c) y.
Proof.
  unfold desc_leb, same_key. destruct (col c) as [x|], (col y) as [z|]; try done.
  destruct (Qeq_bool x z) eqn:He.
  - apply Qeq_bool_eq in He. apply andb_true_iff. rewrite !Qle_bool_iff, He.
    split; apply Qle_refl.
  - apply andb_false_iff.
    destruct (Qle_bool z x) eqn:H1, (Qle_bool x z) eqn:H2; auto.
    apply Qle_bool_iff in H1, H2. apply Qeq_bool_neq in He.
    destruct He. by apply Qle_antisym.
Qed.

Lemma sort_values_sorted_id {A} (col : A -> option Q) (df : list A) :
  StronglySorted (desc_by Qle_bool col) df ->
  sort_values_desc mergesort_Q col df = df.
Proof.
  intros Hs.
  apply (sorted_same_classes (desc_leb col) (desc_leb_total col)).
  - eapply (StronglySorted_on (fun _ => True));
      [by apply Forall_forall| |apply (sort_values_desc_sorted Qle_bool), mergesort_Q_ok].
    intros x y _ _. apply desc_leb_desc_by.
  - eapply (StronglySorted_on (fun _ => True)); [by apply Forall_forall| |exact Hs].
    intros x y _ _. apply desc_leb_desc_by.
  - intros c.
    rewrite !(List.filter_ext _ _ (desc_leb_class col c)).
    apply sort_by_popularity_stable.
Qed.

(** X13. Normalization does not reorder results that already descend by
    popularity (results without a popularity last): the rows come out in the
    order of the input, in both scripts. *)
Theorem normalize_keeps_order (genre_map : gmap Z string) (results : list Raw.t)
    (Hsorted : StronglySorted (desc_by Qle_bool Raw.popularity) results) :
  Trend.normalize_trending results genre_map = Trend.build_row genre_map <$> results /\
  Historical.normalize_results results genre_map
  = Historical.build_row genre_map <$> results.
Proof.
  rewrite normalize_trending_sort, normalize_results_sort.
  split; apply sort_values_sorted_id;
    (eapply StronglySorted_fmap; [|exact Hsorted]); done.
Qed.

Lemma normalize_keeps_order_witness :
  Trend.normalize_trending [Demo.y; Demo.x; Demo.z; Demo.blank] Demo.genre_map
  = Trend.build_row Demo.genre_map <$> [Demo.y; Demo.x; Demo.z; Demo.blank].
Proof.
  refine (proj1 (normalize_keeps_order Demo.genre_map
                   [Demo.y; Demo.x; Demo.z; Demo.blank] _)).
  repeat constructor; done.
Defined.

(** ** Run after run *)

(** X14. Two runs of [main] one after the other, each with its fetching
    steps succeeding, leave a history of [N + M1 + M2] rows, where [N] rows
    were there before and [M1] and [M2] are the sizes of the two frames: no
    row is dropped or merged, and a second run on the same day appends its
    rows again.  The last [M2] rows are the frame of the second run. *)
Theorem history_two_runs {S}
    (server : string -> option (gmap string pval) -> S -> (exn + Body) * S)
    (quicksort : list Z -> list nat) (token : option string) (args : Args)
    (STAMP1 STAMP2 : string) (w w1 w2 v1 v2 : world S) (trending1 trending2 : Body)
    (genre_map1 genre_map2 : gmap Z string) (old : option (list Weekly))
    (Htoken : Py.truthy (default "" token) = true)
    (Hold : files w !! hist_path args = Table <$> old)
    (Htrend1 : get_trending server (media args) (window args) 5 w = (inr trending1, w1))
    (Hgenres1 : get_genre_map server
                  (snd (write_file (raw_path args STAMP1) (RawJson trending1) w1))
                = (inr genre_map1, w2))
    (Htrend2 : get_trending server (media args) (window args) 5
                 (snd (main server quicksort token args STAMP1 w)) = (inr trending2, v1))
    (Hgenres2 : get_genre_map server
                  (snd (write_file (raw_path args STAMP2) (RawJson trending2) v1))
                = (inr genre_map2, v2)) :
  let df1 := run_frame trending1 genre_map1 STAMP1 in
  let df2 := run_frame trending2 genre_map2 STAMP2 in
  let w' := snd (main server quicksort token args STAMP1 w) in
  let w'' := snd (main server quicksort token args STAMP2 w') in
  exists hist,
    files w'' !! hist_path args = Some (Table hist) /\
    length hist = (length (default [] old) + length df1 + length df2)%nat /\
    drop (length (default [] old) + length df1) hist = df2.
Proof.
  intros df1 df2 w' w''.
  assert (files w' !! hist_path args
          = Table <$> Some ((read_row <$> default [] old) ++ df1)) as Hold'.
  { unfold w'. by rewrite (main_history _ _ _ _ _ w w1 w2 trending1 genre_map1 old). }
  eexists. split.
  { unfold w''.
    by apply (main_history _ _ _ _ _ w' v1 v2 trending2 genre_map2
                (Some ((read_row <$> default [] old) ++ df1))). }
  cbn [default id]. fold df2. split.
  - rewrite !length_app, !length_fmap, length_app, length_fmap. lia.
  - apply drop_app_length'. by rewrite length_fmap, length_app, length_fmap.
Qed.

Lemma history_two_runs_witness :
  let w' := snd (main Demo.server numpy_quicksort (Some "token") Demo.args
                   "2026-01-08" Demo.start_with_history) in
  let w'' := snd (main Demo.server numpy_quicksort (Some "token") Demo.args
                    "2026-01-08" w') in
  exists hist,
    files w'' !! hist_path Demo.args = Some (Table hist) /\
    length hist = 7%nat /\
    drop 4 hist = Demo.frame.
Proof.
  intros w' w''.
  set (t1 := snd (get_trending Demo.server "all" "week" 5 Demo.start_with_history)).
  set (g1 := snd (get_genre_map Demo.server
                    (snd (write_file (raw_path Demo.args "2026-01-08")
                            (RawJson Demo.trending) t1)))).
  set (t2 := snd (get_trending Demo.server "all" "week" 5 w')).
  set (g2 := snd (get_genre_map Demo.server
                    (snd (write_file (raw_path Demo.args "2026-01-08")
                            (RawJson Demo.trending) t2)))).
  apply (history_two_runs Demo.server numpy_quicksort (Some "token") Demo.args
           "2026-01-08" "2026-01-08" Demo.start_with_history t1 g1 t2 g2
           Demo.trending Demo.trending Demo.genre_map Demo.genre_map
           (Some Demo.old_history)).
  - reflexivity.
  - reflexivity.
  - vm_compute. reflexivity.
  - vm_compute. reflexivity.
  - vm_compute. reflexivity.
  - vm_compute. reflexivity.
Defined.
